(** * DevMate code reviewer: a shallow embedding of the findings pipeline

    The development follows the Python sources module by module:
    [Py] collects the fragments of the Python runtime the sources rely on
    (exceptions, [str] methods, built-in objects, [float] and [round]);
    [LlmAgent], [Analyzer], [Reporter] and [App] embed [llm_agent.py],
    [analyzer.py], [reporter.py] and [app.py].  The theorems come last. *)

From Stdlib Require Import ZArith NArith List String Ascii Bool Lia.
From Stdlib Require Import Floats.SpecFloat.
Import ListNotations.

Set Implicit Arguments.
Open Scope Z_scope.

(* ===================================================================== *)
(** * Python runtime fragments                                            *)
(* ===================================================================== *)

Module Py.

(** ** Exceptions

    A raised exception is its class name and its message ([str(e)]). *)

Record exn := Exn { exn_class : string; exn_text : list N }.

Inductive result (A : Type) : Type :=
| Ok (a : A)
| Raise (e : exn).

Arguments Ok {A} a.
Arguments Raise {A} e.

Definition bind {A B} (r : result A) (k : A -> result B) : result B :=
  match r with
  | Ok a => k a
  | Raise e => Raise e
  end.

Declare Scope py_scope.
Delimit Scope py_scope with py.
Notation "'do' x <- c1 ; c2" := (bind c1 (fun x => c2))
  (at level 10, x name, c1 at level 100, c2 at level 200) : py_scope.
Open Scope py_scope.

(** [try: body except Exception: handler] *)
Definition try_except {A} (body : result A) (handler : exn -> result A) : result A :=
  match body with
  | Ok a => Ok a
  | Raise e => handler e
  end.

Definition is_ok {A} (r : result A) : bool :=
  match r with Ok _ => true | Raise _ => false end.

(** [for x in l: ...] with a body that may raise, collecting one value per
    iteration. *)
Fixpoint map_result {A B} (f : A -> result B) (l : list A) : result (list B) :=
  match l with
  | [] => Ok []
  | x :: l' => do y <- f x; do ys <- map_result f l'; Ok (y :: ys)
  end.

(** ** Text

    A Python [str] is a sequence of Unicode code points. *)

Definition char := N.
Definition text := list char.

(** An ASCII literal of the sources. *)
Definition u (s : string) : text := map N_of_ascii (list_ascii_of_string s).

Fixpoint text_eqb (a b : text) : bool :=
  match a, b with
  | [], [] => true
  | x :: a', y :: b' => N.eqb x y && text_eqb a' b'
  | _, _ => false
  end.

Definition mem_char (c : char) (cs : text) : bool := existsb (N.eqb c) cs.

(** [s.startswith(p)] *)
Fixpoint startswith (p s : text) : bool :=
  match p, s with
  | [], _ => true
  | x :: p', y :: s' => N.eqb x y && startswith p' s'
  | _ :: _, [] => false
  end.

(** [p in s] *)
Fixpoint contains (p s : text) : bool :=
  startswith p s ||
  match s with
  | [] => false
  | _ :: s' => contains p s'
  end.

(** [s.replace(old, new)] and [s.replace(old, new, count)] for a non-empty
    [old]: a left-to-right scan for non-overlapping occurrences.  [skip]
    counts the characters of a replaced occurrence still to be passed
    over; [count] is the number of replacements still allowed ([None]: no
    limit). *)
Fixpoint replace_scan (old new : text) (skip : nat) (count : option nat)
  (s : text) : text :=
  match s with
  | [] => []
  | c :: s' =>
    match skip with
    | S k => replace_scan old new k count s'
    | O =>
      let allowed := match count with Some O => false | _ => true end in
      if allowed && startswith old s
      then new ++ replace_scan old new (Nat.pred (List.length old))
                    (option_map Nat.pred count) s'
      else c :: replace_scan old new O count s'
    end
  end.

Definition replace (old new s : text) : text := replace_scan old new O None s.
Definition replace_count (old new : text) (count : nat) (s : text) : text :=
  replace_scan old new O (Some count) s.

(** [str.isspace] on one character: the code points Python treats as
    whitespace ([str.split()], [str.strip()] and [float] use this set). *)
Definition isspace (c : char) : bool :=
  ((9 <=? c) && (c <=? 13))%N || ((28 <=? c) && (c <=? 32))%N ||
  (c =? 133)%N || (c =? 160)%N || (c =? 5760)%N ||
  ((8192 <=? c) && (c <=? 8202))%N || (c =? 8232)%N || (c =? 8233)%N ||
  (c =? 8239)%N || (c =? 8287)%N || (c =? 12288)%N.

(** [s.split()]: the maximal runs of non-whitespace characters, in order.
    [cur] is the current run, reversed. *)
Fixpoint split_scan (cur : text) (s : text) : list text :=
  match s with
  | [] => match cur with [] => [] | _ => [rev cur] end
  | c :: s' =>
    if isspace c
    then match cur with
         | [] => split_scan [] s'
         | _ => rev cur :: split_scan [] s'
         end
    else split_scan (c :: cur) s'
  end.

Definition split (s : text) : list text := split_scan [] s.

Fixpoint dropwhile (p : char -> bool) (s : text) : text :=
  match s with
  | [] => []
  | c :: s' => if p c then dropwhile p s' else s
  end.

Definition strip_by (p : char -> bool) (s : text) : text :=
  rev (dropwhile p (rev (dropwhile p s))).

(** [s.strip(chars)]: removes, at both ends, every character that occurs in
    [chars]; [chars] is a set of characters, not a prefix or a suffix. *)
Definition strip_chars (chars s : text) : text :=
  strip_by (fun c => mem_char c chars) s.

(** [s.strip()] *)
Definition strip (s : text) : text := strip_by isspace s.

(** [str.lower] and [str.isdigit]: the case and digit tables are those of
    the code points U+0000..U+00FF; the tables of the higher planes are
    not part of the model (such characters are left unchanged and are not
    digits). *)
Definition lower_char (c : char) : char :=
  if ((65 <=? c) && (c <=? 90))%N then (c + 32)%N
  else if ((192 <=? c) && (c <=? 222) && negb (c =? 215))%N then (c + 32)%N
  else c.

Definition lower (s : text) : text := map lower_char s.

Definition is_ascii_digit (c : char) : bool := ((48 <=? c) && (c <=? 57))%N.

Definition isdigit_char (c : char) : bool :=
  is_ascii_digit c || (c =? 178)%N || (c =? 179)%N || (c =? 185)%N.

(** [s.isdigit()]: false on the empty string. *)
Definition isdigit (s : text) : bool :=
  match s with
  | [] => false
  | _ => forallb isdigit_char s
  end.

(** [l[:n]] on a list (and on a string, as a list of characters). *)
Definition slice_to {A} (n : Z) (l : list A) : list A :=
  if 0 <=? n then firstn (Z.to_nat n) l
  else firstn (Z.to_nat (Z.of_nat (List.length l) + n)) l.

(** ** Integers as text: [str(n)] for an [int]. *)

Fixpoint digits_of_pos (fuel : nat) (n : N) (acc : text) : text :=
  match fuel with
  | O => acc
  | S fuel' =>
    let acc' := (48 + n mod 10)%N :: acc in
    if (n <? 10)%N then acc' else digits_of_pos fuel' (n / 10)%N acc'
  end.

Definition text_of_N (n : N) : text := digits_of_pos (S (N.to_nat (N.log2 n))) n [].

Definition text_of_Z (z : Z) : text :=
  match z with
  | Zneg p => 45%N :: text_of_N (Npos p)
  | _ => text_of_N (Z.to_N z)
  end.

(** ** Built-in objects

    The objects that flow through the pipeline: what [json.loads] returns
    and what the sources build from it.  A [dict] keeps its items in
    insertion order. *)

#[warnings="-register-all"]
Inductive value : Type :=
| VNone
| VBool (b : bool)
| VInt (z : Z)
| VStr (s : text)
| VList (l : list value)
| VDict (d : list (text * value)).

(** Truth value of an object ([x or y], [if x]). *)
Definition truthy (v : value) : bool :=
  match v with
  | VNone => false
  | VBool b => b
  | VInt z => negb (z =? 0)
  | VStr s => match s with [] => false | _ => true end
  | VList l => match l with [] => false | _ => true end
  | VDict d => match d with [] => false | _ => true end
  end.

(** [x or y] *)
Definition py_or (x y : value) : value := if truthy x then x else y.

Definition hex_digit (n : N) : char :=
  if (n <? 10)%N then (48 + n)%N else (87 + n)%N.

Definition isprintable (c : char) : bool :=
  if (c <? 32)%N then false
  else if (c <? 127)%N then true
  else if (c <? 161)%N then false
  else negb (c =? 173)%N.

Definition repr_char (quote : char) (c : char) : text :=
  if (c =? quote)%N || (c =? 92)%N then [92%N; c]
  else if (c =? 9)%N then u "\t"
  else if (c =? 10)%N then u "\n"
  else if (c =? 13)%N then u "\r"
  else if isprintable c then [c]
  else u "\x" ++ [hex_digit (c / 16); hex_digit (c mod 16)].

(** [repr(s)] for a [str]; the printable table is that of U+0000..U+00FF. *)
Definition repr_text (s : text) : text :=
  let quote := if mem_char 39%N s && negb (mem_char 34%N s) then 34%N else 39%N in
  quote :: flat_map (repr_char quote) s ++ [quote].

(** [sep.join(parts)] *)
Fixpoint join (sep : text) (parts : list text) : text :=
  match parts with
  | [] => []
  | [p] => p
  | p :: ps => p ++ sep ++ join sep ps
  end.

Fixpoint repr (v : value) : text :=
  match v with
  | VNone => u "None"
  | VBool true => u "True"
  | VBool false => u "False"
  | VInt z => text_of_Z z
  | VStr s => repr_text s
  | VList l => u "[" ++ join (u ", ") (map repr l) ++ u "]"
  | VDict d =>
    u "{" ++
    join (u ", ") (map (fun kv => repr_text (fst kv) ++ u ": " ++ repr (snd kv)) d)
    ++ u "}"
  end.

(** [str(v)], also what an f-string substitutes for [{v}]. *)
Definition str (v : value) : text :=
  match v with
  | VStr s => s
  | _ => repr v
  end.

(** The name of the class of an object, for error messages. *)
Definition type_name (v : value) : text :=
  match v with
  | VNone => u "NoneType"
  | VBool _ => u "bool"
  | VInt _ => u "int"
  | VStr _ => u "str"
  | VList _ => u "list"
  | VDict _ => u "dict"
  end.

Definition AttributeError (v : value) (attr : string) : exn :=
  Exn "AttributeError"
      (u "'" ++ type_name v ++ u "' object has no attribute '" ++ u attr ++ u "'").

Definition TypeError (msg : text) : exn := Exn "TypeError" msg.
Definition KeyError (k : text) : exn := Exn "KeyError" (repr_text k).
Definition RuntimeError (msg : string) : exn := Exn "RuntimeError" (u msg).

Fixpoint lookup (k : text) (d : list (text * value)) : option value :=
  match d with
  | [] => None
  | (k', v) :: d' => if text_eqb k k' then Some v else lookup k d'
  end.

(** [v.get(key, default)]: only a [dict] has the method. *)
Definition get (v : value) (key : string) (default : value) : result value :=
  match v with
  | VDict d =>
    Ok match lookup (u key) d with Some x => x | None => default end
  | _ => Raise (AttributeError v "get")
  end.

(** [v[key]] for a string key. *)
Definition getitem (v : value) (key : string) : result value :=
  match v with
  | VDict d =>
    match lookup (u key) d with
    | Some x => Ok x
    | None => Raise (KeyError (u key))
    end
  | VList _ => Raise (TypeError (u "list indices must be integers or slices, not str"))
  | VStr _ => Raise (TypeError (u "string indices must be integers, not 'str'"))
  | _ => Raise (TypeError (u "'" ++ type_name v ++ u "' object is not subscriptable"))
  end.

(** [v[:n]]: lists and strings can be sliced. *)
Definition getslice (v : value) (n : Z) : result value :=
  match v with
  | VList l => Ok (VList (slice_to n l))
  | VStr s => Ok (VStr (slice_to n s))
  | VDict _ => Raise (TypeError (u "unhashable type: 'slice'"))
  | _ => Raise (TypeError (u "'" ++ type_name v ++ u "' object is not subscriptable"))
  end.

(** [for x in v]: the elements of a list, the keys of a dict, the
    characters of a string. *)
Definition iterate (v : value) : result (list value) :=
  match v with
  | VList l => Ok l
  | VDict d => Ok (map (fun kv => VStr (fst kv)) d)
  | VStr s => Ok (map (fun c => VStr [c]) s)
  | _ => Raise (TypeError (u "'" ++ type_name v ++ u "' object is not iterable"))
  end.

(** [list(v.items())] *)
Definition items (v : value) : result (list (text * value)) :=
  match v with
  | VDict d => Ok d
  | _ => Raise (AttributeError v "items")
  end.

(** [v.lower()]: a method of [str]. *)
Definition lower_method (v : value) : result text :=
  match v with
  | VStr s => Ok (lower s)
  | _ => Raise (AttributeError v "lower")
  end.

(** [v.split()]: a method of [str]. *)
Definition split_method (v : value) : result (list text) :=
  match v with
  | VStr s => Ok (split s)
  | _ => Raise (AttributeError v "split")
  end.

(** [sep.join(parts)] raises unless every part is a [str]. *)
Fixpoint join_values_scan (i : nat) (parts : list value) : result (list text) :=
  match parts with
  | [] => Ok []
  | VStr s :: ps => do ss <- join_values_scan (S i) ps; Ok (s :: ss)
  | v :: _ =>
    Raise (TypeError (u "sequence item " ++ text_of_N (N.of_nat i) ++
                      u ": expected str instance, " ++ type_name v ++ u " found"))
  end.

Definition join_values (sep : text) (parts : list value) : result text :=
  do ss <- join_values_scan O parts; Ok (join sep ss).

(** ** Floats

    A Python [float] is an IEEE 754 binary64 number: [spec_float] at
    precision 53 and maximal exponent 1024.  Conversions round to nearest,
    ties to even. *)

Definition float := spec_float.
Definition prec : Z := 53.
Definition emax : Z := 1024.

(** The float nearest to the fraction [n / d] ([0 <= n], [0 < d]), with the
    sign [neg]. *)
Definition float_of_ratio (neg : bool) (n d : Z) : float :=
  match n, d with
  | Z0, Zpos _ => S754_zero neg
  | Zpos _, Zpos _ =>
    let '(q, e, l) := SFdiv_core_binary prec emax n 0 d 0 in
    binary_round_aux prec emax neg q e l
  | _, _ => S754_nan
  end.

(** An [int] as a float (exact for the small constants of the sources). *)
Definition float_of_Z (z : Z) : float := float_of_ratio (z <? 0) (Z.abs z) 1.

(** The float of a decimal literal [m * 10^k], e.g. [7.5] is
    [float_of_decimal 75 (-1)]. *)
Definition float_of_decimal (neg : bool) (m : Z) (k : Z) : float :=
  if 0 <=? k then float_of_ratio neg (m * 10 ^ k) 1
  else float_of_ratio neg m (10 ^ (- k)).

Definition float_lt (x y : float) : bool := SFltb x y.
Definition float_le (x y : float) : bool := SFleb x y.

(** [a / b] rounded to the nearest integer, ties to the even one
    ([0 <= a], [0 < b]). *)
Definition div_half_even (a b : Z) : Z :=
  let q := a / b in
  let r := a mod b in
  match 2 * r ?= b with
  | Lt => q
  | Gt => q + 1
  | Eq => if Z.even q then q else q + 1
  end.

(** [round(x, 2)]: the exact value of [x] is rounded to two decimals, ties
    to even, and the decimal obtained is converted back to a float.
    Infinities, NaN and zeros round to themselves. *)
Definition round2 (x : float) : float :=
  match x with
  | S754_finite s m e =>
    let hundredths :=
      if 0 <=? e then Zpos m * 100 * 2 ^ e
      else div_half_even (Zpos m * 100) (2 ^ (- e)) in
    float_of_ratio s hundredths 100
  | _ => x
  end.

(** *** [float(s)] for a string

    The grammar of the interpreter: surrounding whitespace is ignored;
    underscores may separate digits; then an optional sign followed by
    either a decimal number with an optional exponent, or one of [inf],
    [infinity], [nan] in any letter case.  Anything else raises
    [ValueError].  The digits are the ASCII ones; the decimal digits of
    other scripts, which the interpreter also accepts, are not part of the
    model. *)

Definition ValueError_float (s : text) : exn :=
  Exn "ValueError" (u "could not convert string to float: " ++ repr_text s).

(** Underscores are allowed only between two digits; [prev] is the
    character before the current one. *)
Fixpoint drop_underscores (prev : char) (s : text) : option text :=
  match s with
  | [] => if (prev =? 95)%N then None else Some []
  | c :: s' =>
    if (c =? 95)%N
    then if is_ascii_digit prev then drop_underscores c s' else None
    else if (prev =? 95)%N && negb (is_ascii_digit c) then None
    else option_map (cons c) (drop_underscores c s')
  end.

(** The longest prefix of ASCII digits, as digit values, and the rest. *)
Fixpoint span_digits (s : text) : list Z * text :=
  match s with
  | [] => ([], [])
  | c :: s' =>
    if is_ascii_digit c
    then let '(ds, rest) := span_digits s' in (Z.of_N (c - 48) :: ds, rest)
    else ([], s)
  end.

Definition Z_of_digits (ds : list Z) : Z :=
  fold_left (fun acc d => 10 * acc + d) ds 0.

(** The exponent part: [e] or [E], an optional sign, at least one digit.
    When absent or incomplete, nothing is consumed. *)
Definition parse_exponent (s : text) : Z * text :=
  match s with
  | c :: s1 =>
    if (c =? 101)%N || (c =? 69)%N then
      let '(neg, s2) :=
        match s1 with
        | c1 :: s1' =>
          if (c1 =? 45)%N then (true, s1')
          else if (c1 =? 43)%N then (false, s1')
          else (false, s1)
        | [] => (false, s1)
        end in
      match span_digits s2 with
      | ([], _) => (0, s)
      | (ds, rest) => ((if neg then - Z_of_digits ds else Z_of_digits ds), rest)
      end
    else (0, s)
  | [] => (0, s)
  end.

(** A decimal number without its sign: digits, an optional point and more
    digits, at least one digit in all, then the exponent.  Returns the
    mantissa, the power of ten and the unread rest. *)
Definition parse_decimal (s : text) : option (Z * Z * text) :=
  let '(int_ds, s1) := span_digits s in
  let '(frac_ds, s2) :=
    match s1 with
    | c :: s1' => if (c =? 46)%N then span_digits s1' else ([], s1)
    | [] => ([], s1)
    end in
  match int_ds ++ frac_ds with
  | [] => None
  | ds =>
    let '(e, rest) := parse_exponent s2 in
    Some (Z_of_digits ds, e - Z.of_nat (List.length frac_ds), rest)
  end.

Definition parse_inf_nan (neg : bool) (s : text) : option float :=
  let w := map lower_char s in
  if text_eqb w (u "inf") || text_eqb w (u "infinity") then Some (S754_infinity neg)
  else if text_eqb w (u "nan") then Some S754_nan
  else None.

Definition float_of_text (s : text) : result float :=
  match drop_underscores 0%N (strip s) with
  | None => Raise (ValueError_float s)
  | Some t =>
    let '(neg, body) :=
      match t with
      | c :: t' =>
        if (c =? 45)%N then (true, t')
        else if (c =? 43)%N then (false, t')
        else (false, t)
      | [] => (false, t)
      end in
    match parse_decimal body with
    | Some (m, k, []) => Ok (float_of_decimal neg m k)
    | Some (_, _, _ :: _) => Raise (ValueError_float s)
    | None =>
      match parse_inf_nan neg body with
      | Some f => Ok f
      | None => Raise (ValueError_float s)
      end
    end
  end.

End Py.

(* ===================================================================== *)
(** * app.py: score extraction                                            *)
(* ===================================================================== *)

Module Score.
Import Py.

(** The score returned when no token qualifies: the literal [7.5]. *)
Definition default_score : float := float_of_decimal false 75 (-1).

(** Lines 122-130: the object the name [text] is bound to before the token
    loop.  For a list the elements are joined with a space (a dict element
    contributes its ["suggestion"], any other element its [str]); for a
    dict the first truthy of ["suggestion"], ["result"] and [str(text)] is
    taken as it is; anything else is converted with [str]. *)
Definition flatten_input (text : value) : result value :=
  match text with
  | VList l =>
    do joined <-
      join_values (u " ")
        (map (fun t =>
                match t with
                | VDict d =>
                  match lookup (u "suggestion") d with
                  | Some x => x
                  | None => VStr []
                  end
                | _ => VStr (str t)
                end) l);
    Ok (VStr joined)
  | VDict d =>
    let suggestion :=
      match lookup (u "suggestion") d with Some x => x | None => VStr [] end in
    let result_ :=
      match lookup (u "result") d with Some x => x | None => VStr [] end in
    Ok (py_or suggestion (py_or result_ (VStr (str text))))
  | _ => Ok (VStr (str text))
  end.

(** Line 133: the token is tried when it contains ["/10"] or is a bare
    numeral (digits with at most one point removed). *)
Definition candidate (token : text) : bool :=
  contains (u "/10") token || isdigit (replace_count (u ".") [] 1 token).

(** Line 136: [0 < val <= 10]. *)
Definition in_range (val : float) : bool :=
  float_lt (float_of_Z 0) val && float_le val (float_of_Z 10).

(** Lines 132-140: the loop over the tokens. *)
Fixpoint scan_tokens (tokens : list text) : result float :=
  match tokens with
  | [] => Ok default_score
  | token :: rest =>
    if candidate token then
      try_except
        (do val <- float_of_text (strip_chars (u "/10") token);
         if in_range val then Ok (round2 val) else scan_tokens rest)
        (fun e =>
           if String.eqb (exn_class e) "ValueError" then scan_tokens rest
           else Raise e)
    else scan_tokens rest
  end.

Definition extract_score (text : value) : result float :=
  do t <- flatten_input text;
  do tokens <- split_method t;
  scan_tokens tokens.

(** *** The token rule as the specification words it

    "Strip any [/10] suffix": one trailing occurrence of the three
    characters is removed, nothing else.  [scan_tokens_as_specified] is the
    loop above with this rule in place of [strip_chars]. *)
Definition strip_suffix (suffix s : text) : text :=
  if startswith (rev suffix) (rev s)
  then rev (skipn (List.length suffix) (rev s))
  else s.

Fixpoint scan_tokens_as_specified (tokens : list text) : result float :=
  match tokens with
  | [] => Ok default_score
  | token :: rest =>
    if candidate token then
      try_except
        (do val <- float_of_text (strip_suffix (u "/10") token);
         if in_range val then Ok (round2 val) else scan_tokens_as_specified rest)
        (fun e =>
           if String.eqb (exn_class e) "ValueError"
           then scan_tokens_as_specified rest
           else Raise e)
    else scan_tokens_as_specified rest
  end.

End Score.

(* ===================================================================== *)
(** * llm_agent.py: the finding reasoner                                  *)
(* ===================================================================== *)

Module LlmAgent.
Import Py.

(** What the reasoning pass does to the outside world: the prompts handed
    to [_chat], the requests sent to the chat-completion endpoint and the
    delays slept, each in order of occurrence. *)
Record world := World {
  chats : list text;
  requests : list text;
  sleeps : list Z
}.

Definition quiet : world := World [] [] [].

Definition chat_entered (prompt : text) (w : world) : world :=
  World (chats w ++ [prompt]) (requests w) (sleeps w).
Definition request_sent (prompt : text) (w : world) : world :=
  World (chats w) (requests w ++ [prompt]) (sleeps w).
Definition slept (delay : Z) (w : world) : world :=
  World (chats w) (requests w) (sleeps w ++ [delay]).

(** Computations of the reasoning pass: they read and update the remaining
    budget [llm_budget] and the world, and return a value or raise. *)
Definition M (A : Type) : Type := Z -> world -> result A * Z * world.

Definition ret {A} (a : A) : M A := fun b w => (Ok a, b, w).
Definition lift {A} (r : result A) : M A := fun b w => (r, b, w).
Definition bindM {A B} (m : M A) (k : A -> M B) : M B :=
  fun b w =>
    let '(r, b1, w1) := m b w in
    match r with
    | Ok a => k a b1 w1
    | Raise e => (Raise e, b1, w1)
    end.

Notation "'run' x <- c1 ; c2" := (bindM c1 (fun x => c2))
  (at level 10, x name, c1 at level 100, c2 at level 200) : py_scope.

(** [for x in l: body], one result per iteration. *)
Fixpoint for_each {A B} (body : A -> M B) (l : list A) : M (list B) :=
  match l with
  | [] => ret []
  | x :: l' => run y <- body x; run ys <- for_each body l'; ret (y :: ys)
  end.

Definition nl : text := [10%N].

(** Lines 13-25. *)
Definition offline_hint (issue : value) : result text :=
  do m <- get issue "message" VNone;
  do msg <- lower_method (py_or m (VStr []));
  Ok (if contains (u "line too long") msg then
        u "Keep lines " ++ [8804%N] ++ u " 100 chars. Break long expressions or strings."
      else if contains (u "missing module docstring") msg then
        u "Add a top-level docstring describing purpose & usage."
      else if contains (u "missing class docstring") msg then
        u "Add a short docstring summarizing the class."
      else if contains (u "wildcard import") msg then
        u "Avoid 'from X import *'; import only needed names."
      else if contains (u "unable to import") msg then
        u "Install or correctly reference the missing module."
      else
        u "Review and refactor for clarity; follow PEP-8 and security best practices.").

(** Lines 55-59. *)
Definition build_prompt (file_path msg line symbol : value) : text :=
  u "File: " ++ str file_path ++ nl ++
  u "Line: " ++ str line ++ nl ++
  u "Issue: " ++ str msg ++ nl ++
  u "Symbol: " ++ str symbol ++ nl ++ nl ++
  u "Explain briefly why it" ++ [8217%N] ++
  u "s a problem and give a minimal safe fix.".

(** Line 82. *)
Definition bandit_prompt (f ln msg : value) : text :=
  u "Security issue in " ++ str f ++ u ":" ++ str ln ++ nl ++
  str msg ++ nl ++ u "Explain risk + safe fix.".

(** Line 94. *)
Definition radon_prompt (f : text) (ln r : value) : text :=
  f ++ u ":" ++ str ln ++ u " has complexity rank " ++ str r ++
  u ". Suggest a refactor outline.".

(** The dict appended to [suggestions]. *)
Definition suggestion_dict (type : string) (f line msg : value) (suggestion : text)
  : value :=
  VDict [(u "type", VStr (u type)); (u "file", f); (u "line", line);
         (u "message", msg); (u "suggestion", VStr suggestion)].

Section Agent.

(** [USE_LLM = bool(GROQ_API_KEY)] *)
Variable USE_LLM : bool.

(** The chat-completion endpoint: what the body of the [try] block of
    [_chat] yields on the request number [n] (counted from 0) with the
    given prompt: the content of the first choice, or the exception
    raised. *)
Variable endpoint : nat -> text -> result text.

(** Line 48: the error text mentions a rate or a quota. *)
Definition rate_limited (e : exn) : bool :=
  let msg := lower (exn_text e) in
  contains (u "rate") msg || contains (u "quota") msg.

(** Lines 31-53: the retry loop, [attempts] iterations left. *)
Fixpoint chat_loop (attempts : nat) (delay : Z) (prompt : text) (w : world)
  : result text * world :=
  match attempts with
  | O => (Raise (RuntimeError "LLM_RATE_LIMIT"), w)
  | S k =>
    let outcome := endpoint (List.length (requests w)) prompt in
    let w1 := request_sent prompt w in
    match outcome with
    | Ok content => (Ok (strip content), w1)
    | Raise e =>
      if rate_limited e
      then chat_loop k (Z.min (delay * 2) 16) prompt (slept delay w1)
      else (Raise e, w1)
    end
  end.

(** Lines 28-53. *)
Definition _chat (prompt : text) (retries : Z) (w : world) : result text * world :=
  let w0 := chat_entered prompt w in
  if negb USE_LLM then (Raise (RuntimeError "LLM_DISABLED"), w0)
  else chat_loop (Z.to_nat retries) 2 prompt w0.

(** The [try] statement shared by the three loops (lines 72-76, 83-87,
    95-99):
[[
    try:
        suggestion = _chat(prompt) if llm_budget > 0 else offline_hint(iss)
        llm_budget -= 1
    except Exception:
        suggestion = offline_hint(iss)
]]
    The decrement is the second statement of the [try] body: it is not
    reached when the first one raises. *)
Definition explain (prompt : text) (iss : value) : M text :=
  fun llm_budget w =>
    let '(r, w1) :=
      if 0 <? llm_budget then _chat prompt 3 w else (offline_hint iss, w) in
    match r with
    | Ok suggestion => (Ok suggestion, llm_budget - 1, w1)
    | Raise _ => (offline_hint iss, llm_budget, w1)
    end.

(** Lines 69-77: one pylint issue of the file [f]. *)
Definition pylint_issue (f : value) (iss : value) : M value :=
  run msg <- lift (get iss "message" (VStr []));
  run line <- lift (get iss "line" (VStr []));
  run sym <- lift (get iss "symbol" (VStr []));
  let prompt := build_prompt f msg line sym in
  run suggestion <- explain prompt iss;
  ret (suggestion_dict "pylint" f line msg suggestion).

(** Lines 67-77: one entry of [analysis["pylint"]]. *)
Definition pylint_entry (max_llm_calls : Z) (entry : value) : M (list value) :=
  run f <- lift (getitem entry "file");
  run issues <- lift (get entry "issues" (VList []));
  run capped <- lift (getslice issues max_llm_calls);
  run each <- lift (iterate capped);
  for_each (pylint_issue f) each.

(** Lines 80-88: one bandit result. *)
Definition bandit_issue (iss : value) : M value :=
  run f <- lift (get iss "filename" (VStr []));
  run ln <- lift (get iss "line_number" (VStr []));
  run msg <- lift (get iss "issue_text" (VStr []));
  let prompt := bandit_prompt f ln msg in
  run suggestion <- explain prompt iss;
  ret (suggestion_dict "bandit" f ln msg suggestion).

(** Lines 92-100: one block of a file of the radon report. *)
Definition radon_item (f : text) (it : value) : M value :=
  run n <- lift (get it "name" (VStr []));
  run r <- lift (get it "rank" (VStr []));
  run ln <- lift (get it "lineno" (VStr []));
  let prompt := radon_prompt f ln r in
  run suggestion <- explain prompt it;
  ret (suggestion_dict "radon" (VStr f) ln (VStr (u "Complexity " ++ str r)) suggestion).

(** Lines 91-100: one file of the radon report. *)
Definition radon_file (entry : text * value) : M (list value) :=
  let '(f, items_) := entry in
  run capped <- lift (getslice items_ 2);
  run each <- lift (iterate capped);
  for_each (radon_item f) each.

(** Lines 62-102, with the budget and the world it ends in. *)
Definition reason_run (analysis : value) (max_llm_calls : Z) : M (list value) :=
  (* --- pylint --- *)
  run pylint <- lift (get analysis "pylint" (VList []));
  run entries <- lift (iterate pylint);
  run lint <- for_each (pylint_entry max_llm_calls) entries;
  (* --- bandit --- *)
  run bandit <- lift (get analysis "bandit" (VDict []));
  run results <- lift (get bandit "results" (VList []));
  run top <- lift (getslice results 3);
  run each <- lift (iterate top);
  run security <- for_each bandit_issue each;
  (* --- radon --- *)
  run radon <- lift (get analysis "radon" (VDict []));
  run files <- lift (items radon);
  run complexity <- for_each radon_file (slice_to 3 files);
  ret (List.concat lint ++ security ++ List.concat complexity).

(** [reason_over_findings(analysis, max_llm_calls)], started in the world
    [w]: the budget starts at [max_llm_calls]. *)
Definition reason_over_findings_in (w : world) (analysis : value) (max_llm_calls : Z)
  : result (list value) * Z * world :=
  reason_run analysis max_llm_calls max_llm_calls w.

Definition reason_over_findings (analysis : value) (max_llm_calls : Z)
  : result (list value) :=
  fst (fst (reason_over_findings_in quiet analysis max_llm_calls)).

End Agent.

End LlmAgent.

(* ===================================================================== *)
(** * analyzer.py: the static tool runner                                 *)
(* ===================================================================== *)

Module Analyzer.
Import Py.

Section Runner.

(** [sys.executable] *)
Variable executable : text.

(** [run_cmd(cmd)]: the return code, the standard output and the standard
    error of the process, or the exception [subprocess.run] raises. *)
Variable run_cmd : list text -> result (Z * text * text).

(** [json.loads] *)
Variable json_loads : text -> result value.

(** [list_py_files(root)], in the order of the walk. *)
Variable list_py_files : text -> list text.

(** [clone_repo(git_url)]: the work directory, or the exception of the
    clone. *)
Variable clone_repo : text -> result text.

(** [out or default] for a string [out]. *)
Definition or_text (out default : text) : text :=
  match out with
  | [] => default
  | _ => out
  end.

Definition pylint_cmd (f : text) : list text :=
  [executable; u "-m"; u "pylint"; f; u "--output-format=json"].

Definition bandit_cmd (root : text) : list text :=
  [executable; u "-m"; u "bandit"; u "-r"; root; u "-f"; u "json"].

Definition radon_cmd (root : text) : list text :=
  [executable; u "-m"; u "radon"; u "cc"; u "-j"; root].

(** Lines 17-28: the body of the loop of [run_pylint]. *)
Definition pylint_file (f : text) : result value :=
  do r <- run_cmd (pylint_cmd f);
  let '(code, out, err) := r in
  do issues <- try_except (json_loads (or_text out (u "[]")))
                          (fun _ => Ok (VList []));
  Ok (VDict [(u "file", VStr f); (u "issues", issues)]).

(** Lines 15-29. *)
Definition run_pylint (root : text) : result (list value) :=
  map_result pylint_file (list_py_files root).

(** Lines 31-38. *)
Definition run_bandit (root : text) : result value :=
  do r <- run_cmd (bandit_cmd root);
  let '(code, out, err) := r in
  try_except (json_loads (or_text out (u "{}")))
             (fun _ => Ok (VDict [(u "results", VList [])])).

(** Lines 40-47. *)
Definition run_radon_complexity (root : text) : result value :=
  do r <- run_cmd (radon_cmd root);
  let '(code, out, err) := r in
  try_except (json_loads (or_text out (u "{}")))
             (fun _ => Ok (VDict [])).

(** Lines 49-59. *)
Definition analyze_repository (git_url : text) : result value :=
  do repo_dir <- clone_repo git_url;
  do pylint_findings <- run_pylint repo_dir;
  do bandit_findings <- run_bandit repo_dir;
  do radon_findings <- run_radon_complexity repo_dir;
  Ok (VDict [(u "repo_dir", VStr repo_dir);
             (u "pylint", VList pylint_findings);
             (u "bandit", bandit_findings);
             (u "radon", radon_findings)]).

End Runner.

End Analyzer.

(* ===================================================================== *)
(** * reporter.py: the document renderer                                  *)
(* ===================================================================== *)

Module Reporter.
Import Py.

(** ** [os.path], POSIX flavour *)

Definition ends_with_slash (p : text) : bool :=
  match rev p with
  | c :: _ => (c =? 47)%N
  | [] => false
  end.

Definition path_join (a b : text) : text :=
  if startswith (u "/") b then b
  else match a with
       | [] => b
       | _ => if ends_with_slash a then a ++ b else a ++ u "/" ++ b
       end.

(** [os.path.basename]: what follows the last slash; [cur] is the current
    component, reversed. *)
Fixpoint basename_scan (cur : text) (p : text) : text :=
  match p with
  | [] => rev cur
  | c :: p' => if (c =? 47)%N then basename_scan [] p' else basename_scan (c :: cur) p'
  end.

Definition basename (p : text) : text := basename_scan [] p.

(** ** Helpers (lines 5-36) *)

Definition font_candidates : list text :=
  [u "arial.ttf"; u "arialuni.ttf"; u "segoeui.ttf"; u "calibri.ttf";
   u "cambria.ttf"; u "consola.ttf"; u "times.ttf"; u "cour.ttf"].

(** Lines 5-18; [path_exists] is [os.path.exists]. *)
Definition find_font (path_exists : text -> bool) : option text :=
  find path_exists (map (path_join (u "C:\Windows\Fonts")) font_candidates).

Definition nl : text := [10%N].

(** Lines 21-30.  The substitution [re.sub(r"[^\x00-\xFF]", "", s)] keeps
    the characters whose code point is at most 255. *)
Definition sanitize (text_ : value) : text :=
  let s :=
    match text_ with
    | VList l => join nl (map str l)
    | VDict d => join nl (map (fun kv => fst kv ++ u ": " ++ str (snd kv)) d)
    | VStr s => s
    | _ => str text_
    end in
  filter (fun c => (c <=? 255)%N) s.

(** Lines 33-36. *)
Definition clamp (s : text) (lim : Z) : text :=
  if Z.of_nat (List.length s) <=? lim then s
  else slice_to lim s ++ nl ++ u "...[truncated]...".

(** ** [str.title], on the case tables of U+0000..U+00FF *)

Definition is_cased (c : char) : bool :=
  ((65 <=? c) && (c <=? 90))%N || ((97 <=? c) && (c <=? 122))%N ||
  (c =? 170)%N || (c =? 181)%N || (c =? 186)%N ||
  ((192 <=? c) && (c <=? 255) && negb (c =? 215) && negb (c =? 247))%N.

Definition title_char (c : char) : text :=
  if ((97 <=? c) && (c <=? 122))%N then [(c - 32)%N]
  else if (c =? 181)%N then [924%N]
  else if (c =? 223)%N then [83%N; 115%N]
  else if (c =? 255)%N then [376%N]
  else if ((224 <=? c) && (c <=? 254) && negb (c =? 247))%N then [(c - 32)%N]
  else [c].

Fixpoint title_scan (previous_is_cased : bool) (s : text) : text :=
  match s with
  | [] => []
  | c :: s' =>
    (if previous_is_cased then [lower_char c] else title_char c)
    ++ title_scan (is_cased c) s'
  end.

Definition title (s : text) : text := title_scan false s.

Definition title_method (v : value) : result text :=
  match v with
  | VStr s => Ok (title s)
  | _ => Raise (AttributeError v "title")
  end.

(** ** The two regular expressions *)

Definition fence : text := u "```".

(** The text before the first fence and the text after it. *)
Fixpoint split_at_fence (s : text) : option (text * text) :=
  match s with
  | [] => None
  | c :: s' =>
    if startswith fence s then Some ([], skipn 3 s)
    else match split_at_fence s' with
         | Some (before, after) => Some (c :: before, after)
         | None => None
         end
  end.

(** One left-to-right pass of the pattern [```(?:python)?(.*?)```] with
    [re.DOTALL] over [s]: the captured groups, in order ([re.findall]),
    and [s] without the matches ([re.sub] with the empty replacement).
    A match starts at a fence, skips the word [python] when it follows,
    and ends at the next fence; the scan resumes after the match.  Each
    step consumes a character, so [fuel] = length of [s] suffices. *)
Fixpoint fence_scan (fuel : nat) (s : text) : list text * text :=
  match fuel with
  | O => ([], s)
  | S fuel' =>
    match s with
    | [] => ([], [])
    | c :: s' =>
      let opened :=
        if startswith fence s then
          let body := skipn 3 s in
          split_at_fence
            (if startswith (u "python") body then skipn 6 body else body)
        else None in
      match opened with
      | Some (group, rest) =>
        let '(groups, kept) := fence_scan fuel' rest in (group :: groups, kept)
      | None =>
        let '(groups, kept) := fence_scan fuel' s' in (groups, c :: kept)
      end
    end
  end.

Definition findall_code (s : text) : list text := fst (fence_scan (List.length s) s).
Definition sub_code (s : text) : text := snd (fence_scan (List.length s) s).

Definition is_sgr_param (c : char) : bool := is_ascii_digit c || (c =? 59)%N.

(** [re.sub(r"\x1b\[[0-9;]*m", "", s)]: an escape character, a bracket,
    the longest run of digits and semicolons, and the letter [m]. *)
Fixpoint strip_ansi_scan (fuel : nat) (s : text) : text :=
  match fuel with
  | O => s
  | S fuel' =>
    match s with
    | [] => []
    | c :: s' =>
      if startswith [27%N; 91%N] s then
        match dropwhile is_sgr_param (skipn 2 s) with
        | m :: rest =>
          if (m =? 109)%N then strip_ansi_scan fuel' rest
          else c :: strip_ansi_scan fuel' s'
        | [] => c :: strip_ansi_scan fuel' s'
        end
      else c :: strip_ansi_scan fuel' s'
    end
  end.

Definition strip_ansi (s : text) : text := strip_ansi_scan (List.length s) s.

(** ** The rendering pass (lines 40-144) *)

(** The calls made on the [FPDF] object.  Heights are in tenths of a unit
    ([5.5] is [55]); [cell] is always called with [ln=True]; [rule] is
    [y = pdf.get_y(); pdf.line(10, y, 200, y)]. *)
Inductive pdf_op : Type :=
| set_auto_page_break (auto : bool) (margin : Z)
| add_page
| set_font (family style : text) (size : Z)
| set_text_color (r g b : Z)
| cell (w h10 : Z) (txt : text) (align : text)
| multi_cell (w h10 : Z) (txt : text)
| ln (h : Z)
| rule.

(** Lines 43-49. *)
Fixpoint flatten_text (data : value) : text :=
  match data with
  | VDict d => join nl (map (fun kv => fst kv ++ u ": " ++ flatten_text (snd kv)) d)
  | VList l => join nl (map flatten_text l)
  | _ => str (py_or data (VStr []))
  end.

(** Lines 51-55, on a string. *)
Definition extract_code_blocks (text_ : text) : list text :=
  let blocks := findall_code (flatten_text (VStr text_)) in
  map strip (filter (fun b => truthy (VStr (strip b))) blocks).

Definition report_title : text :=
  u "DevMate " ++ [8211%N] ++ u " AI Multi-Agent Code Review Report".

(** Lines 72-76. *)
Definition section_titles : list (text * value) :=
  [(u "static", VStr ([128269%N] ++ u " Static Analysis Findings"));
   (u "review", VStr ([129504%N] ++ u " AI Code Review & Recommendations"));
   (u "summary", VStr ([128202%N] ++ u " Final Summary & Health Score"))].

Definition log_title : text :=
  [128421%N; 65039%N] ++ u " Full CrewAI Execution Log".

Definition code_label (idx : nat) : text :=
  [128161%N] ++ u " Code Suggestion " ++ text_of_N (N.of_nat idx) ++ u ":".

Definition body_font (unicode_mode : bool) : text :=
  if unicode_mode then u "Auto" else u "Helvetica".

(** Lines 111-119: one extracted code block, numbered from 1. *)
Definition code_ops (unicode_mode : bool) (idx : nat) (code : text) : list pdf_op :=
  [set_font (body_font unicode_mode) (u "B") 11;
   set_text_color 34 139 34;
   cell 0 60 (code_label idx) [];
   set_font (u "Courier") [] 9;
   set_text_color 0 0 0;
   multi_cell 0 45 (sanitize (VStr code));
   ln 4].

Fixpoint enumerate_from {A} (start : nat) (l : list A) : list (nat * A) :=
  match l with
  | [] => []
  | x :: l' => (start, x) :: enumerate_from (S start) l'
  end.

(** Lines 78-128: the section of one suggestion.  The two lookups of the
    header come first and are the only statements that can raise. *)
Definition section_ops (unicode_mode : bool) (s : value) : result (list pdf_op) :=
  do type_ <- get s "type" (VStr []);
  let stype := lower (str type_) in
  do type_or_none <- get s "type" VNone;
  do fallback_header <- title_method (py_or type_or_none (VStr (u "Section")));
  let header :=
    match lookup stype section_titles with
    | Some h => h
    | None => VStr fallback_header
    end in
  do file_ <- get s "file" (VStr (u "N/A"));
  do line_ <- get s "line" (VInt 0);
  let sub := u "File: " ++ str file_ ++ u "  |  Line: " ++ str line_ in
  do message <- get s "message" (VStr (u "No issue message"));
  let issue := flatten_text message in
  do suggestion <- get s "suggestion" (VStr (u "No detailed output."));
  let body_text := flatten_text suggestion in
  let codes := extract_code_blocks body_text in
  let clean_body := strip (sub_code body_text) in
  Ok ([set_font (body_font unicode_mode) (u "B") 14;
       set_text_color 30 144 255;
       cell 0 90 (sanitize header) [];
       set_text_color 0 0 0;
       ln 3;
       set_font (body_font unicode_mode) [] 11;
       multi_cell 0 60 (sanitize (VStr sub));
       ln 1;
       multi_cell 0 60 (sanitize (VStr (u "Issue: " ++ issue)));
       ln 3]
      ++ (if truthy (VStr clean_body)
          then [set_font (body_font unicode_mode) [] 10;
                multi_cell 0 55 (sanitize (VStr clean_body));
                ln 3]
          else [])
      ++ (match codes with
          | _ :: _ =>
            flat_map (fun ic => code_ops unicode_mode (fst ic) (snd ic))
                     (enumerate_from 1 codes)
          | [] =>
            [set_font (body_font unicode_mode) (u "I") 10;
             multi_cell 0 55 (sanitize (VStr (u "No code suggestions available.")));
             ln 3]
          end)
      ++ [rule; ln 6]).

(** The sections in order, up to the first one that raises. *)
Fixpoint sections_ops (unicode_mode : bool) (l : list value)
  : list pdf_op * result unit :=
  match l with
  | [] => ([], Ok tt)
  | s :: l' =>
    match section_ops unicode_mode s with
    | Raise e => ([], Raise e)
    | Ok ops =>
      let '(more, r) := sections_ops unicode_mode l' in (ops ++ more, r)
    end
  end.

(** Lines 130-144: the page of the execution log. *)
Definition log_ops (unicode_mode : bool) (full_output : value) : list pdf_op :=
  if truthy full_output then
    let text0 := flatten_text full_output in
    let text1 := clamp text0 20000 in
    let text2 := strip_ansi text1 in
    [add_page;
     set_font (body_font unicode_mode) (u "B") 14;
     set_text_color 220 53 69;
     cell 0 90 (sanitize (VStr log_title)) [];
     set_text_color 0 0 0;
     set_font (body_font unicode_mode) [] 9;
     multi_cell 0 45 (sanitize (VStr text2))]
  else [].

(** [_render_pdf(pdf, repo_url, suggestions, full_output, unicode_mode)]:
    the calls made on [pdf], in order, and how the function ends.
    [clock] is [time.strftime('%Y-%m-%d %H:%M:%S')]. *)
Definition _render_pdf (clock : text) (repo_url : value) (suggestions : value)
  (full_output : value) (unicode_mode : bool) : list pdf_op * result unit :=
  let meta := u "Repository: " ++ str repo_url ++ nl ++ u "Generated on: " ++ clock in
  let setup :=
    [set_auto_page_break true 15;
     add_page;
     set_font (body_font unicode_mode) (u "B") 16;
     cell 0 100 (sanitize (VStr report_title)) (u "C");
     ln 6;
     set_font (body_font unicode_mode) [] 12;
     multi_cell 0 70 (sanitize (VStr meta));
     ln 4] in
  match iterate (py_or suggestions (VList [])) with
  | Raise e => (setup, Raise e)
  | Ok each =>
    let '(sections, r) := sections_ops unicode_mode each in
    match r with
    | Raise e => (setup ++ sections, Raise e)
    | Ok _ => (setup ++ sections ++ log_ops unicode_mode full_output, Ok tt)
    end
  end.

(** ** [generate_pdf_report] (lines 147-193) *)

(** Lines 154-163. *)
Definition normalize_output (data : value) : text :=
  match data with
  | VList l =>
    join nl
      (map (fun x =>
              match x with
              | VDict d =>
                u "- " ++
                str (match lookup (u "type") d with Some t => t | None => VStr (u "Info") end)
                ++ u ": " ++
                str (match lookup (u "suggestion") d with
                     | Some g => g
                     | None => VStr (str x)
                     end)
              | _ => str x
              end) l)
  | VDict d => join nl (map (fun kv => fst kv ++ u ": " ++ str (snd kv)) d)
  | _ => str (py_or data (VStr []))
  end.

Section Generate.

(** The [fpdf] library, as the report generator uses it: a document
    object, the registration of a TrueType font, the drawing calls and the
    final write.  Each call may raise. *)
Variable Doc : Type.
Variable FPDF : Doc.
Variable add_font : Doc -> text -> text -> text -> result Doc.
Variable perform : Doc -> pdf_op -> result Doc.
Variable output : Doc -> text -> result unit.

(** [os.path.exists], [os.makedirs(..., exist_ok=True)], the formatted
    local time and [int(time.time())]. *)
Variable path_exists : text -> bool.
Variable makedirs : text -> result unit.
Variable clock : text.
Variable now : Z.

Fixpoint perform_all (pdf : Doc) (ops : list pdf_op) : result Doc :=
  match ops with
  | [] => Ok pdf
  | op :: ops' => do pdf' <- perform pdf op; perform_all pdf' ops'
  end.

(** The call [_render_pdf(pdf, ...)]: the drawing calls are made in order;
    the first exception, of the library or of the function itself, ends
    it. *)
Definition render (pdf : Doc) (repo_url suggestions : value) (full_output : text)
  (unicode_mode : bool) : result Doc :=
  let '(ops, r) :=
    _render_pdf clock repo_url suggestions (VStr full_output) unicode_mode in
  do pdf' <- perform_all pdf ops;
  do _u <- r;
  Ok pdf'.

Definition reports_dir : text := path_join (u "static") (u "reports").

Definition out_path : text :=
  path_join reports_dir (u "devmate_report_" ++ text_of_Z now ++ u ".pdf").

Definition relative_path : text := u "reports/" ++ basename out_path.

(** Lines 169-177: the body of the outer [try], up to [pdf.output]. *)
Definition unicode_attempt (repo_url suggestions full_output : value) : result unit :=
  let normalized_output := normalize_output full_output in
  let pdf := FPDF in
  do drawn <-
    match find_font path_exists with
    | Some font_path =>
      do pdf1 <- add_font pdf (u "Auto") [] font_path;
      do pdf2 <- add_font pdf1 (u "Auto") (u "B") font_path;
      render pdf2 repo_url suggestions normalized_output true
    | None => Raise (RuntimeError "No Unicode font found; forcing fallback.")
    end;
  output drawn out_path.

(** Lines 183-187: the body of the inner [try], on a new document. *)
Definition fallback_attempt (repo_url suggestions full_output : value) : result unit :=
  let pdf := FPDF in
  let normalized_output := normalize_output full_output in
  do drawn <- render pdf repo_url suggestions normalized_output false;
  output drawn out_path.

Definition generate_pdf_report (repo_url suggestions full_output : value)
  : result text :=
  do _u <- makedirs reports_dir;
  try_except
    (do _u <- unicode_attempt repo_url suggestions full_output;
     Ok relative_path)
    (fun e =>
       do _u <- try_except (fallback_attempt repo_url suggestions full_output)
                           (fun fallback_error => Raise fallback_error);
       Ok relative_path).

End Generate.

End Reporter.

(* ===================================================================== *)
(** * app.py: the analysis route                                          *)
(* ===================================================================== *)

Module App.
Import Py.

(** A row of the table [analysis]. *)
Record Analysis := mkAnalysis {
  id : Z;
  repo_name : text;
  score : float;
  pdf_path : text;
  timestamp : Z
}.

(** The request: its method and, for a POST, the form field [repo_url]. *)
Inductive request : Type :=
| GET
| POST (repo_url : option text).

Inductive response : Type :=
| redirect (endpoint : string)
| render_template (name : string).

(** What a run does, in order: a flashed message, a commit (with the rows
    of the table after it), the call of the report generator. *)
Inductive event : Type :=
| flash (message : text) (category : string)
| commit (rows : list Analysis)
| pdf_generation.

(** The key of a newly inserted row: one more than the largest key. *)
Definition next_id (rows : list Analysis) : Z :=
  1 + fold_right (fun r m => Z.max (id r) m) 0 rows.

(** [record.pdf_path = p] followed by a commit, for the row [rid]. *)
Definition set_pdf_path (rid : Z) (p : text) (rows : list Analysis) : list Analysis :=
  map (fun r =>
         if id r =? rid
         then mkAnalysis (id r) (repo_name r) (score r) p (timestamp r)
         else r) rows.

Section Routes.

(** [agents.analyze_repo_with_agents], [reporter.generate_pdf_report] and
    [datetime.utcnow()] as the route sees them. *)
Variable analyze_repo_with_agents : text -> result value.
Variable generate_pdf_report : value -> value -> value -> result text.
Variable utcnow : Z.

(** Lines 93-98. *)
Definition analysis_failed (e : exn) (rows : list Analysis) (done : list event)
  : response * list Analysis * list event :=
  (redirect "index", rows,
   done ++ [flash ([10060%N] ++ u " Analysis failed: " ++ exn_text e) "danger"]).

(** Lines 41-100: the route [index] on the table [rows]. *)
Definition index (req : request) (rows : list Analysis)
  : response * list Analysis * list event :=
  match req with
  | GET => (render_template "index.html", rows, [])
  | POST field =>
    let repo_url := strip (match field with Some s => s | None => [] end) in
    if negb (truthy (VStr repo_url)) then
      (redirect "index", rows,
       [flash ([9888%N; 65039%N] ++ u " Please enter a GitHub repository URL.")
              "warning"])
    else
      (* Step 1 *)
      match analyze_repo_with_agents repo_url with
      | Raise e => analysis_failed e rows []
      | Ok result_text =>
        let suggestions :=
          VList [VDict [(u "type", VStr (u "summary"));
                        (u "file", VStr []);
                        (u "line", VInt 0);
                        (u "message", VStr (u "Detailed Multi-Agent AI Report"));
                        (u "suggestion", result_text)]] in
        (* Step 2 *)
        match Score.extract_score result_text with
        | Raise e => analysis_failed e rows []
        | Ok score_ =>
          (* Step 3 *)
          let record :=
            mkAnalysis (next_id rows) repo_url score_ (u "Generating...") utcnow in
          let rows1 := rows ++ [record] in
          (* Step 4 *)
          let rows2 :=
            match generate_pdf_report (VStr repo_url) suggestions result_text with
            | Ok path =>
              let path' :=
                if startswith (u "static/") path
                then replace (u "static/") [] path
                else path in
              set_pdf_path (id record) path' rows1
            | Raise pdf_err =>
              set_pdf_path (id record) (u "Error generating PDF") rows1
            end in
          (redirect "dashboard", rows2,
           [commit rows1; pdf_generation; commit rows2;
            flash ([9989%N] ++
                   u " Full detailed analysis complete! View report in Dashboard.")
                  "success"])
        end
      end
  end.

End Routes.

End App.

(* ===================================================================== *)
(** * Vocabulary of the statements                                        *)
(* ===================================================================== *)

Module Views.
Import Py LlmAgent.

(** [d.get(k, default)] on the items of a dict. *)
Definition field (d : list (text * value)) (k : string) (default : value) : value :=
  match lookup (u k) d with
  | Some x => x
  | None => default
  end.

Definition elements (v : value) : list value :=
  match v with
  | VList l => l
  | _ => []
  end.

Definition entries (v : value) : list (text * value) :=
  match v with
  | VDict d => d
  | _ => []
  end.

(** A finding as the analyzers emit it: a dict whose ["message"], when
    present and not empty, is a string (so that the rule-based hint is
    defined). *)
Definition hintable (iss : value) : bool :=
  match iss with
  | VDict _ => is_ok (offline_hint iss)
  | _ => false
  end.

Definition findings (v : value) : bool :=
  match v with
  | VList l => forallb hintable l
  | _ => false
  end.

Definition lint_entry (e : value) : bool :=
  match e with
  | VDict d =>
    match lookup (u "file") d with
    | Some _ => findings (field d "issues" (VList []))
    | None => false
    end
  | _ => false
  end.

(** The shape of [analysis] that [analyze_repository] produces from
    well-formed tool reports. *)
Definition well_formed (analysis : value) : bool :=
  match analysis with
  | VDict a =>
    match field a "pylint" (VList []), field a "bandit" (VDict []),
          field a "radon" (VDict []) with
    | VList es, VDict b, VDict r =>
      forallb lint_entry es
      && findings (field b "results" (VList []))
      && forallb (fun kv => findings (snd kv)) r
    | _, _, _ => false
    end
  | _ => false
  end.

(** What identifies the finding a suggestion is about. *)
Record heading := Heading {
  h_type : string;
  h_file : value;
  h_line : value;
  h_message : value
}.

Definition lint_headings (max_llm_calls : Z) (e : value) : list heading :=
  map (fun iss =>
         Heading "pylint" (field (entries e) "file" VNone)
                 (field (entries iss) "line" (VStr []))
                 (field (entries iss) "message" (VStr [])))
      (slice_to max_llm_calls (elements (field (entries e) "issues" (VList [])))).

Definition security_headings (results : list value) : list heading :=
  map (fun iss =>
         Heading "bandit" (field (entries iss) "filename" (VStr []))
                 (field (entries iss) "line_number" (VStr []))
                 (field (entries iss) "issue_text" (VStr [])))
      (slice_to 3 results).

Definition complexity_headings (kv : text * value) : list heading :=
  map (fun it =>
         Heading "radon" (VStr (fst kv))
                 (field (entries it) "lineno" (VStr []))
                 (VStr (u "Complexity " ++ str (field (entries it) "rank" (VStr [])))))
      (slice_to 2 (elements (snd kv))).

(** The findings the pass iterates, in its order: lint, security,
    complexity. *)
Definition iterated (analysis : value) (max_llm_calls : Z) : list heading :=
  let a := entries analysis in
  flat_map (lint_headings max_llm_calls) (elements (field a "pylint" (VList [])))
  ++ security_headings
       (elements (field (entries (field a "bandit" (VDict []))) "results" (VList [])))
  ++ flat_map complexity_headings (slice_to 3 (entries (field a "radon" (VDict [])))).

(** [sug] is the Suggestion of the finding [h], with some explanation. *)
Definition explains (h : heading) (sug : value) : Prop :=
  exists s, sug = suggestion_dict (h_type h) (h_file h) (h_line h) (h_message h) s.

(** The delays of [attempts] consecutive rate-limited attempts, the first
    one being [delay]. *)
Fixpoint backoff (attempts : nat) (delay : Z) : list Z :=
  match attempts with
  | O => []
  | S k => delay :: backoff k (Z.min (delay * 2) 16)
  end.

(** The shape [reports/devmate_report_<digits>.pdf]. *)
Definition report_path_shape (p : text) : Prop :=
  exists digits,
    digits <> []
    /\ forallb is_ascii_digit digits = true
    /\ p = u "reports/devmate_report_" ++ digits ++ u ".pdf".

(** The text a drawing call puts on the page, if any. *)
Definition op_text (op : Reporter.pdf_op) : option text :=
  match op with
  | Reporter.cell _ _ txt _ => Some txt
  | Reporter.multi_cell _ _ txt => Some txt
  | _ => None
  end.

Definition drawn_texts (ops : list Reporter.pdf_op) : list text :=
  flat_map (fun op => match op_text op with Some t => [t] | None => [] end) ops.

(** The drawing calls [ops] made in order on the document [pdf]: the
    document after the last call, or the exception of the first call that
    raises, the calls after it not being made. *)
Inductive draws {Doc : Type} (perform : Doc -> Reporter.pdf_op -> result Doc)
  : Doc -> list Reporter.pdf_op -> result Doc -> Prop :=
| draws_nothing : forall pdf, draws perform pdf [] (Ok pdf)
| draws_call : forall pdf op pdf' ops r,
    perform pdf op = Ok pdf' -> draws perform pdf' ops r ->
    draws perform pdf (op :: ops) r
| draws_raise : forall pdf op ops e,
    perform pdf op = Raise e -> draws perform pdf (op :: ops) (Raise e).

(** One tier of the report generation on the document [pdf]: the calls of
    the rendering pass in the given mode are made on it, over the
    normalized output; then the pass ends; then the document is written to
    [out_path].  The outcome is the first exception met on the way: of a
    drawing call, of the pass itself, of the write. *)
Definition tier {Doc : Type} (perform : Doc -> Reporter.pdf_op -> result Doc)
  (output : Doc -> text -> result unit) (clock : text) (now : Z)
  (repo_url suggestions full_output : value)
  (pdf : Doc) (unicode_mode : bool) (outcome : result unit) : Prop :=
  exists drawn,
    draws perform pdf
          (fst (Reporter._render_pdf clock repo_url suggestions
                  (VStr (Reporter.normalize_output full_output)) unicode_mode))
          drawn
    /\ outcome
       = match drawn with
         | Raise e => Raise e
         | Ok pdf' =>
           match snd (Reporter._render_pdf clock repo_url suggestions
                        (VStr (Reporter.normalize_output full_output)) unicode_mode) with
           | Raise e => Raise e
           | Ok _ => output pdf' (Reporter.out_path now)
           end
         end.

(** The texts of a rendering pass are either the numbered label of a code
    excerpt or an output of [sanitize]. *)
Definition label_or_sanitized (txt : text) : Prop :=
  (exists idx, txt = Reporter.code_label idx)
  \/ (exists v, txt = Reporter.sanitize v).

Definition single_byte (txt : text) : Prop := Forall (fun c => (c <= 255)%N) txt.

(** An unparsable or empty tool output. *)
Definition unusable (json_loads : text -> result value) (out : text) : Prop :=
  out = [] \/ is_ok (json_loads out) = false.

(** What the loop of [run_pylint] records for the file [f]: its entry, with
    no issue when the output of the tool is unusable and with the decoded
    issues otherwise. *)
Definition recorded_for (executable : text)
  (run_cmd : list text -> result (Z * text * text))
  (json_loads : text -> result value) (f : text) (entry : value) : Prop :=
  exists issues,
    entry = VDict [(u "file", VStr f); (u "issues", issues)]
    /\ forall code out err,
         run_cmd (Analyzer.pylint_cmd executable f) = Ok (code, out, err) ->
         (unusable json_loads out -> issues = VList [])
         /\ (forall v, out <> [] -> json_loads out = Ok v -> issues = v).

(** The texts of one section, in either mode. *)
Definition section_texts (header : value) (sub issue clean_body : text)
  (codes : list text) : list text :=
  [Reporter.sanitize header; Reporter.sanitize (VStr sub); Reporter.sanitize (VStr (u "Issue: " ++ issue))]
  ++ (if truthy (VStr clean_body) then [Reporter.sanitize (VStr clean_body)] else [])
  ++ (match codes with
      | _ :: _ =>
        flat_map (fun ic => [Reporter.code_label (fst ic); Reporter.sanitize (VStr (snd ic))])
                 (Reporter.enumerate_from 1 codes)
      | [] => [Reporter.sanitize (VStr (u "No code suggestions available."))]
      end).


(** The suggestions the route hands to the report generator. *)
Definition summary_suggestions (result_text : value) : value :=
  VList [VDict [(u "type", VStr (u "summary"));
                (u "file", VStr []);
                (u "line", VInt 0);
                (u "message", VStr (u "Detailed Multi-Agent AI Report"));
                (u "suggestion", result_text)]].

(** The path stored after the call of the report generator. *)
Definition stored_path (outcome : result text) : text :=
  match outcome with
  | Ok path =>
    if startswith (u "static/") path then replace (u "static/") [] path else path
  | Raise _ => u "Error generating PDF"
  end.

(** How a loop body wraps the outcome of the [try] statement: on success
    the Suggestion is built from the explanation. *)
Definition with_suggestion (mk : text -> value) (x : result text * Z * world)
  : result value * Z * world :=
  let '(r, b, w) := x in
  (match r with Ok s => Ok (mk s) | Raise e => Raise e end, b, w).

End Views.

(* ===================================================================== *)
(** * Sample inputs                                                       *)
(* ===================================================================== *)

Module Samples.
Import Py.

(** An endpoint that is down: every request fails with a connection
    error. *)
Definition endpoint_down : nat -> text -> result text :=
  fun _ _ => Raise (Exn "APIConnectionError" (u "Connection error.")).

(** An endpoint that answers every request. *)
Definition endpoint_up : nat -> text -> result text :=
  fun _ _ => Ok (u " Why: too long. Fix: wrap the line. ").

(** An endpoint that is rate limited on its first two requests. *)
Definition endpoint_throttled_twice : nat -> text -> result text :=
  fun n _ =>
    if (n <? 2)%nat then Raise (Exn "RateLimitError" (u "Rate limit reached"))
    else Ok (u "Why: unused import. Fix: remove it.").

(** An endpoint that is rate limited on its first request and unreachable
    from then on. *)
Definition endpoint_throttled_then_down : nat -> text -> result text :=
  fun n _ =>
    if (n <? 1)%nat then Raise (Exn "RateLimitError" (u "Rate limit reached"))
    else Raise (Exn "APIConnectionError" (u "Connection error.")).

(** An endpoint that is always rate limited. *)
Definition endpoint_throttled : nat -> text -> result text :=
  fun _ _ => Raise (Exn "RateLimitError" (u "Quota exceeded for model")).

(** Two security findings and nothing else. *)
Definition two_security_findings : value :=
  VDict [(u "bandit",
          VDict [(u "results",
                  VList [VDict [(u "filename", VStr (u "app.py"));
                                (u "line_number", VInt 19);
                                (u "issue_text", VStr (u "Possible hardcoded password"))];
                         VDict [(u "filename", VStr (u "app.py"));
                                (u "line_number", VInt 143);
                                (u "issue_text", VStr (u "Flask app run with debug=True"))]])])].

(** One security finding. *)
Definition one_security_finding : value :=
  VDict [(u "bandit",
          VDict [(u "results",
                  VList [VDict [(u "filename", VStr (u "app.py"));
                                (u "line_number", VInt 19);
                                (u "issue_text", VStr (u "Possible hardcoded password"))]])])].

(** Findings of the three tools. *)
Definition mixed_findings : value :=
  VDict [(u "repo_dir", VStr (u "/tmp/devmate_1"));
         (u "pylint",
          VList [VDict [(u "file", VStr (u "a.py"));
                        (u "issues",
                         VList [VDict [(u "message", VStr (u "Line too long (120/100)"));
                                       (u "line", VInt 3);
                                       (u "symbol", VStr (u "line-too-long"))];
                                VDict [(u "message", VStr (u "Missing module docstring"));
                                       (u "line", VInt 1);
                                       (u "symbol", VStr (u "missing-module-docstring"))];
                                VDict [(u "message", VStr (u "Unused import os"));
                                       (u "line", VInt 2);
                                       (u "symbol", VStr (u "unused-import"))]])];
                 VDict [(u "file", VStr (u "b.py")); (u "issues", VList [])]]);
         (u "bandit",
          VDict [(u "results",
                  VList [VDict [(u "filename", VStr (u "a.py"));
                                (u "line_number", VInt 9);
                                (u "issue_text", VStr (u "Use of assert detected."))]])]);
         (u "radon",
          VDict [(u "a.py",
                  VList [VDict [(u "name", VStr (u "f")); (u "rank", VStr (u "B"));
                                (u "lineno", VInt 7)];
                         VDict [(u "name", VStr (u "g")); (u "rank", VStr (u "A"));
                                (u "lineno", VInt 30)];
                         VDict [(u "name", VStr (u "h")); (u "rank", VStr (u "A"));
                                (u "lineno", VInt 52)]])])].

(** A decoder for a handful of documents, enough to exercise the runner:
    the two empty documents and one list of one issue. *)
Definition quote : text := [34%N].

Definition one_issue_json : text :=
  u "[{" ++ quote ++ u "line" ++ quote ++ u ": 3}]".

Definition small_loads (s : text) : result value :=
  if text_eqb s (u "[]") then Ok (VList [])
  else if text_eqb s (u "{}") then Ok (VDict [])
  else if text_eqb s one_issue_json then Ok (VList [VDict [(u "line", VInt 3)]])
  else Raise (Exn "JSONDecodeError" (u "Expecting value: line 1 column 1 (char 0)")).

(** Three files: pylint reports one issue on the first, crashes with a
    traceback on the second and prints nothing on the third; bandit prints
    a traceback and radon prints nothing. *)
Definition sample_files : text -> list text :=
  fun _ => [u "good.py"; u "bad.py"; u "silent.py"].

Definition sample_run_cmd : list text -> result (Z * text * text) :=
  fun cmd =>
    if existsb (text_eqb (u "good.py")) cmd then Ok (4, one_issue_json, [])
    else if existsb (text_eqb (u "bad.py")) cmd
    then Ok (1, u "Traceback (most recent call last):", [])
    else if existsb (text_eqb (u "bandit")) cmd
    then Ok (2, u "Traceback (most recent call last):", [])
    else Ok (0, [], []).

Definition sample_clone : text -> result text :=
  fun _ => Ok (u "/tmp/devmate_1700000000").

(** A document object that records the calls made on it, and a library
    whose TrueType registration always fails. *)
Definition recorded_add_font
  : list Reporter.pdf_op -> text -> text -> text -> result (list Reporter.pdf_op) :=
  fun _ _ _ _ => Raise (RuntimeError "TTF Font file not found").

Definition recorded_perform
  : list Reporter.pdf_op -> Reporter.pdf_op -> result (list Reporter.pdf_op) :=
  fun pdf op => Ok (pdf ++ [op]).

Definition recorded_output : list Reporter.pdf_op -> text -> result unit :=
  fun _ _ => Ok tt.

(** A library that registers the font, and that raises when the font of
    a [set_font] call is ["Auto"] in a style other than the regular and
    the bold one; and a write that is refused. *)
Definition registering_add_font
  : list Reporter.pdf_op -> text -> text -> text -> result (list Reporter.pdf_op) :=
  fun pdf _ _ _ => Ok pdf.

Definition strict_perform
  : list Reporter.pdf_op -> Reporter.pdf_op -> result (list Reporter.pdf_op) :=
  fun pdf op =>
    match op with
    | Reporter.set_font family style _ =>
      if text_eqb family (u "Auto")
         && negb (text_eqb style [] || text_eqb style (u "B"))
      then Raise (Exn "FPDFException" (u "Undefined font: auto" ++ style))
      else Ok (pdf ++ [op])
    | _ => Ok (pdf ++ [op])
    end.

Definition refused_output : list Reporter.pdf_op -> text -> result unit :=
  fun _ _ => Raise (Exn "PermissionError" (u "[Errno 13] Permission denied")).

(** One suggestion without a code excerpt. *)
Definition plain_suggestions : value :=
  VList [VDict [(u "type", VStr (u "summary"));
                (u "file", VStr []);
                (u "line", VInt 0);
                (u "message", VStr (u "Detailed Multi-Agent AI Report"));
                (u "suggestion", VStr (u "Score: 8/10"))]].

Definition arial_installed : text -> bool :=
  fun p => text_eqb p (u "C:\Windows\Fonts/arial.ttf").

Definition makedirs_ok : text -> result unit := fun _ => Ok tt.

(** One suggestion with a fenced code excerpt and an emoji. *)
Definition sample_suggestions : value :=
  VList [VDict [(u "type", VStr (u "review"));
                (u "file", VStr (u "caf" ++ [233%N] ++ u ".py"));
                (u "line", VInt 12);
                (u "message", VStr (u "Unused variable"));
                (u "suggestion",
                 VStr (u "Remove it " ++ [128512%N] ++ u " ```python" ++ [10%N] ++
                       u "x = 1" ++ [10%N] ++ u "```"))]].

(** The agents' report and a report generator that fails. *)
Definition sample_agents : text -> result value :=
  fun _ => Ok (VList [VDict [(u "type", VStr (u "summary"));
                             (u "suggestion", VStr (u "Overall score: 8.5/10 done"))]]).

Definition generator_fails : value -> value -> value -> result text :=
  fun _ _ _ => Raise (RuntimeError "fallback failed").

Definition generator_succeeds : value -> value -> value -> result text :=
  fun _ _ _ => Ok (u "reports/devmate_report_1700000000.pdf").

End Samples.

(* ===================================================================== *)
(** * utils.py: the walk over the checkout                                *)
(* ===================================================================== *)

Module Utils.
Import Py.

(** [s.endswith(suffix)] *)
Definition endswith (suffix s : text) : bool := startswith (rev suffix) (rev s).

(** A directory as [os.walk] finds it: the names of its files, and its
    subdirectories by name. *)
#[warnings="-register-all"]
Inductive tree : Type :=
| Dir (files : list text) (subdirs : list (text * tree)).

(** [os.walk(dirpath)], top-down: the triple of the directory, then the
    walks of its subdirectories in the order of their names. *)
Fixpoint walk (dirpath : text) (t : tree) : list (text * list text * list text) :=
  match t with
  | Dir files subdirs =>
    (dirpath, map fst subdirs, files)
    :: flat_map (fun nt => walk (Reporter.path_join dirpath (fst nt)) (snd nt)) subdirs
  end.

(** Lines 8-12. *)
Definition list_py_files (root : text) (t : tree) : list text :=
  flat_map (fun triple =>
              let '(dirpath, _, files) := triple in
              map (Reporter.path_join dirpath) (filter (endswith (u ".py")) files))
           (walk root t).

End Utils.

(* ===================================================================== *)
(** * agents.py: the cleaning of the agents' outputs                      *)
(* ===================================================================== *)

Module Agents.
Import Py.

(** [re.sub(r"[^\x00-\x7F]+", "", text)] *)
Definition remove_non_ascii (s : text) : text := filter (fun c => (c <=? 127)%N) s.

(** [re.sub(r"`+", "", text)] *)
Definition remove_backticks (s : text) : text := filter (fun c => negb (c =? 96)%N) s.

(** Line 52: the bullet and the two dashes become a hyphen. *)
Definition replace_marks (s : text) : text :=
  replace [8212%N] (u "-") (replace [8211%N] (u "-") (replace [8226%N] (u "-") s)).

(** Lines 35-54. *)
Fixpoint clean_text (data : value) : value :=
  match data with
  | VList l => VList (map clean_text l)
  | VDict d => VDict (map (fun kv => (fst kv, clean_text (snd kv))) d)
  | VNone => VStr []
  | _ => VStr (strip (replace_marks (remove_backticks (remove_non_ascii (str data)))))
  end.

Section Workflow.

(** [analyzer.analyze_repository], and the run of the crew: the outputs of
    the static, the reasoning and the summary task once [crew.kickoff()]
    has returned, or the exception it raises. *)
Variable analyze_repository : text -> result value.
Variable kickoff : text -> result (value * value * value).

Definition report_entry (type : string) (repo_url : text) (message : string)
  (output : value) : value :=
  VDict [(u "type", VStr (u type)); (u "file", VStr repo_url); (u "line", VInt 0);
         (u "message", VStr (u message)); (u "suggestion", output)].

(** Lines 106-160. *)
Definition analyze_repo_with_agents (repo_url : text) : result value :=
  do analysis <- analyze_repository repo_url;
  do outputs <- kickoff repo_url;
  let '(static_task, reasoning_task, summary_task) := outputs in
  let static_output := clean_text static_task in
  let reasoning_output := clean_text reasoning_task in
  let summary_output := clean_text summary_task in
  Ok (VList [report_entry "static" repo_url "Static Analysis" static_output;
             report_entry "review" repo_url "Code Review" reasoning_output;
             report_entry "summary" repo_url "Final Summary" summary_output]).

End Workflow.

End Agents.

(* ===================================================================== *)
(** * More vocabulary                                                     *)
(* ===================================================================== *)

Module Notions.
Import Py.

Definition textual (v : value) : bool :=
  match v with
  | VStr _ => true
  | _ => false
  end.

(** A string, or an object that counts as false ([None], [""], [0], ...). *)
Definition textual_or_falsy (v : value) : bool := textual v || negb (truthy v).

(** The inputs on which the score extraction has a string to split: any
    object that is neither a list nor a dict; a list whose dict elements
    hold a string under ["suggestion"], or nothing; a dict whose
    ["suggestion"] and ["result"] are strings or count as false. *)
Definition scorable (v : value) : bool :=
  match v with
  | VList l =>
    forallb (fun t =>
               match t with
               | VDict d => textual (Views.field d "suggestion" (VStr []))
               | _ => true
               end) l
  | VDict d =>
    textual_or_falsy (Views.field d "suggestion" (VStr []))
    && textual_or_falsy (Views.field d "result" (VStr []))
  | _ => true
  end.

(** A character of U+0000..U+00FF (the range of the digit table) that
    [str.isdigit] rejects. *)
Definition no_digit (c : char) : Prop := (c <= 255)%N /\ isdigit_char c = false.

(** The six rule-based hints of [offline_hint], the generic one last. *)
Definition generic_hint : text :=
  u "Review and refactor for clarity; follow PEP-8 and security best practices.".

Definition hints : list text :=
  [u "Keep lines " ++ [8804%N] ++ u " 100 chars. Break long expressions or strings.";
   u "Add a top-level docstring describing purpose & usage.";
   u "Add a short docstring summarizing the class.";
   u "Avoid 'from X import *'; import only needed names.";
   u "Install or correctly reference the missing module.";
   generic_hint].

(** The sum of a list of delays. *)
Definition total (delays : list Z) : Z := fold_right Z.add 0 delays.

(** A computation of the reasoning pass keeps the relation [I] between the
    state it starts in and the state it ends in. *)
Definition keeps {A} (I : Z -> LlmAgent.world -> Z -> LlmAgent.world -> Prop)
  (m : LlmAgent.M A) : Prop :=
  forall b w, I b w (snd (fst (m b w))) (snd (m b w)).

(** Two computations of the reasoning pass that cannot be told apart once
    the budget is used up: from a budget of 0 or less they end alike, with
    the world as it was and a budget that is still 0 or less. *)
Definition agree {A} (m1 m2 : LlmAgent.M A) : Prop :=
  forall b w,
    b <= 0 ->
    m1 b w = m2 b w /\ snd (fst (m1 b w)) <= 0 /\ snd (m1 b w) = w.

(** A computation whose calls and budget use are covered by the size of
    what it returns. *)
Definition within {A} (size : A -> nat) (m : LlmAgent.M A) : Prop :=
  forall b w a b' w',
    m b w = (Ok a, b', w') ->
    (List.length (LlmAgent.chats w') <= List.length (LlmAgent.chats w) + size a)%nat
    /\ b <= b' + Z.of_nat (size a).

(** What a run of the pass costs at most, between two states: the budget
    does not grow, no log shrinks, a call sends at most three requests and
    a request is followed by at most one delay. *)
Definition bounded_cost (b : Z) (w : LlmAgent.world) (b' : Z) (w' : LlmAgent.world)
  : Prop :=
  b' <= b
  /\ (List.length (LlmAgent.chats w) <= List.length (LlmAgent.chats w'))%nat
  /\ (List.length (LlmAgent.requests w') + 3 * List.length (LlmAgent.chats w)
      <= List.length (LlmAgent.requests w) + 3 * List.length (LlmAgent.chats w'))%nat
  /\ (List.length (LlmAgent.sleeps w') + List.length (LlmAgent.requests w)
      <= List.length (LlmAgent.sleeps w) + List.length (LlmAgent.requests w'))%nat
  /\ (List.length (LlmAgent.requests w) <= List.length (LlmAgent.requests w'))%nat.

(** No request is sent and no delay is slept between two states. *)
Definition offline (b : Z) (w : LlmAgent.world) (b' : Z) (w' : LlmAgent.world) : Prop :=
  LlmAgent.requests w' = LlmAgent.requests w /\ LlmAgent.sleeps w' = LlmAgent.sleeps w.

(** The sizes of the elements of a list, added up. *)
Definition weight {A} (size : A -> nat) (l : list A) : nat :=
  fold_right (fun x n => (size x + n)%nat) O l.



(** A suggestion whose section can be drawn: a dict whose ["type"] is
    missing, a string, or an object that counts as false. *)
Definition sectionable (s : value) : bool :=
  match s with
  | VDict d => textual_or_falsy (Views.field d "type" VNone)
  | _ => false
  end.

(** The dividers among the calls of a rendering pass. *)
Definition is_rule (op : Reporter.pdf_op) : bool :=
  match op with
  | Reporter.rule => true
  | _ => false
  end.

Definition dividers (ops : list Reporter.pdf_op) : nat :=
  List.length (filter is_rule ops).

(** The entry [run_pylint] records for a file without usable output. *)
Definition silent_entry (f : text) : value :=
  VDict [(u "file", VStr f); (u "issues", VList [])].

(** An event of the route that writes nothing. *)
Definition is_flash (ev : App.event) : bool :=
  match ev with
  | App.flash _ _ => true
  | _ => false
  end.

(** A list or a dict. *)
Definition container (v : value) : bool :=
  match v with
  | VList _ | VDict _ => true
  | _ => false
  end.

(** A character [clean_text] lets through: ASCII and not a backtick. *)
Definition plain_char (c : char) : bool := (c <=? 127)%N && negb (c =? 96)%N.

(** What [clean_text] returns: strings of plain characters without
    surrounding whitespace, in lists and dicts. *)
Fixpoint cleaned (v : value) : bool :=
  match v with
  | VStr s => forallb plain_char s && text_eqb (strip s) s
  | VList l => forallb cleaned l
  | VDict d => forallb (fun kv => cleaned (snd kv)) d
  | _ => false
  end.

End Notions.

(* ===================================================================== *)
(** * More sample inputs                                                  *)
(* ===================================================================== *)

Module Inputs.
Import Py.

(** A checkout with a package and a compiled file. *)
Definition sample_tree : Utils.tree :=
  Utils.Dir [u "setup.py"; u "README.md"]
            [(u "pkg", Utils.Dir [u "a.py"; u "a.pyc"] [])].

(** Tools that all crash with a traceback. *)
Definition crashing_run_cmd : list text -> result (Z * text * text) :=
  fun _ => Ok (1, u "Traceback (most recent call last):", []).

(** A crew whose tasks return strings with an emoji, a dash and a fence. *)
Definition sample_kickoff : text -> result (value * value * value) :=
  fun _ => Ok (VStr (u " Pylint: 3 issues " ++ [128269%N]),
               VStr (u "Use `with` " ++ [8212%N] ++ u " it closes the file"),
               VStr (u "Score: 7/10 ")).

Definition sample_analysis : text -> result value :=
  fun _ => Ok Samples.mixed_findings.

End Inputs.

(* ===================================================================== *)
(** * Theorems                                                            *)
(* ===================================================================== *)

Unset Implicit Arguments.

(** ** Score extraction *)

Module ScoreFacts.
Import Py Score.

Example strip_chars_is_not_a_suffix_rule :
  strip_chars (u "/10") (u "12/10") = u "2"
  /\ strip_chars (u "/10") (u "10/10") = []
  /\ strip_chars (u "/10") (u "0.1") = u "."
  /\ strip_chars (u "/10") (u "8.5/10") = u "8.5".
Proof. repeat split; reflexivity. Qed.

Example split_rating :
  split (u "rating 12/10 but also 6.0")
  = [u "rating"; u "12/10"; u "but"; u "also"; u "6.0"].
Proof. reflexivity. Qed.

Example round2_examples :
  round2 (float_of_decimal false 3 (-3)) = S754_zero false
  /\ round2 (float_of_decimal false 125 (-3)) = float_of_decimal false 12 (-2)
  /\ round2 (float_of_decimal false 2675 (-3)) = float_of_decimal false 267 (-2)
  /\ round2 (float_of_Z 10) = float_of_Z 10.
Proof. repeat split; vm_compute; reflexivity. Qed.

(** [float] raises nothing but [ValueError]. *)
Lemma float_of_text_raises_ValueError (s : text) (e : exn) :
  float_of_text s = Raise e -> exn_class e = "ValueError"%string.
Proof.
  unfold float_of_text.
  destruct (drop_underscores 0%N (strip s)) as [t|]; [|intros [= <-]; reflexivity].
  destruct (match t with
            | [] => (false, t)
            | c :: t' =>
              if (c =? 45)%N then (true, t')
              else if (c =? 43)%N then (false, t') else (false, t)
            end) as [neg body].
  destruct (parse_decimal body) as [[[m k] [|c rest]]|].
  - discriminate.
  - intros [= <-]. reflexivity.
  - destruct (parse_inf_nan neg body); [discriminate | intros [= <-]; reflexivity].
Qed.

(** On a list of tokens the loop always returns a score. *)
Lemma scan_tokens_total (tokens : list text) : exists f, scan_tokens tokens = Ok f.
Proof.
  induction tokens as [|token rest [f IH]]; cbn [scan_tokens]; [eexists; reflexivity|].
  destruct (candidate token); [|exists f; exact IH].
  destruct (float_of_text (strip_chars (u "/10") token)) as [val|e] eqn:E;
    cbn [bind try_except].
  - destruct (in_range val); [eexists; reflexivity|].
    rewrite IH. exists f. reflexivity.
  - rewrite (float_of_text_raises_ValueError _ _ E). cbn [String.eqb Ascii.eqb Bool.eqb].
    exists f. exact IH.
Qed.

(** On a string the function never raises. *)
Lemma extract_score_total_on_strings (s : text) :
  exists f, extract_score (VStr s) = Ok f.
Proof. unfold extract_score. cbn [flatten_input bind split_method str]. apply scan_tokens_total. Qed.

(** C1.  On the text ["rating 12/10 but also 6.0"] the function returns
    2.0: the token ["12/10"] loses the characters [/], [1] and [0] at both
    ends and what is left, ["2"], is in range.  With the suffix rule of
    the specification the same loop rejects 12 and returns 6.0.  The two
    other texts of the claim give 8.5 and the default 7.5. *)
Theorem extract_score_rating_example :
  extract_score (VStr (u "rating 12/10 but also 6.0")) = Ok (float_of_Z 2)
  /\ float_of_Z 2 <> float_of_decimal false 60 (-1)
  /\ scan_tokens_as_specified (split (u "rating 12/10 but also 6.0"))
     = Ok (float_of_decimal false 60 (-1))
  /\ extract_score (VStr (u "Overall score: 8.5/10 done"))
     = Ok (float_of_decimal false 85 (-1))
  /\ extract_score (VStr (u "no numeric token here")) = Ok default_score.
Proof.
  repeat split; try (vm_compute; reflexivity).
  vm_compute. discriminate.
Qed.

(** C10.  On the text ["0.003"] the function returns 0.0, which is not in
    (0, 10]: the range test is made before the rounding.  A list with a
    dict whose ["suggestion"] is [None], and a dict whose ["suggestion"] is
    the integer 5, make the function raise. *)
Theorem extract_score_small_value :
  extract_score (VStr (u "0.003")) = Ok (S754_zero false)
  /\ in_range (S754_zero false) = false
  /\ (exists msg,
        extract_score (VList [VDict [(u "suggestion", VNone)]])
        = Raise (Exn "TypeError" msg))
  /\ (exists msg,
        extract_score (VDict [(u "suggestion", VInt 5)])
        = Raise (Exn "AttributeError" msg)).
Proof.
  split; [vm_compute; reflexivity|].
  split; [vm_compute; reflexivity|].
  split; eexists; vm_compute; reflexivity.
Qed.

End ScoreFacts.

(** ** The finding reasoner *)

Module AgentFacts.
Import Py LlmAgent Views Samples.

Lemma startswith_app (p s : text) : startswith p (p ++ s) = true.
Proof.
  induction p as [|c p IH]; simpl; [reflexivity|].
  now rewrite N.eqb_refl, IH.
Qed.

Lemma contains_here (p s : text) : startswith p s = true -> contains p s = true.
Proof. intros H. destruct s; simpl in *; rewrite H; reflexivity. Qed.

Lemma contains_later (p a s : text) : contains p s = true -> contains p (a ++ s) = true.
Proof.
  intros H. induction a as [|c a IH]; simpl; [exact H|].
  rewrite IH. apply orb_true_r.
Qed.

Lemma contains_infix (p a b : text) : contains p (a ++ p ++ b) = true.
Proof. apply contains_later, contains_here, startswith_app. Qed.

(** C2.  With a budget of 1, two security findings and an endpoint that
    fails on every request, [_chat] is entered twice and two requests are
    sent: the budget is still 1 at the end, because the decrement is
    skipped when the call raises. *)
Theorem budget_not_consumed_by_failed_calls :
  let '(r, llm_budget, w) :=
    reason_over_findings_in true endpoint_down quiet two_security_findings 1 in
  is_ok r = true
  /\ List.length (chats w) = 2%nat
  /\ List.length (requests w) = 2%nat
  /\ llm_budget = 1.
Proof. vm_compute. repeat split. Qed.

(** C3, as stated, fails: with a budget of 0 and one finding no call is
    made, yet the counter is decremented (to -1), so it does not count
    the attempts only. *)
Lemma budget_decremented_without_a_call :
  let '(r, llm_budget, w) :=
    reason_over_findings_in true endpoint_up quiet one_security_finding 0 in
  chats w = []
  /\ llm_budget <> 0 - Z.of_nat (List.length (chats w)).
Proof. vm_compute. split; [reflexivity | discriminate]. Qed.

Section Steps.
Variable USE_LLM : bool.
Variable endpoint : nat -> text -> result text.

Lemma chat_enters (prompt : text) (retries : Z) (w : world) :
  chats (snd (_chat USE_LLM endpoint prompt retries w)) = chats w ++ [prompt].
Proof.
  unfold _chat. destruct USE_LLM; simpl; [|reflexivity].
  assert (H : forall k d w0, chats (snd (chat_loop endpoint k d prompt w0)) = chats w0).
  { induction k as [|k IH]; intros d w0; simpl; [reflexivity|].
    destruct (endpoint _ prompt) as [c|e]; simpl; [reflexivity|].
    destruct (rate_limited e); simpl; [|reflexivity].
    rewrite IH. reflexivity. }
  rewrite H. reflexivity.
Qed.

Lemma explain_calls (prompt : text) (iss : value) (b : Z) (w : world) :
  0 < b ->
  chats (snd (explain USE_LLM endpoint prompt iss b w)) = chats w ++ [prompt].
Proof.
  intros Hb. unfold explain.
  apply Z.ltb_lt in Hb. rewrite Hb.
  pose proof (chat_enters prompt 3 w) as H.
  destruct (_chat USE_LLM endpoint prompt 3 w) as [r w1]. simpl in H.
  destruct r; simpl; exact H.
Qed.

Lemma explain_success (prompt : text) (iss : value) (b : Z) (w w1 : world) (s : text) :
  0 < b ->
  _chat USE_LLM endpoint prompt 3 w = (Ok s, w1) ->
  explain USE_LLM endpoint prompt iss b w = (Ok s, b - 1, w1).
Proof.
  intros Hb H. unfold explain. apply Z.ltb_lt in Hb. rewrite Hb, H. reflexivity.
Qed.

Lemma explain_offline (prompt : text) (iss : value) (b : Z) (w : world) (h : text) :
  b <= 0 ->
  offline_hint iss = Ok h ->
  explain USE_LLM endpoint prompt iss b w = (Ok h, b - 1, w).
Proof.
  intros Hb H. unfold explain.
  assert (E : (0 <? b) = false) by (apply Z.ltb_ge; exact Hb).
  rewrite E, H. reflexivity.
Qed.

(** A call that raises leaves the budget as it was. *)
Lemma explain_failed_call (prompt : text) (iss : value) (b : Z) (w w1 : world) (e : exn) :
  0 < b ->
  _chat USE_LLM endpoint prompt 3 w = (Raise e, w1) ->
  explain USE_LLM endpoint prompt iss b w = (offline_hint iss, b, w1).
Proof.
  intros Hb H. unfold explain. apply Z.ltb_lt in Hb. rewrite Hb, H. reflexivity.
Qed.

Lemma pylint_issue_eq (f : value) (d : list (text * value)) (b : Z) (w : world) :
  pylint_issue USE_LLM endpoint f (VDict d) b w
  = with_suggestion
      (suggestion_dict "pylint" f (field d "line" (VStr [])) (field d "message" (VStr [])))
      (explain USE_LLM endpoint
         (build_prompt f (field d "message" (VStr [])) (field d "line" (VStr []))
                       (field d "symbol" (VStr [])))
         (VDict d) b w).
Proof.
  unfold pylint_issue, bindM, lift, ret, with_suggestion. simpl.
  destruct (explain _ _ _ _ _ _) as [[r b'] w']. destruct r; reflexivity.
Qed.

Lemma bandit_issue_eq (d : list (text * value)) (b : Z) (w : world) :
  bandit_issue USE_LLM endpoint (VDict d) b w
  = with_suggestion
      (suggestion_dict "bandit" (field d "filename" (VStr []))
         (field d "line_number" (VStr [])) (field d "issue_text" (VStr [])))
      (explain USE_LLM endpoint
         (bandit_prompt (field d "filename" (VStr [])) (field d "line_number" (VStr []))
                        (field d "issue_text" (VStr [])))
         (VDict d) b w).
Proof.
  unfold bandit_issue, bindM, lift, ret, with_suggestion. simpl.
  destruct (explain _ _ _ _ _ _) as [[r b'] w']. destruct r; reflexivity.
Qed.

Lemma radon_item_eq (f : text) (d : list (text * value)) (b : Z) (w : world) :
  radon_item USE_LLM endpoint f (VDict d) b w
  = with_suggestion
      (suggestion_dict "radon" (VStr f) (field d "lineno" (VStr []))
         (VStr (u "Complexity " ++ str (field d "rank" (VStr [])))))
      (explain USE_LLM endpoint
         (radon_prompt f (field d "lineno" (VStr [])) (field d "rank" (VStr [])))
         (VDict d) b w).
Proof.
  unfold radon_item, bindM, lift, ret, with_suggestion. simpl.
  destruct (explain _ _ _ _ _ _) as [[r b'] w']. destruct r; reflexivity.
Qed.

End Steps.

Lemma build_prompt_mentions (f msg line sym : value) :
  contains (str f) (build_prompt f msg line sym) = true
  /\ contains (str line) (build_prompt f msg line sym) = true
  /\ contains (str msg) (build_prompt f msg line sym) = true
  /\ contains (str sym) (build_prompt f msg line sym) = true.
Proof.
  unfold build_prompt. repeat split.
  - apply contains_infix.
  - rewrite !app_assoc. rewrite <- !app_assoc.
    apply contains_later, contains_later, contains_later. apply contains_infix.
  - do 6 apply contains_later. apply contains_infix.
  - do 9 apply contains_later. apply contains_infix.
Qed.

Section Retry.
Variable endpoint : nat -> text -> result text.

(** Consecutive rate-limited attempts. *)
Lemma chat_loop_limited (prompt : text) :
  forall (k : nat) (delay : Z) (w : world),
    (forall i, (i < k)%nat ->
       exists e, endpoint (List.length (requests w) + i) prompt = Raise e
                 /\ rate_limited e = true) ->
    exists w',
      chat_loop endpoint k delay prompt w = (Raise (RuntimeError "LLM_RATE_LIMIT"), w')
      /\ sleeps w' = sleeps w ++ backoff k delay
      /\ requests w' = requests w ++ repeat prompt k
      /\ chats w' = chats w.
Proof.
  induction k as [|k IH]; intros delay w H.
  - exists w. simpl. rewrite !app_nil_r. repeat split.
  - simpl.
    destruct (H O) as [e [He Hr]]; [lia|].
    rewrite Nat.add_0_r in He. rewrite He, Hr.
    destruct (IH (Z.min (delay * 2) 16) (slept delay (request_sent prompt w)))
      as [w' [E [Hs [Hq Hc]]]].
    { intros i Hi. destruct (H (S i)) as [e' [He' Hr']]; [lia|].
      exists e'. split; [|exact Hr'].
      simpl. rewrite length_app. simpl.
      replace (List.length (requests w) + 1 + i)%nat
        with (List.length (requests w) + S i)%nat by lia.
      exact He'. }
    exists w'. rewrite E, Hs, Hq, Hc. simpl.
    rewrite <- !app_assoc. simpl. repeat split.
Qed.

(** Rate-limited attempts followed by a completion. *)
Lemma chat_loop_recovers (prompt content : text) :
  forall (j k : nat) (delay : Z) (w : world),
    (forall i, (i < j)%nat ->
       exists e, endpoint (List.length (requests w) + i) prompt = Raise e
                 /\ rate_limited e = true) ->
    endpoint (List.length (requests w) + j) prompt = Ok content ->
    exists w',
      chat_loop endpoint (j + S k) delay prompt w = (Ok (strip content), w')
      /\ sleeps w' = sleeps w ++ backoff j delay
      /\ requests w' = requests w ++ repeat prompt (S j)
      /\ chats w' = chats w.
Proof.
  induction j as [|j IH]; intros k delay w H Hok.
  - simpl. rewrite Nat.add_0_r in Hok. rewrite Hok.
    eexists. split; [reflexivity|]. simpl. rewrite app_nil_r. repeat split.
  - simpl.
    destruct (H O) as [e [He Hr]]; [lia|].
    rewrite Nat.add_0_r in He. rewrite He, Hr.
    destruct (IH k (Z.min (delay * 2) 16) (slept delay (request_sent prompt w)))
      as [w' [E [Hs [Hq Hc]]]].
    { intros i Hi. destruct (H (S i)) as [e' [He' Hr']]; [lia|].
      exists e'. split; [|exact Hr'].
      simpl. rewrite length_app. simpl.
      replace (List.length (requests w) + 1 + i)%nat
        with (List.length (requests w) + S i)%nat by lia.
      exact He'. }
    { simpl. rewrite length_app. simpl.
      replace (List.length (requests w) + 1 + j)%nat
        with (List.length (requests w) + S j)%nat by lia.
      exact Hok. }
    exists w'. rewrite E, Hs, Hq, Hc. simpl.
    rewrite <- !app_assoc. simpl. repeat split.
Qed.

(** Rate-limited attempts followed by an error that is not about a rate or
    a quota. *)
Lemma chat_loop_gives_up (prompt : text) (e : exn) :
  forall (j k : nat) (delay : Z) (w : world),
    (forall i, (i < j)%nat ->
       exists e', endpoint (List.length (requests w) + i) prompt = Raise e'
                  /\ rate_limited e' = true) ->
    endpoint (List.length (requests w) + j) prompt = Raise e ->
    rate_limited e = false ->
    exists w',
      chat_loop endpoint (j + S k) delay prompt w = (Raise e, w')
      /\ sleeps w' = sleeps w ++ backoff j delay
      /\ requests w' = requests w ++ repeat prompt (S j)
      /\ chats w' = chats w.
Proof.
  induction j as [|j IH]; intros k delay w H He Hr.
  - simpl. rewrite Nat.add_0_r in He. rewrite He, Hr.
    eexists. split; [reflexivity|]. simpl. rewrite app_nil_r. repeat split.
  - simpl.
    destruct (H O) as [e0 [He0 Hr0]]; [lia|].
    rewrite Nat.add_0_r in He0. rewrite He0, Hr0.
    destruct (IH k (Z.min (delay * 2) 16) (slept delay (request_sent prompt w)))
      as [w' [E [Hs [Hq Hc]]]].
    { intros i Hi. destruct (H (S i)) as [e' [He' Hr']]; [lia|].
      exists e'. split; [|exact Hr'].
      simpl. rewrite length_app. simpl.
      replace (List.length (requests w) + 1 + i)%nat
        with (List.length (requests w) + S i)%nat by lia.
      exact He'. }
    { simpl. rewrite length_app. simpl.
      replace (List.length (requests w) + 1 + j)%nat
        with (List.length (requests w) + S j)%nat by lia.
      exact He. }
    { exact Hr. }
    exists w'. rewrite E, Hs, Hq, Hc. simpl.
    rewrite <- !app_assoc. simpl. repeat split.
Qed.

(** An error that is not about a rate or a quota. *)
Lemma chat_loop_reraises (prompt : text) (e : exn) (k : nat) (delay : Z) (w : world) :
  endpoint (List.length (requests w)) prompt = Raise e ->
  rate_limited e = false ->
  chat_loop endpoint (S k) delay prompt w = (Raise e, request_sent prompt w).
Proof. intros He Hr. simpl. rewrite He, Hr. reflexivity. Qed.

End Retry.

Lemma backoff_doubles (k : nat) :
  forall j : nat,
    backoff k (Z.min (2 ^ (Z.of_nat j + 1)) 16)
    = map (fun i => Z.min (2 ^ (Z.of_nat i + 1)) 16) (seq j k).
Proof.
  induction k as [|k IH]; intros j; simpl; [reflexivity|].
  f_equal.
  rewrite <- (IH (S j)). f_equal.
  replace (Z.of_nat (S j) + 1) with (Z.succ (Z.of_nat j + 1)) by lia.
  rewrite Z.pow_succ_r by lia.
  assert (0 < 2 ^ (Z.of_nat j + 1)) by (apply Z.pow_pos_nonneg; lia).
  lia.
Qed.

Lemma backoff_schedule (k : nat) :
  backoff k 2 = map (fun i => Z.min (2 ^ (Z.of_nat i + 1)) 16) (seq 0 k).
Proof. exact (backoff_doubles k 0). Qed.

Lemma Forall2_map_left {A B C} (P : B -> C -> Prop) (f : A -> B) (l : list A) (ys : list C) :
  Forall2 (fun x y => P (f x) y) l ys -> Forall2 P (map f l) ys.
Proof. induction 1; simpl; constructor; assumption. Qed.

Lemma Forall2_flat_map_concat {A B C} (P : B -> C -> Prop) (f : A -> list B)
  (l : list A) (yss : list (list C)) :
  Forall2 (fun x ys => Forall2 P (f x) ys) l yss ->
  Forall2 P (flat_map f l) (List.concat yss).
Proof.
  induction 1; simpl; [constructor|].
  apply Forall2_app; assumption.
Qed.

Lemma firstn_incl {A} (n : nat) (l : list A) (x : A) : In x (firstn n l) -> In x l.
Proof.
  revert l. induction n as [|n IH]; intros [|y l]; simpl; try tauto.
  intros [H|H]; [left; exact H | right; exact (IH l H)].
Qed.

Lemma slice_to_incl {A} (n : Z) (l : list A) (x : A) : In x (slice_to n l) -> In x l.
Proof. unfold slice_to. destruct (0 <=? n); apply firstn_incl. Qed.

Lemma slice_to_length {A} (n : Z) (l : list A) :
  0 <= n -> Z.of_nat (List.length (slice_to n l)) <= n.
Proof.
  intros Hn. unfold slice_to.
  assert (E : (0 <=? n) = true) by (apply Z.leb_le; exact Hn).
  rewrite E. pose proof (firstn_le_length (Z.to_nat n) l). lia.
Qed.

Section Pass.
Variable USE_LLM : bool.
Variable endpoint : nat -> text -> result text.

Lemma for_each_total {A B} (body : A -> M B) (P : A -> B -> Prop) (l : list A) :
  (forall x, In x l -> forall b w, exists y b' w', body x b w = (Ok y, b', w') /\ P x y) ->
  forall b w, exists ys b' w', for_each body l b w = (Ok ys, b', w') /\ Forall2 P l ys.
Proof.
  induction l as [|x l IH]; intros H b w.
  - exists [], b, w. split; [reflexivity | constructor].
  - destruct (H x (or_introl eq_refl) b w) as [y [b1 [w1 [E Py]]]].
    destruct (IH (fun x' Hx => H x' (or_intror Hx)) b1 w1) as [ys [b2 [w2 [E2 Pys]]]].
    exists (y :: ys), b2, w2. split; [|constructor; assumption].
    simpl. unfold bindM. rewrite E, E2. reflexivity.
Qed.

Lemma hintable_dict (iss : value) :
  hintable iss = true -> exists d h, iss = VDict d /\ offline_hint iss = Ok h.
Proof.
  destruct iss; simpl; try discriminate.
  destruct (offline_hint (VDict d)) as [h|e] eqn:E; simpl; [|discriminate].
  intros _. exists d, h. split; reflexivity.
Qed.

Lemma explain_total (prompt : text) (iss : value) (b : Z) (w : world) (h : text) :
  offline_hint iss = Ok h ->
  exists s b' w', explain USE_LLM endpoint prompt iss b w = (Ok s, b', w').
Proof.
  intros H. unfold explain.
  destruct (if 0 <? b then _chat USE_LLM endpoint prompt 3 w else (offline_hint iss, w))
    as [r w1].
  destruct r as [s|e].
  - exists s, (b - 1), w1. reflexivity.
  - rewrite H. exists h, b, w1. reflexivity.
Qed.

Lemma with_suggestion_total (mk : text -> value) (x : result text * Z * world) :
  (exists s b' w', x = (Ok s, b', w')) ->
  exists s b' w', with_suggestion mk x = (Ok (mk s), b', w').
Proof. intros [s [b' [w' E]]]. subst x. exists s, b', w'. reflexivity. Qed.

Lemma pylint_issue_total (f iss : value) (b : Z) (w : world) :
  hintable iss = true ->
  exists y b' w',
    pylint_issue USE_LLM endpoint f iss b w = (Ok y, b', w')
    /\ explains (Heading "pylint" f (field (entries iss) "line" (VStr []))
                         (field (entries iss) "message" (VStr []))) y.
Proof.
  intros H. destruct (hintable_dict iss H) as [d [h [E Hh]]]. subst iss.
  rewrite pylint_issue_eq.
  destruct (with_suggestion_total
              (suggestion_dict "pylint" f (field d "line" (VStr []))
                               (field d "message" (VStr [])))
              _ (explain_total
                 (build_prompt f (field d "message" (VStr [])) (field d "line" (VStr []))
                               (field d "symbol" (VStr []))) (VDict d) b w h Hh))
    as [s [b' [w' E]]].
  rewrite E. eexists _, b', w'. split; [reflexivity|]. exists s. reflexivity.
Qed.

Lemma bandit_issue_total (iss : value) (b : Z) (w : world) :
  hintable iss = true ->
  exists y b' w',
    bandit_issue USE_LLM endpoint iss b w = (Ok y, b', w')
    /\ explains (Heading "bandit" (field (entries iss) "filename" (VStr []))
                         (field (entries iss) "line_number" (VStr []))
                         (field (entries iss) "issue_text" (VStr []))) y.
Proof.
  intros H. destruct (hintable_dict iss H) as [d [h [E Hh]]]. subst iss.
  rewrite bandit_issue_eq.
  destruct (with_suggestion_total
              (suggestion_dict "bandit" (field d "filename" (VStr []))
                 (field d "line_number" (VStr [])) (field d "issue_text" (VStr [])))
              _ (explain_total
                 (bandit_prompt (field d "filename" (VStr []))
                    (field d "line_number" (VStr [])) (field d "issue_text" (VStr [])))
                 (VDict d) b w h Hh))
    as [s [b' [w' E]]].
  rewrite E. eexists _, b', w'. split; [reflexivity|]. exists s. reflexivity.
Qed.

Lemma radon_item_total (f : text) (it : value) (b : Z) (w : world) :
  hintable it = true ->
  exists y b' w',
    radon_item USE_LLM endpoint f it b w = (Ok y, b', w')
    /\ explains (Heading "radon" (VStr f) (field (entries it) "lineno" (VStr []))
                   (VStr (u "Complexity " ++ str (field (entries it) "rank" (VStr []))))) y.
Proof.
  intros H. destruct (hintable_dict it H) as [d [h [E Hh]]]. subst it.
  rewrite radon_item_eq.
  destruct (with_suggestion_total
              (suggestion_dict "radon" (VStr f) (field d "lineno" (VStr []))
                 (VStr (u "Complexity " ++ str (field d "rank" (VStr [])))))
              _ (explain_total
                 (radon_prompt f (field d "lineno" (VStr [])) (field d "rank" (VStr [])))
                 (VDict d) b w h Hh))
    as [s [b' [w' E]]].
  rewrite E. eexists _, b', w'. split; [reflexivity|]. exists s. reflexivity.
Qed.

Lemma findings_list (v : value) :
  findings v = true -> exists l, v = VList l /\ forall x, In x l -> hintable x = true.
Proof.
  destruct v; simpl; try discriminate.
  intros H. exists l. split; [reflexivity|]. apply forallb_forall. exact H.
Qed.

Lemma pylint_entry_total (N : Z) (e : value) (b : Z) (w : world) :
  lint_entry e = true ->
  exists ys b' w',
    pylint_entry USE_LLM endpoint N e b w = (Ok ys, b', w')
    /\ Forall2 explains (lint_headings N e) ys.
Proof.
  intros H. destruct e as [| | | |l|d]; simpl in H; try discriminate.
  destruct (lookup (u "file") d) as [fv|] eqn:Ef; [|discriminate].
  destruct (findings_list _ H) as [l [El Hl]].
  destruct (for_each_total (pylint_issue USE_LLM endpoint fv)
              (fun iss y => explains (Heading "pylint" fv (field (entries iss) "line" (VStr []))
                                        (field (entries iss) "message" (VStr []))) y)
              (slice_to N l)
              (fun x Hx b0 w0 => pylint_issue_total fv x b0 w0 (Hl x (slice_to_incl N l x Hx)))
              b w)
    as [ys [b' [w' [E HF]]]].
  exists ys, b', w'. split.
  - unfold pylint_entry, bindM, lift. unfold getitem, get. rewrite Ef.
    fold (field d "issues" (VList [])). rewrite El. simpl. exact E.
  - unfold lint_headings. simpl. unfold field at 1. rewrite Ef.
    rewrite El. simpl. apply Forall2_map_left. exact HF.
Qed.

Lemma radon_file_total (kv : text * value) (b : Z) (w : world) :
  findings (snd kv) = true ->
  exists ys b' w',
    radon_file USE_LLM endpoint kv b w = (Ok ys, b', w')
    /\ Forall2 explains (complexity_headings kv) ys.
Proof.
  destruct kv as [f v]. simpl. intros H.
  destruct (findings_list _ H) as [l [El Hl]]. subst v.
  destruct (for_each_total (radon_item USE_LLM endpoint f)
              (fun it y => explains (Heading "radon" (VStr f)
                                       (field (entries it) "lineno" (VStr []))
                                       (VStr (u "Complexity " ++
                                              str (field (entries it) "rank" (VStr []))))) y)
              (slice_to 2 l)
              (fun x Hx b0 w0 => radon_item_total f x b0 w0 (Hl x (slice_to_incl 2 l x Hx)))
              b w)
    as [ys [b' [w' [E HF]]]].
  exists ys, b', w'. split.
  - unfold radon_file, bindM, lift. simpl. exact E.
  - unfold complexity_headings. simpl. apply Forall2_map_left. exact HF.
Qed.

Lemma reason_run_total (analysis : value) (N b : Z) (w : world) :
  well_formed analysis = true ->
  exists sugs b' w',
    reason_run USE_LLM endpoint analysis N b w = (Ok sugs, b', w')
    /\ Forall2 explains (iterated analysis N) sugs.
Proof.
  intros H. destruct analysis as [| | | |l|a]; simpl in H; try discriminate.
  destruct (field a "pylint" (VList [])) as [| | | |es|] eqn:Ep; try discriminate.
  destruct (field a "bandit" (VDict [])) as [| | | | |bd] eqn:Eb; try discriminate.
  destruct (field a "radon" (VDict [])) as [| | | | |rd] eqn:Er; try discriminate.
  apply andb_true_iff in H. destruct H as [H Hr].
  apply andb_true_iff in H. destruct H as [Hp Hb].
  destruct (for_each_total (pylint_entry USE_LLM endpoint N)
              (fun e ys => Forall2 explains (lint_headings N e) ys) es
              (fun e He b0 w0 =>
                 pylint_entry_total N e b0 w0 (proj1 (forallb_forall _ _) Hp e He))
              b w)
    as [lint [b1 [w1 [E1 F1]]]].
  destruct (findings_list _ Hb) as [results [Eres Hres]].
  destruct (for_each_total (bandit_issue USE_LLM endpoint)
              (fun iss y => explains (Heading "bandit" (field (entries iss) "filename" (VStr []))
                                        (field (entries iss) "line_number" (VStr []))
                                        (field (entries iss) "issue_text" (VStr []))) y)
              (slice_to 3 results)
              (fun x Hx b0 w0 => bandit_issue_total x b0 w0 (Hres x (slice_to_incl 3 results x Hx)))
              b1 w1)
    as [security [b2 [w2 [E2 F2]]]].
  destruct (for_each_total (radon_file USE_LLM endpoint)
              (fun kv ys => Forall2 explains (complexity_headings kv) ys)
              (slice_to 3 rd)
              (fun kv Hkv b0 w0 =>
                 radon_file_total kv b0 w0
                   (proj1 (forallb_forall _ _) Hr kv (slice_to_incl 3 rd kv Hkv)))
              b2 w2)
    as [complexity [b3 [w3 [E3 F3]]]].
  exists (List.concat lint ++ security ++ List.concat complexity), b3, w3.
  split.
  - unfold reason_run, bindM, lift, ret, get, getslice, iterate, items.
    fold (field a "pylint" (VList [])). rewrite Ep. cbv iota beta.
    rewrite E1.
    fold (field a "bandit" (VDict [])). rewrite Eb. cbv iota beta.
    fold (field bd "results" (VList [])). rewrite Eres. cbv iota beta.
    rewrite E2.
    fold (field a "radon" (VDict [])). rewrite Er. cbv iota beta.
    rewrite E3. reflexivity.
  - unfold iterated. simpl entries. rewrite Ep, Eb, Er. simpl entries. rewrite Eres.
    simpl elements.
    apply Forall2_app; [|apply Forall2_app].
    + apply Forall2_flat_map_concat. exact F1.
    + unfold security_headings. apply Forall2_map_left. exact F2.
    + apply Forall2_flat_map_concat. exact F3.
Qed.

End Pass.

(** C3, amended.  Each loop body hands its finding to the shared [try]
    statement with the prompt of its tool: file, line, message and symbol
    for pylint; file, line and message for bandit; file, line and rank for
    radon.  With a budget above 0 that statement enters [_chat] with the
    prompt, and a completion costs exactly one unit of budget.  With a
    budget of 0 or less no call is made, the rule-based hint is the
    explanation, and the counter is decremented all the same. *)
Theorem reasoning_step_policy :
  forall (USE_LLM : bool) (endpoint : nat -> text -> result text),
    (forall f d b w,
        pylint_issue USE_LLM endpoint f (VDict d) b w
        = with_suggestion
            (suggestion_dict "pylint" f (field d "line" (VStr []))
                             (field d "message" (VStr [])))
            (explain USE_LLM endpoint
               (build_prompt f (field d "message" (VStr [])) (field d "line" (VStr []))
                             (field d "symbol" (VStr [])))
               (VDict d) b w))
    /\ (forall d b w,
        bandit_issue USE_LLM endpoint (VDict d) b w
        = with_suggestion
            (suggestion_dict "bandit" (field d "filename" (VStr []))
               (field d "line_number" (VStr [])) (field d "issue_text" (VStr [])))
            (explain USE_LLM endpoint
               (bandit_prompt (field d "filename" (VStr []))
                  (field d "line_number" (VStr [])) (field d "issue_text" (VStr [])))
               (VDict d) b w))
    /\ (forall f d b w,
        radon_item USE_LLM endpoint f (VDict d) b w
        = with_suggestion
            (suggestion_dict "radon" (VStr f) (field d "lineno" (VStr []))
               (VStr (u "Complexity " ++ str (field d "rank" (VStr [])))))
            (explain USE_LLM endpoint
               (radon_prompt f (field d "lineno" (VStr [])) (field d "rank" (VStr [])))
               (VDict d) b w))
    /\ (forall f msg line sym,
        contains (str f) (build_prompt f msg line sym) = true
        /\ contains (str line) (build_prompt f msg line sym) = true
        /\ contains (str msg) (build_prompt f msg line sym) = true
        /\ contains (str sym) (build_prompt f msg line sym) = true)
    /\ (forall f ln msg,
        contains (str f) (bandit_prompt f ln msg) = true
        /\ contains (str ln) (bandit_prompt f ln msg) = true
        /\ contains (str msg) (bandit_prompt f ln msg) = true)
    /\ (forall f ln r,
        contains f (radon_prompt f ln r) = true
        /\ contains (str ln) (radon_prompt f ln r) = true
        /\ contains (str r) (radon_prompt f ln r) = true)
    /\ (forall prompt iss b w,
        0 < b ->
        chats (snd (explain USE_LLM endpoint prompt iss b w)) = chats w ++ [prompt])
    /\ (forall prompt iss b w s w1,
        0 < b ->
        _chat USE_LLM endpoint prompt 3 w = (Ok s, w1) ->
        explain USE_LLM endpoint prompt iss b w = (Ok s, b - 1, w1))
    /\ (forall prompt iss b w h,
        b <= 0 ->
        offline_hint iss = Ok h ->
        explain USE_LLM endpoint prompt iss b w = (Ok h, b - 1, w)).
Proof.
  intros USE_LLM endpoint.
  split; [intros; apply pylint_issue_eq|].
  split; [intros; apply bandit_issue_eq|].
  split; [intros; apply radon_item_eq|].
  split; [intros; apply build_prompt_mentions|].
  split.
  { intros f ln msg. unfold bandit_prompt. repeat split.
    - apply contains_infix.
    - do 2 apply contains_later. apply contains_infix.
    - do 4 apply contains_later. apply contains_infix. }
  split.
  { intros f ln r. unfold radon_prompt. repeat split.
    - apply (contains_infix f []).
    - apply contains_later. apply contains_infix.
    - do 3 apply contains_later. apply contains_infix. }
  split; [intros; apply explain_calls; assumption|].
  split; [intros; apply explain_success; assumption|].
  intros; apply explain_offline; assumption.
Qed.

(** The step on an endpoint that answers, with a budget of 1 and of 0, and
    on an endpoint that is down. *)
Lemma reasoning_step_policy_witness :
  explain true endpoint_up (u "prompt") (VDict []) 1 quiet
  = (Ok (u "Why: too long. Fix: wrap the line."), 0,
     World [u "prompt"] [u "prompt"] [])
  /\ explain true endpoint_up (u "prompt") (VDict []) 0 quiet
     = (Ok (u "Review and refactor for clarity; follow PEP-8 and security best practices."),
        -1, quiet)
  /\ chats (snd (explain true endpoint_down (u "prompt") (VDict []) 1 quiet))
     = [u "prompt"].
Proof.
  destruct (reasoning_step_policy true endpoint_up)
    as (_ & _ & _ & _ & _ & _ & _ & Hok & Hoff).
  destruct (reasoning_step_policy true endpoint_down)
    as (_ & _ & _ & _ & _ & _ & Hcall & _ & _).
  split; [|split].
  - apply (Hok (u "prompt") (VDict []) 1 quiet);
      [reflexivity | vm_compute; reflexivity].
  - apply (Hoff (u "prompt") (VDict []) 0 quiet);
      [discriminate | vm_compute; reflexivity].
  - apply (Hcall (u "prompt") (VDict []) 1 quiet). reflexivity.
Defined.

(** C4.  [_chat] from any state of the world.  With three attempts:
    two rate-limited errors and then a completion give the completion
    after the delays 2 and 4; three rate-limited errors end in
    [RuntimeError("LLM_RATE_LIMIT")] after the delays 2, 4 and 8, and the
    caller takes the rule-based hint; an error that mentions neither a
    rate nor a quota is re-raised at once, without a delay or a second
    request, and the caller takes the rule-based hint.  With any number
    of attempts: the i-th delay is [min(2^(i+1), 16)]; and the first
    attempt that is not rate limited ends the call, whatever came before:
    after [j] rate-limited errors a completion is returned, and an error
    that mentions neither a rate nor a quota is re-raised, after [j]
    delays and [j + 1] requests and no more; with three attempts the
    caller then takes the rule-based hint and keeps its budget. *)
Theorem chat_retry_policy :
  forall (endpoint : nat -> text -> result text) (prompt : text) (w : world),
    let n := List.length (requests w) in
    (forall e1 e2 content,
        endpoint n prompt = Raise e1 -> rate_limited e1 = true ->
        endpoint (n + 1)%nat prompt = Raise e2 -> rate_limited e2 = true ->
        endpoint (n + 2)%nat prompt = Ok content ->
        exists w',
          _chat true endpoint prompt 3 w = (Ok (strip content), w')
          /\ sleeps w' = sleeps w ++ [2; 4]
          /\ requests w' = requests w ++ [prompt; prompt; prompt])
    /\ ((forall i, (i < 3)%nat ->
           exists e, endpoint (n + i)%nat prompt = Raise e /\ rate_limited e = true) ->
        exists w',
          _chat true endpoint prompt 3 w = (Raise (RuntimeError "LLM_RATE_LIMIT"), w')
          /\ sleeps w' = sleeps w ++ [2; 4; 8]
          /\ requests w' = requests w ++ [prompt; prompt; prompt]
          /\ forall iss b, 0 < b ->
               explain true endpoint prompt iss b w = (offline_hint iss, b, w'))
    /\ (forall e,
        endpoint n prompt = Raise e -> rate_limited e = false ->
        exists w',
          _chat true endpoint prompt 3 w = (Raise e, w')
          /\ sleeps w' = sleeps w
          /\ requests w' = requests w ++ [prompt]
          /\ forall iss b, 0 < b ->
               explain true endpoint prompt iss b w = (offline_hint iss, b, w'))
    /\ (forall retries,
        (forall i, (i < Z.to_nat retries)%nat ->
           exists e, endpoint (n + i)%nat prompt = Raise e /\ rate_limited e = true) ->
        exists w',
          _chat true endpoint prompt retries w = (Raise (RuntimeError "LLM_RATE_LIMIT"), w')
          /\ sleeps w' = sleeps w ++
               map (fun i => Z.min (2 ^ (Z.of_nat i + 1)) 16) (seq 0 (Z.to_nat retries))
          /\ requests w' = requests w ++ repeat prompt (Z.to_nat retries))
    /\ (forall retries j e,
        (j < Z.to_nat retries)%nat ->
        (forall i, (i < j)%nat ->
           exists e', endpoint (n + i)%nat prompt = Raise e' /\ rate_limited e' = true) ->
        endpoint (n + j)%nat prompt = Raise e -> rate_limited e = false ->
        exists w',
          _chat true endpoint prompt retries w = (Raise e, w')
          /\ sleeps w' = sleeps w ++
               map (fun i => Z.min (2 ^ (Z.of_nat i + 1)) 16) (seq 0 j)
          /\ requests w' = requests w ++ repeat prompt (S j)
          /\ (retries = 3 ->
              forall iss b, 0 < b ->
                explain true endpoint prompt iss b w = (offline_hint iss, b, w')))
    /\ (forall retries j content,
        (j < Z.to_nat retries)%nat ->
        (forall i, (i < j)%nat ->
           exists e', endpoint (n + i)%nat prompt = Raise e' /\ rate_limited e' = true) ->
        endpoint (n + j)%nat prompt = Ok content ->
        exists w',
          _chat true endpoint prompt retries w = (Ok (strip content), w')
          /\ sleeps w' = sleeps w ++
               map (fun i => Z.min (2 ^ (Z.of_nat i + 1)) 16) (seq 0 j)
          /\ requests w' = requests w ++ repeat prompt (S j)
          /\ (retries = 3 ->
              forall iss b, 0 < b ->
                explain true endpoint prompt iss b w = (Ok (strip content), b - 1, w'))).
Proof.
  intros endpoint prompt w n.
  assert (Hn : List.length (requests (chat_entered prompt w)) = n) by reflexivity.
  split; [|split; [|split; [|split; [|split]]]].
  - intros e1 e2 content H1 R1 H2 R2 H3.
    destruct (chat_loop_recovers endpoint prompt content 2 0 2 (chat_entered prompt w))
      as [w' [E [Hs [Hq _]]]].
    + rewrite Hn. intros i Hi.
      destruct i as [|[|i]]; [exists e1 | exists e2 | lia]; split; try assumption.
      rewrite Nat.add_0_r. exact H1.
    + rewrite Hn. exact H3.
    + exists w'. unfold _chat. simpl negb. cbv iota.
      change (Z.to_nat 3) with (2 + 1)%nat. rewrite E.
      split; [reflexivity|]. split; [exact Hs | exact Hq].
  - intros H.
    destruct (chat_loop_limited endpoint prompt 3 2 (chat_entered prompt w))
      as [w' [E [Hs [Hq _]]]].
    + rewrite Hn. exact H.
    + assert (C : _chat true endpoint prompt 3 w
                  = (Raise (RuntimeError "LLM_RATE_LIMIT"), w')).
      { unfold _chat. simpl negb. cbv iota. change (Z.to_nat 3) with 3%nat. exact E. }
      exists w'. split; [exact C|]. split; [exact Hs|]. split; [exact Hq|].
      intros iss b Hb. unfold explain. apply Z.ltb_lt in Hb. rewrite Hb, C. reflexivity.
  - intros e He Hr.
    assert (C : _chat true endpoint prompt 3 w
                = (Raise e, request_sent prompt (chat_entered prompt w))).
    { unfold _chat. simpl negb. cbv iota. change (Z.to_nat 3) with 3%nat.
      apply chat_loop_reraises; [rewrite Hn; exact He | exact Hr]. }
    eexists. split; [exact C|]. split; [reflexivity|]. split; [reflexivity|].
    intros iss b Hb. unfold explain. apply Z.ltb_lt in Hb. rewrite Hb, C. reflexivity.
  - intros retries H.
    destruct (chat_loop_limited endpoint prompt (Z.to_nat retries) 2 (chat_entered prompt w))
      as [w' [E [Hs [Hq _]]]].
    + rewrite Hn. exact H.
    + exists w'. unfold _chat. simpl negb. cbv iota. split; [exact E|].
      split; [rewrite Hs, backoff_schedule; reflexivity | exact Hq].
  - intros retries j e Hj H He Hr.
    destruct (chat_loop_gives_up endpoint prompt e j (Z.to_nat retries - S j) 2
                (chat_entered prompt w))
      as [w' [E [Hs [Hq _]]]].
    + rewrite Hn. exact H.
    + rewrite Hn. exact He.
    + exact Hr.
    + replace (j + S (Z.to_nat retries - S j))%nat with (Z.to_nat retries) in E by lia.
      assert (C : _chat true endpoint prompt retries w = (Raise e, w')).
      { unfold _chat. simpl negb. cbv iota. exact E. }
      exists w'. split; [exact C|].
      split; [rewrite Hs, backoff_schedule; reflexivity|].
      split; [exact Hq|].
      intros -> iss b Hb. unfold explain. apply Z.ltb_lt in Hb. rewrite Hb, C. reflexivity.
  - intros retries j content Hj H Hok.
    destruct (chat_loop_recovers endpoint prompt content j (Z.to_nat retries - S j) 2
                (chat_entered prompt w))
      as [w' [E [Hs [Hq _]]]].
    + rewrite Hn. exact H.
    + rewrite Hn. exact Hok.
    + replace (j + S (Z.to_nat retries - S j))%nat with (Z.to_nat retries) in E by lia.
      assert (C : _chat true endpoint prompt retries w = (Ok (strip content), w')).
      { unfold _chat. simpl negb. cbv iota. exact E. }
      exists w'. split; [exact C|].
      split; [rewrite Hs, backoff_schedule; reflexivity|].
      split; [exact Hq|].
      intros -> iss b Hb. unfold explain. apply Z.ltb_lt in Hb. rewrite Hb, C. reflexivity.
Qed.

(** The cases on the sample endpoints; six attempts show the ceiling of
    16, and a connection error that follows a rate-limited attempt ends
    the call after the second request. *)
Lemma chat_retry_policy_witness :
  (exists w',
      _chat true endpoint_throttled_twice (u "prompt") 3 quiet
      = (Ok (u "Why: unused import. Fix: remove it."), w')
      /\ sleeps w' = [2; 4])
  /\ (exists w',
      _chat true endpoint_throttled (u "prompt") 3 quiet
      = (Raise (RuntimeError "LLM_RATE_LIMIT"), w')
      /\ sleeps w' = [2; 4; 8])
  /\ (exists w',
      _chat true endpoint_down (u "prompt") 3 quiet
      = (Raise (Exn "APIConnectionError" (u "Connection error.")), w')
      /\ sleeps w' = [])
  /\ (exists w',
      _chat true endpoint_throttled (u "prompt") 6 quiet
      = (Raise (RuntimeError "LLM_RATE_LIMIT"), w')
      /\ sleeps w' = [2; 4; 8; 16; 16; 16])
  /\ (exists w',
      _chat true endpoint_throttled_then_down (u "prompt") 3 quiet
      = (Raise (Exn "APIConnectionError" (u "Connection error.")), w')
      /\ sleeps w' = [2]
      /\ requests w' = [u "prompt"; u "prompt"]
      /\ explain true endpoint_throttled_then_down (u "prompt") (VDict []) 1 quiet
         = (offline_hint (VDict []), 1, w'))
  /\ (exists w',
      _chat true endpoint_throttled_twice (u "prompt") 5 quiet
      = (Ok (u "Why: unused import. Fix: remove it."), w')
      /\ sleeps w' = [2; 4]
      /\ requests w' = [u "prompt"; u "prompt"; u "prompt"]).
Proof.
  split; [|split; [|split; [|split; [|split]]]].
  - destruct (chat_retry_policy endpoint_throttled_twice (u "prompt") quiet)
      as (H & _).
    destruct (H (Exn "RateLimitError" (u "Rate limit reached"))
                (Exn "RateLimitError" (u "Rate limit reached"))
                (u "Why: unused import. Fix: remove it."))
      as [w' [E [Hs _]]]; try reflexivity.
    exists w'. split; [exact E | exact Hs].
  - destruct (chat_retry_policy endpoint_throttled (u "prompt") quiet)
      as (_ & H & _).
    destruct H as [w' [E [Hs _]]].
    + intros i _. exists (Exn "RateLimitError" (u "Quota exceeded for model")).
      split; reflexivity.
    + exists w'. split; [exact E | exact Hs].
  - destruct (chat_retry_policy endpoint_down (u "prompt") quiet)
      as (_ & _ & H & _).
    destruct (H (Exn "APIConnectionError" (u "Connection error.")))
      as [w' [E [Hs _]]]; try reflexivity.
    exists w'. split; [exact E | exact Hs].
  - destruct (chat_retry_policy endpoint_throttled (u "prompt") quiet)
      as (_ & _ & _ & H & _).
    destruct (H 6) as [w' [E [Hs _]]].
    + intros i _. exists (Exn "RateLimitError" (u "Quota exceeded for model")).
      split; reflexivity.
    + exists w'. split; [exact E | exact Hs].
  - destruct (chat_retry_policy endpoint_throttled_then_down (u "prompt") quiet)
      as (_ & _ & _ & _ & H & _).
    destruct (H 3 1%nat (Exn "APIConnectionError" (u "Connection error.")))
      as [w' [E [Hs [Hq Hx]]]].
    + vm_compute. lia.
    + intros i Hi. exists (Exn "RateLimitError" (u "Rate limit reached")).
      assert (i = 0)%nat by lia. subst i. split; reflexivity.
    + reflexivity.
    + reflexivity.
    + exists w'. split; [exact E|]. split; [exact Hs|]. split; [exact Hq|].
      apply (Hx eq_refl). lia.
  - destruct (chat_retry_policy endpoint_throttled_twice (u "prompt") quiet)
      as (_ & _ & _ & _ & _ & H).
    destruct (H 5 2%nat (u "Why: unused import. Fix: remove it."))
      as [w' [E [Hs [Hq _]]]].
    + vm_compute. lia.
    + intros i Hi. exists (Exn "RateLimitError" (u "Rate limit reached")).
      destruct i as [|[|i]]; [split; reflexivity | split; reflexivity | lia].
    + reflexivity.
    + exists w'. split; [exact E|]. split; [exact Hs | exact Hq].
Defined.

(** C5.  On an analysis of the shape the runner produces, whatever the
    endpoint does, the pass returns one Suggestion for each finding it
    iterates, in the order lint, security, complexity; the Suggestion
    carries the type, file, line and message of its finding.  A file
    group contributes at most [max_llm_calls] lint findings, the security
    findings are at most 3, and at most 3 files contribute at most 2
    complexity findings each. *)
Theorem every_iterated_finding_yields_one_suggestion :
  forall (USE_LLM : bool) (endpoint : nat -> text -> result text)
         (analysis : value) (max_llm_calls : Z),
    well_formed analysis = true ->
    exists suggestions,
      reason_over_findings USE_LLM endpoint analysis max_llm_calls = Ok suggestions
      /\ Forall2 explains (iterated analysis max_llm_calls) suggestions
      /\ List.length suggestions = List.length (iterated analysis max_llm_calls)
      /\ (0 <= max_llm_calls ->
          forall e, Z.of_nat (List.length (lint_headings max_llm_calls e)) <= max_llm_calls)
      /\ (forall results, Z.of_nat (List.length (security_headings results)) <= 3)
      /\ (forall kv, Z.of_nat (List.length (complexity_headings kv)) <= 2)
      /\ (forall files : list (text * value),
          Z.of_nat (List.length (slice_to 3 files)) <= 3).
Proof.
  intros USE_LLM endpoint analysis N H.
  destruct (reason_run_total USE_LLM endpoint analysis N N quiet H)
    as [sugs [b' [w' [E F]]]].
  exists sugs. split.
  { unfold reason_over_findings, reason_over_findings_in. rewrite E. reflexivity. }
  split; [exact F|].
  split; [symmetry; exact (Forall2_length F)|].
  split.
  { intros HN e. unfold lint_headings. rewrite length_map. apply slice_to_length. exact HN. }
  split.
  { intros results. unfold security_headings. rewrite length_map.
    apply slice_to_length. lia. }
  split.
  { intros kv. unfold complexity_headings. rewrite length_map.
    apply slice_to_length. lia. }
  intros files. apply slice_to_length. lia.
Qed.

(** The findings of the three tools with a budget of 2 and an endpoint that
    is down: 2 lint, 1 security and 2 complexity suggestions. *)
Lemma every_iterated_finding_yields_one_suggestion_witness :
  exists suggestions,
    reason_over_findings true endpoint_down mixed_findings 2 = Ok suggestions
    /\ List.length suggestions = 5%nat.
Proof.
  assert (W : well_formed mixed_findings = true) by (vm_compute; reflexivity).
  destruct (every_iterated_finding_yields_one_suggestion
              true endpoint_down mixed_findings 2 W)
    as [suggestions [E [_ [L _]]]].
  exists suggestions. split; [exact E|].
  rewrite L. vm_compute. reflexivity.
Defined.

End AgentFacts.

(** ** The static tool runner *)

Module AnalyzerFacts.
Import Py Analyzer Views Samples.

Section Runner.
Variable executable : text.
Variable run_cmd : list text -> result (Z * text * text).
Variable json_loads : text -> result value.
Variable list_py_files : text -> list text.
Variable clone_repo : text -> result text.

Hypothesis loads_empty_list : json_loads (u "[]") = Ok (VList []).
Hypothesis loads_empty_dict : json_loads (u "{}") = Ok (VDict []).

Lemma or_text_nonempty (out default : text) : out <> [] -> or_text out default = out.
Proof. destruct out; [congruence | reflexivity]. Qed.

Lemma pylint_file_recorded (f : text) :
  is_ok (run_cmd (pylint_cmd executable f)) = true ->
  exists entry,
    pylint_file executable run_cmd json_loads f = Ok entry /\ recorded_for executable run_cmd json_loads f entry.
Proof.
  intros H. unfold pylint_file.
  destruct (run_cmd (pylint_cmd executable f)) as [[[code out] err]|e] eqn:E;
    [|discriminate].
  simpl.
  destruct (json_loads (or_text out (u "[]"))) as [v|e] eqn:EJ; simpl.
  - eexists. split; [reflexivity|]. exists v. split; [reflexivity|].
    intros code' out' err' E'. rewrite E in E'. injection E' as <- <- <-. split.
    + intros [Hout | Hbad].
      * subst out. simpl in EJ. rewrite loads_empty_list in EJ. congruence.
      * destruct out as [|c out]; [simpl in EJ; rewrite loads_empty_list in EJ; congruence|].
        simpl in EJ. rewrite EJ in Hbad. discriminate.
    + intros v' Hne Hv'. rewrite or_text_nonempty in EJ by exact Hne. congruence.
  - eexists. split; [reflexivity|]. exists (VList []). split; [reflexivity|].
    intros code' out' err' E'. rewrite E in E'. injection E' as <- <- <-. split.
    + reflexivity.
    + intros v' Hne Hv'. rewrite or_text_nonempty in EJ by exact Hne. congruence.
Qed.

Lemma map_result_total {A B} (f : A -> result B) (P : A -> B -> Prop) (l : list A) :
  (forall x, In x l -> exists y, f x = Ok y /\ P x y) ->
  exists ys, map_result f l = Ok ys /\ Forall2 P l ys.
Proof.
  induction l as [|x l IH]; intros H.
  - exists []. split; [reflexivity | constructor].
  - destruct (H x (or_introl eq_refl)) as [y [E Py]].
    destruct (IH (fun x' Hx => H x' (or_intror Hx))) as [ys [E2 Pys]].
    exists (y :: ys). split; [|constructor; assumption].
    simpl. rewrite E. simpl. rewrite E2. reflexivity.
Qed.

Lemma run_pylint_total (root : text) :
  (forall f, In f (list_py_files root) ->
     is_ok (run_cmd (pylint_cmd executable f)) = true) ->
  exists entries,
    run_pylint executable run_cmd json_loads list_py_files root = Ok entries
    /\ Forall2 (recorded_for executable run_cmd json_loads) (list_py_files root) entries.
Proof.
  intros H. unfold run_pylint. apply map_result_total.
  intros f Hf. apply pylint_file_recorded. apply H. exact Hf.
Qed.

Lemma run_bandit_empty (root : text) (code : Z) (out err : text) :
  run_cmd (bandit_cmd executable root) = Ok (code, out, err) ->
  unusable json_loads out ->
  exists v,
    run_bandit executable run_cmd json_loads root = Ok v
    /\ get v "results" (VList []) = Ok (VList []).
Proof.
  intros E Hout. unfold run_bandit. rewrite E. simpl.
  destruct Hout as [Hout | Hbad].
  - subst out. simpl. rewrite loads_empty_dict. simpl.
    exists (VDict []). split; reflexivity.
  - destruct out as [|c out].
    + simpl. rewrite loads_empty_dict. exists (VDict []). split; reflexivity.
    + simpl or_text. destruct (json_loads (c :: out)); [discriminate|]. simpl.
      eexists. split; reflexivity.
Qed.

Lemma run_radon_empty (root : text) (code : Z) (out err : text) :
  run_cmd (radon_cmd executable root) = Ok (code, out, err) ->
  unusable json_loads out ->
  run_radon_complexity executable run_cmd json_loads root = Ok (VDict []).
Proof.
  intros E Hout. unfold run_radon_complexity. rewrite E. simpl.
  destruct Hout as [Hout | Hbad].
  - subst out. simpl. rewrite loads_empty_dict. reflexivity.
  - destruct out as [|c out].
    + simpl. rewrite loads_empty_dict. reflexivity.
    + simpl or_text. destruct (json_loads (c :: out)); [discriminate|]. reflexivity.
Qed.

(** An output that decodes is returned as decoded. *)
Lemma run_bandit_decoded (root : text) (code : Z) (out err : text) (v : value) :
  run_cmd (bandit_cmd executable root) = Ok (code, out, err) ->
  out <> [] -> json_loads out = Ok v ->
  run_bandit executable run_cmd json_loads root = Ok v.
Proof.
  intros E Hne Hv. unfold run_bandit. rewrite E. simpl.
  rewrite (or_text_nonempty out (u "{}") Hne), Hv. reflexivity.
Qed.

Lemma run_radon_decoded (root : text) (code : Z) (out err : text) (v : value) :
  run_cmd (radon_cmd executable root) = Ok (code, out, err) ->
  out <> [] -> json_loads out = Ok v ->
  run_radon_complexity executable run_cmd json_loads root = Ok v.
Proof.
  intros E Hne Hv. unfold run_radon_complexity. rewrite E. simpl.
  rewrite (or_text_nonempty out (u "{}") Hne), Hv. reflexivity.
Qed.

(** The three analyzers run on the checkout, each on its own output, and
    the runner returns their three results. *)
Lemma analyze_repository_collects (git_url repo_dir : text) :
  clone_repo git_url = Ok repo_dir ->
  (forall cmd, is_ok (run_cmd cmd) = true) ->
  exists lint security complexity,
    run_pylint executable run_cmd json_loads list_py_files repo_dir = Ok lint
    /\ run_bandit executable run_cmd json_loads repo_dir = Ok security
    /\ run_radon_complexity executable run_cmd json_loads repo_dir = Ok complexity
    /\ analyze_repository executable run_cmd json_loads list_py_files clone_repo git_url
       = Ok (VDict [(u "repo_dir", VStr repo_dir); (u "pylint", VList lint);
                    (u "bandit", security); (u "radon", complexity)])
    /\ Forall2 (recorded_for executable run_cmd json_loads) (list_py_files repo_dir) lint
    /\ (forall code out err,
          run_cmd (bandit_cmd executable repo_dir) = Ok (code, out, err) ->
          (unusable json_loads out -> get security "results" (VList []) = Ok (VList []))
          /\ (forall v, out <> [] -> json_loads out = Ok v -> security = v))
    /\ (forall code out err,
          run_cmd (radon_cmd executable repo_dir) = Ok (code, out, err) ->
          (unusable json_loads out -> complexity = VDict [])
          /\ (forall v, out <> [] -> json_loads out = Ok v -> complexity = v)).
Proof.
  intros Hc Hr.
  destruct (run_pylint_total repo_dir (fun f _ => Hr (pylint_cmd executable f)))
    as [lint [EP FP]].
  assert (HB : exists security,
             run_bandit executable run_cmd json_loads repo_dir = Ok security).
  { unfold run_bandit. pose proof (Hr (bandit_cmd executable repo_dir)) as Hb.
    destruct (run_cmd (bandit_cmd executable repo_dir)) as [[[code out] err]|];
      [|discriminate].
    simpl. destruct (json_loads (or_text out (u "{}"))); simpl; eexists; reflexivity. }
  assert (HR : exists complexity,
             run_radon_complexity executable run_cmd json_loads repo_dir = Ok complexity).
  { unfold run_radon_complexity. pose proof (Hr (radon_cmd executable repo_dir)) as Hd.
    destruct (run_cmd (radon_cmd executable repo_dir)) as [[[code out] err]|];
      [|discriminate].
    simpl. destruct (json_loads (or_text out (u "{}"))); simpl; eexists; reflexivity. }
  destruct HB as [security EB]. destruct HR as [complexity ER].
  exists lint, security, complexity.
  split; [exact EP|]. split; [exact EB|]. split; [exact ER|].
  split; [unfold analyze_repository; rewrite Hc; simpl; rewrite EP; simpl;
          rewrite EB; simpl; rewrite ER; reflexivity|].
  split; [exact FP|]. split.
  - intros code out err E. split.
    + intros Hu. destruct (run_bandit_empty repo_dir code out err E Hu) as [v [Ev Hv]].
      rewrite EB in Ev. injection Ev as <-. exact Hv.
    + intros v Hne Hv. pose proof (run_bandit_decoded repo_dir code out err v E Hne Hv) as Ev.
      rewrite EB in Ev. injection Ev as <-. reflexivity.
  - intros code out err E. split.
    + intros Hu. pose proof (run_radon_empty repo_dir code out err E Hu) as Ev.
      rewrite ER in Ev. injection Ev as <-. reflexivity.
    + intros v Hne Hv. pose proof (run_radon_decoded repo_dir code out err v E Hne Hv) as Ev.
      rewrite ER in Ev. injection Ev as <-. reflexivity.
Qed.

End Runner.

(** No parse failure reaches the caller: when the clone and the processes
    succeed, the runner returns, whatever the decoder does. *)
Lemma analyze_repository_total
  (executable : text) (run_cmd : list text -> result (Z * text * text))
  (json_loads : text -> result value) (list_py_files : text -> list text)
  (clone_repo : text -> result text) (git_url repo_dir : text) :
  clone_repo git_url = Ok repo_dir ->
  (forall cmd, is_ok (run_cmd cmd) = true) ->
  exists lint security complexity,
    analyze_repository executable run_cmd json_loads list_py_files clone_repo git_url
    = Ok (VDict [(u "repo_dir", VStr repo_dir); (u "pylint", VList lint);
                 (u "bandit", security); (u "radon", complexity)]).
Proof.
  intros Hc Hr. unfold analyze_repository. rewrite Hc. simpl.
  assert (HP : exists lint,
             run_pylint executable run_cmd json_loads list_py_files repo_dir = Ok lint).
  { unfold run_pylint. induction (list_py_files repo_dir) as [|f l IH].
    - exists []. reflexivity.
    - destruct IH as [lint E]. simpl. unfold pylint_file at 1.
      specialize (Hr (pylint_cmd executable f)).
      destruct (run_cmd (pylint_cmd executable f)) as [[[code out] err]|]; [|discriminate].
      simpl. destruct (json_loads _); simpl; rewrite E; eexists; reflexivity. }
  destruct HP as [lint EP]. rewrite EP. simpl.
  unfold run_bandit. pose proof (Hr (bandit_cmd executable repo_dir)) as Hb.
  destruct (run_cmd (bandit_cmd executable repo_dir)) as [[[code out] err]|]; [|discriminate].
  simpl.
  unfold run_radon_complexity. pose proof (Hr (radon_cmd executable repo_dir)) as Hd.
  destruct (run_cmd (radon_cmd executable repo_dir)) as [[[code2 out2] err2]|]; [|discriminate].
  simpl.
  destruct (json_loads (or_text out (u "{}"))); simpl;
    destruct (json_loads (or_text out2 (u "{}"))); simpl;
    eexists _, _, _; reflexivity.
Qed.

(** C6.  Whenever the tool processes themselves run, an output that is
    empty or that [json.loads] rejects gives an empty result for that
    analyzer, for that analyzer only, and no exception: [run_pylint]
    returns one entry per file, in order, with an empty issue list for
    each file whose output is unusable and the decoded issues for the
    others; [run_bandit] returns an object without results;
    [run_radon_complexity] returns the empty mapping; and
    [analyze_repository] returns, under ["pylint"], ["bandit"] and
    ["radon"], what the three analyzers return on the checkout: each is
    empty when its own output is unusable and is the decoded document
    otherwise, whatever the outputs of the other two. *)
Theorem parse_failures_give_empty_results :
  forall (executable : text) (run_cmd : list text -> result (Z * text * text))
         (json_loads : text -> result value) (list_py_files : text -> list text)
         (clone_repo : text -> result text),
    json_loads (u "[]") = Ok (VList []) ->
    json_loads (u "{}") = Ok (VDict []) ->
    (forall root,
        (forall f, In f (list_py_files root) ->
           is_ok (run_cmd (pylint_cmd executable f)) = true) ->
        exists entries,
          run_pylint executable run_cmd json_loads list_py_files root = Ok entries
          /\ Forall2 (recorded_for executable run_cmd json_loads)
                     (list_py_files root) entries)
    /\ (forall root code out err,
        run_cmd (bandit_cmd executable root) = Ok (code, out, err) ->
        unusable json_loads out ->
        exists v,
          run_bandit executable run_cmd json_loads root = Ok v
          /\ get v "results" (VList []) = Ok (VList []))
    /\ (forall root code out err,
        run_cmd (radon_cmd executable root) = Ok (code, out, err) ->
        unusable json_loads out ->
        run_radon_complexity executable run_cmd json_loads root = Ok (VDict []))
    /\ (forall git_url repo_dir,
        clone_repo git_url = Ok repo_dir ->
        (forall cmd, is_ok (run_cmd cmd) = true) ->
        exists lint security complexity,
          run_pylint executable run_cmd json_loads list_py_files repo_dir = Ok lint
          /\ run_bandit executable run_cmd json_loads repo_dir = Ok security
          /\ run_radon_complexity executable run_cmd json_loads repo_dir = Ok complexity
          /\ analyze_repository executable run_cmd json_loads list_py_files clone_repo git_url
             = Ok (VDict [(u "repo_dir", VStr repo_dir); (u "pylint", VList lint);
                          (u "bandit", security); (u "radon", complexity)])
          /\ Forall2 (recorded_for executable run_cmd json_loads)
                     (list_py_files repo_dir) lint
          /\ (forall code out err,
                run_cmd (bandit_cmd executable repo_dir) = Ok (code, out, err) ->
                (unusable json_loads out ->
                 get security "results" (VList []) = Ok (VList []))
                /\ (forall v, out <> [] -> json_loads out = Ok v -> security = v))
          /\ (forall code out err,
                run_cmd (radon_cmd executable repo_dir) = Ok (code, out, err) ->
                (unusable json_loads out -> complexity = VDict [])
                /\ (forall v, out <> [] -> json_loads out = Ok v -> complexity = v))).
Proof.
  intros executable run_cmd json_loads list_py_files clone_repo HL HD.
  split; [intros; apply run_pylint_total; assumption|].
  split; [intros; eapply run_bandit_empty; eassumption|].
  split; [intros; eapply run_radon_empty; eassumption|].
  intros; apply analyze_repository_collects; assumption.
Qed.

(** Three files, of which one is reported on, one makes pylint crash and
    one gives no output; bandit crashes and radon prints nothing: the
    runner returns the one decoded issue and three empty results. *)
Lemma parse_failures_give_empty_results_witness :
  run_pylint (u "python3") sample_run_cmd small_loads sample_files (u "/tmp/devmate_1700000000")
  = Ok [VDict [(u "file", VStr (u "good.py"));
               (u "issues", VList [VDict [(u "line", VInt 3)]])];
        VDict [(u "file", VStr (u "bad.py")); (u "issues", VList [])];
        VDict [(u "file", VStr (u "silent.py")); (u "issues", VList [])]]
  /\ (exists v,
        run_bandit (u "python3") sample_run_cmd small_loads (u "/tmp/devmate_1700000000") = Ok v
        /\ get v "results" (VList []) = Ok (VList []))
  /\ run_radon_complexity (u "python3") sample_run_cmd small_loads (u "/tmp/devmate_1700000000")
     = Ok (VDict [])
  /\ analyze_repository (u "python3") sample_run_cmd small_loads sample_files
       sample_clone (u "https://github.com/psf/requests.git")
     = Ok (VDict [(u "repo_dir", VStr (u "/tmp/devmate_1700000000"));
                  (u "pylint",
                   VList [VDict [(u "file", VStr (u "good.py"));
                                 (u "issues", VList [VDict [(u "line", VInt 3)]])];
                          VDict [(u "file", VStr (u "bad.py")); (u "issues", VList [])];
                          VDict [(u "file", VStr (u "silent.py")); (u "issues", VList [])]]);
                  (u "bandit", VDict [(u "results", VList [])]);
                  (u "radon", VDict [])]).
Proof.
  destruct (parse_failures_give_empty_results
              (u "python3") sample_run_cmd small_loads sample_files sample_clone
              eq_refl eq_refl)
    as (HP & HB & HR & HA).
  split; [|split; [|split]].
  - destruct (HP (u "/tmp/devmate_1700000000")) as [entries [E _]].
    + intros f _. unfold sample_run_cmd.
      repeat match goal with |- context [if ?c then _ else _] => destruct c end;
        reflexivity.
    + vm_compute. reflexivity.
  - apply (HB (u "/tmp/devmate_1700000000") 2 (u "Traceback (most recent call last):") []).
    + vm_compute. reflexivity.
    + right. vm_compute. reflexivity.
  - apply (HR (u "/tmp/devmate_1700000000") 0 [] []).
    + vm_compute. reflexivity.
    + left. reflexivity.
  - destruct (HA (u "https://github.com/psf/requests.git") (u "/tmp/devmate_1700000000"))
      as (lint & security & complexity & EP & EB & ER & E & _).
    + reflexivity.
    + intros cmd. unfold sample_run_cmd.
      repeat match goal with |- context [if ?c then _ else _] => destruct c end;
        reflexivity.
    + rewrite E. vm_compute in EP, EB, ER.
      injection EP as <-. injection EB as <-. injection ER as <-. reflexivity.
Defined.

End AnalyzerFacts.

(** ** The document renderer *)

Module ReporterFacts.
Import Py Reporter Views Samples.

(** *** Decimal digits *)

Lemma digits_of_pos_digits (fuel : nat) :
  forall (n : N) (acc : text),
    forallb is_ascii_digit acc = true ->
    forallb is_ascii_digit (digits_of_pos fuel n acc) = true.
Proof.
  induction fuel as [|fuel IH]; intros n acc H; cbn [digits_of_pos]; [exact H|].
  assert (D : forallb is_ascii_digit ((48 + n mod 10)%N :: acc) = true).
  { cbn [forallb]. rewrite H, andb_true_r. unfold is_ascii_digit.
    assert (Hm : (n mod 10 < 10)%N) by (apply N.mod_lt; discriminate).
    revert Hm. generalize (n mod 10)%N. intros m Hm.
    apply andb_true_iff. split; apply N.leb_le; lia. }
  destruct (n <? 10)%N; [exact D | apply IH; exact D].
Qed.

Lemma digits_of_pos_nonempty (fuel : nat) (n : N) (acc : text) :
  digits_of_pos (S fuel) n acc <> [].
Proof.
  revert n acc. induction fuel as [|fuel IH]; intros n acc.
  - simpl. destruct (n <? 10)%N; discriminate.
  - change (digits_of_pos (S (S fuel)) n acc)
      with (if (n <? 10)%N then (48 + n mod 10)%N :: acc
            else digits_of_pos (S fuel) (n / 10)%N ((48 + n mod 10)%N :: acc)).
    destruct (n <? 10)%N; [discriminate | apply IH].
Qed.

Lemma text_of_Z_digits (z : Z) :
  0 <= z -> text_of_Z z <> [] /\ forallb is_ascii_digit (text_of_Z z) = true.
Proof.
  intros Hz. unfold text_of_Z.
  destruct z as [|p|p]; [| |lia]; unfold text_of_N; split;
    try apply digits_of_pos_nonempty; apply digits_of_pos_digits; reflexivity.
Qed.

(** *** Paths *)

Lemma basename_scan_plain (s : text) :
  forall cur, forallb (fun c => negb (c =? 47)%N) s = true ->
              basename_scan cur s = rev cur ++ s.
Proof.
  induction s as [|c s IH]; intros cur H; simpl.
  - now rewrite app_nil_r.
  - simpl in H. apply andb_true_iff in H. destruct H as [Hc Hs].
    apply negb_true_iff in Hc. rewrite Hc. rewrite IH by exact Hs.
    simpl. now rewrite <- app_assoc.
Qed.

Lemma digits_no_slash (ds : text) :
  forallb is_ascii_digit ds = true -> forallb (fun c => negb (c =? 47)%N) ds = true.
Proof.
  intros H. apply forallb_forall. intros c Hc.
  pose proof (proj1 (forallb_forall _ _) H c Hc) as D.
  unfold is_ascii_digit in D. apply andb_true_iff in D. destruct D as [D _].
  apply N.leb_le in D. apply negb_true_iff, N.eqb_neq. lia.
Qed.

Lemma relative_path_eq (now : Z) :
  0 <= now ->
  relative_path now = u "reports/devmate_report_" ++ text_of_Z now ++ u ".pdf".
Proof.
  intros Hn. destruct (text_of_Z_digits now Hn) as [_ D].
  unfold relative_path, out_path.
  change (path_join reports_dir (u "devmate_report_" ++ text_of_Z now ++ u ".pdf"))
    with (u "static/reports/" ++ u "devmate_report_" ++ text_of_Z now ++ u ".pdf").
  change (basename (u "static/reports/" ++ u "devmate_report_" ++ text_of_Z now ++ u ".pdf"))
    with (basename_scan [] (u "devmate_report_" ++ text_of_Z now ++ u ".pdf")).
  rewrite basename_scan_plain; [reflexivity|].
  rewrite !forallb_app.
  apply andb_true_iff; split; [reflexivity|].
  apply andb_true_iff; split; [apply digits_no_slash; exact D | reflexivity].
Qed.

Lemma relative_path_shape (now : Z) : 0 <= now -> report_path_shape (relative_path now).
Proof.
  intros Hn. destruct (text_of_Z_digits now Hn) as [NE D].
  exists (text_of_Z now). split; [exact NE|]. split; [exact D|].
  apply relative_path_eq. exact Hn.
Qed.

Section Generate.
Variable Doc : Type.
Variable FPDF : Doc.
Variable add_font : Doc -> text -> text -> text -> result Doc.
Variable perform : Doc -> pdf_op -> result Doc.
Variable output : Doc -> text -> result unit.
Variable path_exists : text -> bool.
Variable makedirs : text -> result unit.
Variable clock : text.
Variable now : Z.

Let generate := @generate_pdf_report Doc FPDF add_font perform output path_exists makedirs clock now.
Let unicode := @unicode_attempt Doc FPDF add_font perform output path_exists clock now.
Let fallback := @fallback_attempt Doc FPDF perform output clock now.

Lemma generate_unicode_success (repo_url suggestions full_output : value) :
  makedirs reports_dir = Ok tt ->
  unicode repo_url suggestions full_output = Ok tt ->
  generate repo_url suggestions full_output = Ok (relative_path now).
Proof.
  intros Hm H. unfold generate, unicode, fallback in *. unfold generate_pdf_report. rewrite Hm. simpl. rewrite H. reflexivity.
Qed.

Lemma generate_falls_back (repo_url suggestions full_output : value) (e : exn) :
  makedirs reports_dir = Ok tt ->
  unicode repo_url suggestions full_output = Raise e ->
  generate repo_url suggestions full_output
  = match fallback repo_url suggestions full_output with
    | Ok _ => Ok (relative_path now)
    | Raise fallback_error => Raise fallback_error
    end.
Proof.
  intros Hm H. unfold generate, unicode, fallback in *. unfold generate_pdf_report. rewrite Hm. simpl. rewrite H. simpl.
  destruct (fallback_attempt _ _ _ _ _ _ _ _); reflexivity.
Qed.

Lemma unicode_needs_font (repo_url suggestions full_output : value) :
  find_font path_exists = None ->
  unicode repo_url suggestions full_output
  = Raise (RuntimeError "No Unicode font found; forcing fallback.").
Proof. intros H. unfold unicode, unicode_attempt. rewrite H. reflexivity. Qed.

Lemma unicode_needs_registration (repo_url suggestions full_output : value)
  (font_path : text) (e : exn) :
  find_font path_exists = Some font_path ->
  add_font FPDF (u "Auto") [] font_path = Raise e ->
  unicode repo_url suggestions full_output = Raise e.
Proof. intros H Ha. unfold unicode, unicode_attempt. rewrite H. simpl. rewrite Ha. reflexivity. Qed.

Lemma fallback_from_new_document (repo_url suggestions full_output : value) :
  fallback repo_url suggestions full_output
  = (do drawn <-
       perform_all perform FPDF
         (fst (_render_pdf clock repo_url suggestions
                 (VStr (normalize_output full_output)) false));
     do _u <- snd (_render_pdf clock repo_url suggestions
                     (VStr (normalize_output full_output)) false);
     output drawn (out_path now)).
Proof.
  unfold fallback, fallback_attempt, render.
  destruct (_render_pdf clock repo_url suggestions (VStr (normalize_output full_output)) false)
    as [ops r].
  simpl. destruct (perform_all perform FPDF ops); simpl; [|reflexivity].
  destruct r; reflexivity.
Qed.

(** The calls of a list are made by [perform_all], and in one way only. *)
Lemma draws_perform_all (ops : list pdf_op) :
  forall pdf, draws perform pdf ops (perform_all perform pdf ops).
Proof.
  induction ops as [|op ops IH]; intros pdf; cbn [perform_all]; [constructor|].
  destruct (perform pdf op) as [pdf'|e] eqn:E; cbn [bind].
  - apply draws_call with (pdf' := pdf'); [exact E | apply IH].
  - apply draws_raise. exact E.
Qed.

Lemma draws_unique (ops : list pdf_op) (pdf : Doc) (r : result Doc) :
  draws perform pdf ops r -> r = perform_all perform pdf ops.
Proof.
  induction 1 as [pdf | pdf op pdf' ops r E _ IH | pdf op ops e E]; cbn [perform_all].
  - reflexivity.
  - rewrite E. exact IH.
  - rewrite E. reflexivity.
Qed.

Let run_tier (pdf : Doc) (repo_url suggestions full_output : value) (unicode_mode : bool)
  : result unit :=
  do drawn <- render perform clock pdf repo_url suggestions
                     (normalize_output full_output) unicode_mode;
  output drawn (out_path now).

Lemma tier_unique (repo_url suggestions full_output : value) (pdf : Doc)
  (unicode_mode : bool) (outcome : result unit) :
  tier perform output clock now repo_url suggestions full_output pdf unicode_mode outcome ->
  outcome = run_tier pdf repo_url suggestions full_output unicode_mode.
Proof.
  intros [drawn [D ->]]. apply draws_unique in D. subst drawn.
  unfold run_tier, render.
  destruct (_render_pdf clock repo_url suggestions (VStr (normalize_output full_output))
                        unicode_mode) as [ops r].
  cbn [fst snd]. destruct (perform_all perform pdf ops); cbn [bind]; [|reflexivity].
  destruct r; reflexivity.
Qed.

Lemma tier_computed (repo_url suggestions full_output : value) (pdf : Doc)
  (unicode_mode : bool) :
  tier perform output clock now repo_url suggestions full_output pdf unicode_mode
       (run_tier pdf repo_url suggestions full_output unicode_mode).
Proof.
  unfold tier, run_tier, render.
  destruct (_render_pdf clock repo_url suggestions (VStr (normalize_output full_output))
                        unicode_mode) as [ops r].
  cbn [fst snd]. exists (perform_all perform pdf ops). split; [apply draws_perform_all|].
  destruct (perform_all perform pdf ops); cbn [bind]; [|reflexivity].
  destruct r; reflexivity.
Qed.

Lemma generate_after_unicode_failure (repo_url suggestions full_output : value) (e : exn)
  (fallback_outcome : result unit) :
  makedirs reports_dir = Ok tt ->
  unicode repo_url suggestions full_output = Raise e ->
  tier perform output clock now repo_url suggestions full_output FPDF false fallback_outcome ->
  generate repo_url suggestions full_output
  = match fallback_outcome with
    | Ok _ => Ok (relative_path now)
    | Raise fallback_error => Raise fallback_error
    end.
Proof.
  intros Hm Hu Ht. rewrite (generate_falls_back repo_url suggestions full_output e Hm Hu).
  apply tier_unique in Ht. subst fallback_outcome. reflexivity.
Qed.

Lemma unicode_registered (repo_url suggestions full_output : value)
  (font_path : text) (pdf1 pdf2 : Doc) :
  find_font path_exists = Some font_path ->
  add_font FPDF (u "Auto") [] font_path = Ok pdf1 ->
  add_font pdf1 (u "Auto") (u "B") font_path = Ok pdf2 ->
  unicode repo_url suggestions full_output
  = run_tier pdf2 repo_url suggestions full_output true.
Proof.
  intros Hf H1 H2. unfold unicode, unicode_attempt, run_tier.
  rewrite Hf. cbn [bind]. rewrite H1. cbn [bind]. rewrite H2. reflexivity.
Qed.

Lemma unicode_needs_bold (repo_url suggestions full_output : value)
  (font_path : text) (pdf1 : Doc) (e : exn) :
  find_font path_exists = Some font_path ->
  add_font FPDF (u "Auto") [] font_path = Ok pdf1 ->
  add_font pdf1 (u "Auto") (u "B") font_path = Raise e ->
  unicode repo_url suggestions full_output = Raise e.
Proof.
  intros Hf H1 H2. unfold unicode, unicode_attempt.
  rewrite Hf. cbn [bind]. rewrite H1. cbn [bind]. rewrite H2. reflexivity.
Qed.

End Generate.


(** *** The texts of a rendering pass *)

Lemma sanitize_single_byte (v : value) : single_byte (sanitize v).
Proof.
  unfold single_byte, sanitize. apply Forall_forall. intros c Hc.
  apply filter_In in Hc. destruct Hc as [_ Hc]. apply N.leb_le. exact Hc.
Qed.

Lemma sanitize_keeps_single_byte (s : text) :
  single_byte s -> sanitize (VStr s) = s.
Proof.
  unfold single_byte, sanitize. induction 1 as [|c s Hc _ IH]; simpl; [reflexivity|].
  apply N.leb_le in Hc. rewrite Hc. f_equal. exact IH.
Qed.

Lemma drawn_texts_app (a b : list pdf_op) :
  drawn_texts (a ++ b) = drawn_texts a ++ drawn_texts b.
Proof. unfold drawn_texts. apply flat_map_app. Qed.

Lemma sanitized (v : value) : label_or_sanitized (sanitize v).
Proof. right. exists v. reflexivity. Qed.

Lemma code_texts (unicode_mode : bool) (codes : list text) :
  forall start,
    drawn_texts (flat_map (fun ic => code_ops unicode_mode (fst ic) (snd ic))
                          (enumerate_from start codes))
    = flat_map (fun ic => [code_label (fst ic); sanitize (VStr (snd ic))])
               (enumerate_from start codes).
Proof.
  induction codes as [|c codes IH]; intros start; [reflexivity|].
  cbn [enumerate_from flat_map]. rewrite drawn_texts_app, IH. reflexivity.
Qed.

Lemma code_texts_checked (codes : list text) :
  forall start,
    Forall label_or_sanitized
      (flat_map (fun ic => [code_label (fst ic); sanitize (VStr (snd ic))])
                (enumerate_from start codes)).
Proof.
  induction codes as [|c codes IH]; intros start; cbn [enumerate_from flat_map].
  - constructor.
  - apply Forall_app. split; [|apply IH].
    constructor; [left; eexists; reflexivity|].
    constructor; [apply sanitized | constructor].
Qed.

Lemma section_texts_checked (header : value) (sub issue clean_body : text)
  (codes : list text) :
  Forall label_or_sanitized (section_texts header sub issue clean_body codes).
Proof.
  unfold section_texts. apply Forall_app. split.
  - constructor; [apply sanitized|]. constructor; [apply sanitized|].
    constructor; [apply sanitized | constructor].
  - apply Forall_app. split.
    + destruct (truthy (VStr clean_body)); constructor; [apply sanitized | constructor].
    + destruct codes; [constructor; [apply sanitized | constructor] | apply code_texts_checked].
Qed.

Lemma section_ops_cases (s : value) :
  (exists e, forall unicode_mode, section_ops unicode_mode s = Raise e)
  \/ (exists header sub issue clean_body codes,
        forall unicode_mode,
        exists ops,
          section_ops unicode_mode s = Ok ops
          /\ drawn_texts ops = section_texts header sub issue clean_body codes).
Proof.
  unfold section_ops.
  destruct s as [| | | |l|d]; try (left; eexists; intros; reflexivity).
  cbn [get bind].
  destruct (title_method _) as [fallback_header|e];
    [|left; eexists; intros; reflexivity].
  right. cbn [bind].
  set (header := match lookup _ section_titles with Some h => h | None => _ end).
  set (sub := u "File: " ++ _).
  set (issue := flatten_text _).
  set (body_text := flatten_text _).
  set (codes := extract_code_blocks body_text).
  set (clean_body := strip (sub_code body_text)).
  exists header, sub, issue, clean_body, codes.
  intros um. eexists. split; [reflexivity|].
  rewrite !drawn_texts_app. unfold section_texts.
  f_equal. f_equal.
  - destruct (truthy (VStr clean_body)); reflexivity.
  - destruct codes as [|c codes']; [reflexivity|].
    rewrite code_texts. rewrite app_nil_r. reflexivity.
Qed.

(** The sections of a list of suggestions: the same texts and the same
    ending in both modes, every text a label or sanitized. *)
Lemma sections_ops_texts (l : list value) :
  exists texts r,
    Forall label_or_sanitized texts
    /\ forall unicode_mode,
         drawn_texts (fst (sections_ops unicode_mode l)) = texts
         /\ snd (sections_ops unicode_mode l) = r.
Proof.
  induction l as [|s l IH].
  - exists [], (Ok tt). split; [constructor|]. intros um. split; reflexivity.
  - destruct IH as [texts [r [HF H]]].
    destruct (section_ops_cases s) as [[e He] | (header & sub & issue & body & codes & Hs)].
    + exists [], (Raise e). split; [constructor|]. intros um.
      cbn [sections_ops]. rewrite He. split; reflexivity.
    + exists (section_texts header sub issue body codes ++ texts), r.
      split; [apply Forall_app; split; [apply section_texts_checked | exact HF]|].
      intros um. cbn [sections_ops].
      destruct (Hs um) as [ops [E T]]. rewrite E.
      destruct (H um) as [H1 H2].
      destruct (sections_ops um l) as [more r']. cbn [fst snd] in *.
      rewrite drawn_texts_app, T, H1. split; [reflexivity | exact H2].
Qed.

Lemma render_texts (clock : text) (repo_url suggestions full_output : value) :
  exists texts r,
    Forall label_or_sanitized texts
    /\ forall unicode_mode,
         drawn_texts (fst (_render_pdf clock repo_url suggestions full_output unicode_mode))
         = texts
         /\ snd (_render_pdf clock repo_url suggestions full_output unicode_mode) = r.
Proof.
  unfold _render_pdf.
  set (meta := u "Repository: " ++ _).
  destruct (iterate (py_or suggestions (VList []))) as [each|e].
  - destruct (sections_ops_texts each) as [texts [r [HF H]]].
    destruct r as [[]|e].
    + exists ([sanitize (VStr report_title); sanitize (VStr meta)] ++ texts
              ++ drawn_texts (log_ops true full_output)), (Ok tt).
      split.
      { apply Forall_app. split; [constructor; [apply sanitized|];
                                  constructor; [apply sanitized | constructor]|].
        apply Forall_app. split; [exact HF|].
        unfold log_ops. destruct (truthy full_output); [|constructor].
        constructor; [apply sanitized|]. constructor; [apply sanitized | constructor]. }
      intros um. destruct (H um) as [H1 H2].
      destruct (sections_ops um each) as [sections r']. cbn [fst snd] in *. subst r'.
      cbn [fst snd]. rewrite !drawn_texts_app, H1. split; [|reflexivity].
      f_equal. f_equal. unfold log_ops. destruct (truthy full_output); reflexivity.
    + exists ([sanitize (VStr report_title); sanitize (VStr meta)] ++ texts), (Raise e).
      split.
      { apply Forall_app. split; [constructor; [apply sanitized|];
                                  constructor; [apply sanitized | constructor]|].
        exact HF. }
      intros um. destruct (H um) as [H1 H2].
      destruct (sections_ops um each) as [sections r']. cbn [fst snd] in *. subst r'.
      cbn [fst snd]. rewrite !drawn_texts_app, H1. split; reflexivity.
  - exists [sanitize (VStr report_title); sanitize (VStr meta)], (Raise e).
    split; [constructor; [apply sanitized|]; constructor; [apply sanitized | constructor]|].
    intros um. split; reflexivity.
Qed.


(** C7.  Once the reports directory exists, the Unicode tier comes first:
    the font found is registered in the regular and in the bold style on
    the document, the pass is drawn on it in Unicode mode and the document
    is written to [out_path].  When this succeeds the relative path is
    returned.  When it raises, wherever it does (no font found, one of
    the two registrations, a drawing call, the pass itself, the write),
    the fallback tier decides: the whole pass is drawn in the other mode
    on a new document, which is written to [out_path]; its success gives
    the same relative path, its exception is the exception of the call.
    A tier always has one outcome.  For a clock reading that is not
    negative the relative path has the shape
    [reports/devmate_report_<digits>.pdf]. *)
Theorem two_tier_generation :
  forall (Doc : Type) (FPDF : Doc)
         (add_font : Doc -> text -> text -> text -> result Doc)
         (perform : Doc -> pdf_op -> result Doc)
         (output : Doc -> text -> result unit)
         (path_exists : text -> bool) (makedirs : text -> result unit)
         (clock : text) (now : Z) (repo_url suggestions full_output : value),
    let generate :=
      generate_pdf_report FPDF add_font perform output path_exists makedirs clock now
                          repo_url suggestions full_output in
    let tier := tier perform output clock now repo_url suggestions full_output in
    let decided_by (fallback_outcome : result unit) :=
      match fallback_outcome with
      | Ok _ => Ok (relative_path now)
      | Raise fallback_error => Raise fallback_error
      end in
    makedirs reports_dir = Ok tt ->
    (forall font_path pdf1 pdf2 unicode_outcome,
        find_font path_exists = Some font_path ->
        add_font FPDF (u "Auto") [] font_path = Ok pdf1 ->
        add_font pdf1 (u "Auto") (u "B") font_path = Ok pdf2 ->
        tier pdf2 true unicode_outcome ->
        (unicode_outcome = Ok tt -> generate = Ok (relative_path now))
        /\ (forall e fallback_outcome,
              unicode_outcome = Raise e ->
              tier FPDF false fallback_outcome ->
              generate = decided_by fallback_outcome))
    /\ (forall fallback_outcome,
          find_font path_exists = None ->
          tier FPDF false fallback_outcome ->
          generate = decided_by fallback_outcome)
    /\ (forall font_path e fallback_outcome,
          find_font path_exists = Some font_path ->
          add_font FPDF (u "Auto") [] font_path = Raise e ->
          tier FPDF false fallback_outcome ->
          generate = decided_by fallback_outcome)
    /\ (forall font_path pdf1 e fallback_outcome,
          find_font path_exists = Some font_path ->
          add_font FPDF (u "Auto") [] font_path = Ok pdf1 ->
          add_font pdf1 (u "Auto") (u "B") font_path = Raise e ->
          tier FPDF false fallback_outcome ->
          generate = decided_by fallback_outcome)
    /\ (forall pdf unicode_mode, exists outcome, tier pdf unicode_mode outcome)
    /\ (forall pdf unicode_mode outcome outcome',
          tier pdf unicode_mode outcome -> tier pdf unicode_mode outcome' ->
          outcome = outcome')
    /\ (0 <= now -> report_path_shape (relative_path now)).
Proof.
  intros Doc FPDF add_font perform output path_exists makedirs clock now
         repo_url suggestions full_output generate tier decided_by Hm.
  split; [|split; [|split; [|split; [|split; [|split]]]]].
  - intros font_path pdf1 pdf2 unicode_outcome Hf H1 H2 Ht.
    apply tier_unique in Ht.
    rewrite <- (unicode_registered Doc FPDF add_font perform output path_exists clock now
                  repo_url suggestions full_output font_path pdf1 pdf2 Hf H1 H2) in Ht.
    subst unicode_outcome. split.
    + intros Hu. apply generate_unicode_success; assumption.
    + intros e fallback_outcome Hu Hfb.
      exact (generate_after_unicode_failure Doc FPDF add_font perform output path_exists
               makedirs clock now repo_url suggestions full_output e fallback_outcome
               Hm Hu Hfb).
  - intros fallback_outcome Hf Hfb.
    exact (generate_after_unicode_failure Doc FPDF add_font perform output path_exists
             makedirs clock now repo_url suggestions full_output _ fallback_outcome Hm
             (unicode_needs_font Doc FPDF add_font perform output path_exists clock now
                repo_url suggestions full_output Hf)
             Hfb).
  - intros font_path e fallback_outcome Hf Ha Hfb.
    exact (generate_after_unicode_failure Doc FPDF add_font perform output path_exists
             makedirs clock now repo_url suggestions full_output e fallback_outcome Hm
             (unicode_needs_registration Doc FPDF add_font perform output path_exists
                clock now repo_url suggestions full_output font_path e Hf Ha)
             Hfb).
  - intros font_path pdf1 e fallback_outcome Hf H1 H2 Hfb.
    exact (generate_after_unicode_failure Doc FPDF add_font perform output path_exists
             makedirs clock now repo_url suggestions full_output e fallback_outcome Hm
             (unicode_needs_bold Doc FPDF add_font perform output path_exists
                clock now repo_url suggestions full_output font_path pdf1 e Hf H1 H2)
             Hfb).
  - intros pdf unicode_mode. eexists. apply tier_computed.
  - intros pdf unicode_mode outcome outcome' H H'.
    apply tier_unique in H. apply tier_unique in H'. congruence.
  - apply relative_path_shape.
Qed.

(** Three libraries.  A font is found but its registration fails: the
    fallback pass writes the report.  The registration succeeds but the
    italic style of the font is undefined: the Unicode pass raises on the
    drawing call that selects it, and the fallback pass writes the report.
    The write is refused: the exception of the fallback tier is the
    exception of the call. *)
Lemma two_tier_generation_witness :
  generate_pdf_report [] recorded_add_font recorded_perform recorded_output
    arial_installed makedirs_ok (u "2023-11-14 22:13:20") 1700000000
    (VStr (u "https://github.com/psf/requests")) sample_suggestions VNone
  = Ok (u "reports/devmate_report_1700000000.pdf")
  /\ tier strict_perform recorded_output (u "2023-11-14 22:13:20") 1700000000
          (VStr (u "https://github.com/psf/requests")) plain_suggestions VNone
          [] true (Raise (Exn "FPDFException" (u "Undefined font: autoI")))
  /\ generate_pdf_report [] registering_add_font strict_perform recorded_output
       arial_installed makedirs_ok (u "2023-11-14 22:13:20") 1700000000
       (VStr (u "https://github.com/psf/requests")) plain_suggestions VNone
     = Ok (u "reports/devmate_report_1700000000.pdf")
  /\ generate_pdf_report [] recorded_add_font recorded_perform refused_output
       arial_installed makedirs_ok (u "2023-11-14 22:13:20") 1700000000
       (VStr (u "https://github.com/psf/requests")) sample_suggestions VNone
     = Raise (Exn "PermissionError" (u "[Errno 13] Permission denied"))
  /\ report_path_shape (u "reports/devmate_report_1700000000.pdf").
Proof.
  pose (url := VStr (u "https://github.com/psf/requests")).
  pose (clk := u "2023-11-14 22:13:20").
  assert (Computed : forall perform output suggestions mode outcome,
             (do drawn <- render perform clk ([] : list pdf_op) url suggestions
                                 (normalize_output VNone) mode;
              output drawn (out_path 1700000000)) = outcome ->
             tier perform output clk 1700000000 url suggestions VNone [] mode outcome).
  { intros perform output suggestions mode outcome <-.
    apply (tier_computed (list pdf_op) perform output clk 1700000000 url suggestions
             VNone [] mode). }
  assert (Strict : tier strict_perform recorded_output clk 1700000000 url
                        plain_suggestions VNone [] true
                        (Raise (Exn "FPDFException" (u "Undefined font: autoI")))).
  { apply Computed. vm_compute. reflexivity. }
  split; [|split; [exact Strict|split; [|split]]].
  - destruct (two_tier_generation (list pdf_op) [] recorded_add_font recorded_perform
                recorded_output arial_installed makedirs_ok clk 1700000000 url
                sample_suggestions VNone eq_refl)
      as (_ & _ & Hreg & _).
    apply (Hreg (u "C:\Windows\Fonts/arial.ttf") (RuntimeError "TTF Font file not found")
                (Ok tt)).
    + vm_compute. reflexivity.
    + reflexivity.
    + apply Computed. vm_compute. reflexivity.
  - destruct (two_tier_generation (list pdf_op) [] registering_add_font strict_perform
                recorded_output arial_installed makedirs_ok clk 1700000000 url
                plain_suggestions VNone eq_refl)
      as (Huni & _).
    destruct (Huni (u "C:\Windows\Fonts/arial.ttf") [] []
                   (Raise (Exn "FPDFException" (u "Undefined font: autoI"))))
      as [_ Hfall]; [vm_compute; reflexivity | reflexivity | reflexivity | exact Strict |].
    apply (Hfall (Exn "FPDFException" (u "Undefined font: autoI")) (Ok tt)).
    + reflexivity.
    + apply Computed. vm_compute. reflexivity.
  - destruct (two_tier_generation (list pdf_op) [] recorded_add_font recorded_perform
                refused_output arial_installed makedirs_ok clk 1700000000 url
                sample_suggestions VNone eq_refl)
      as (_ & _ & Hreg & _).
    apply (Hreg (u "C:\Windows\Fonts/arial.ttf") (RuntimeError "TTF Font file not found")
                (Raise (Exn "PermissionError" (u "[Errno 13] Permission denied")))).
    + vm_compute. reflexivity.
    + reflexivity.
    + apply Computed. vm_compute. reflexivity.
  - destruct (two_tier_generation (list pdf_op) [] recorded_add_font recorded_perform
                recorded_output arial_installed makedirs_ok clk 1700000000 url
                sample_suggestions VNone eq_refl)
      as (_ & _ & _ & _ & _ & _ & Hshape).
    apply Hshape. discriminate.
Defined.

Lemma Forall_forallb {A} (P : A -> Prop) (f : A -> bool) (l : list A) :
  (forall x, P x -> f x = true) -> Forall P l -> forallb f l = true.
Proof.
  intros H. induction 1 as [|x l Hx _ IH]; simpl; [reflexivity|].
  rewrite (H x Hx), IH. reflexivity.
Qed.

(** C8, as stated, fails: in the fallback mode the line of the repository
    keeps the character U+00E9, which is not ASCII. *)
Lemma fallback_mode_keeps_latin1 :
  ~ Forall (Forall (fun c => (c <= 127)%N))
      (drawn_texts
         (fst (_render_pdf (u "2023-11-14 22:13:20") (VStr (u "caf" ++ [233%N]))
                           (VList []) VNone false))).
Proof.
  intros H.
  apply (Forall_forallb _ (forallb (fun c => (c <=? 127)%N))) in H.
  - vm_compute in H. discriminate H.
  - intros t Ht. apply (Forall_forallb _ _ _ (fun c Hc => proj2 (N.leb_le c 127) Hc) Ht).
Qed.

(** C8, amended.  In both modes every text drawn is an output of
    [sanitize], the numbered labels of the code excerpts apart; the two
    modes draw the same texts; [sanitize] keeps, in order, exactly the
    characters whose code point is at most 255, whatever the mode, so a
    text of such characters is unchanged and an emoji is dropped. *)
Theorem drawn_texts_are_sanitized :
  forall (clock : text) (repo_url suggestions full_output : value),
    (forall unicode_mode,
        Forall label_or_sanitized
          (drawn_texts
             (fst (_render_pdf clock repo_url suggestions full_output unicode_mode))))
    /\ drawn_texts (fst (_render_pdf clock repo_url suggestions full_output true))
       = drawn_texts (fst (_render_pdf clock repo_url suggestions full_output false))
    /\ (forall v, single_byte (sanitize v))
    /\ (forall s, sanitize (VStr s) = filter (fun c => (c <=? 255)%N) s)
    /\ (forall s, single_byte s -> sanitize (VStr s) = s)
    /\ sanitize (VStr ([128512%N] ++ u " ok")) = u " ok".
Proof.
  intros clock repo_url suggestions full_output.
  destruct (render_texts clock repo_url suggestions full_output) as [texts [r [HF H]]].
  split; [intros um; rewrite (proj1 (H um)); exact HF|].
  split; [rewrite (proj1 (H true)), (proj1 (H false)); reflexivity|].
  split; [apply sanitize_single_byte|].
  split; [reflexivity|].
  split; [apply sanitize_keeps_single_byte|].
  reflexivity.
Qed.

(** A text of single-byte characters goes through unchanged. *)
Lemma drawn_texts_are_sanitized_witness :
  sanitize (VStr (u "caf" ++ [233%N])) = u "caf" ++ [233%N].
Proof.
  destruct (drawn_texts_are_sanitized [] VNone VNone VNone) as (_ & _ & _ & _ & H & _).
  apply H. unfold single_byte.
  repeat (constructor; [intro C; discriminate C|]). constructor.
Defined.


(** The label of a code excerpt is drawn as it is, emoji included. *)
Example code_label_is_drawn_unsanitized :
  In (code_label 1)
     (drawn_texts
        (fst (_render_pdf (u "2023-11-14 22:13:20") (VStr (u "https://github.com/psf/requests"))
                          sample_suggestions VNone false)))
  /\ sanitize (VStr (code_label 1)) <> code_label 1.
Proof.
  split.
  - vm_compute. do 6 right. left. reflexivity.
  - vm_compute. discriminate.
Qed.

End ReporterFacts.

(** ** The analysis route *)

Module AppFacts.
Import Py App Views Samples.

Lemma ids_below_next (rows : list Analysis) :
  forall r, In r rows -> id r < next_id rows.
Proof.
  unfold next_id. induction rows as [|x rows IH]; intros r Hr; cbn [fold_right In] in *.
  - contradiction.
  - destruct Hr as [E|H]; [subst; lia | specialize (IH r H); lia].
Qed.

Lemma set_pdf_path_new (rows : list Analysis) (repo : text) (sc : float)
  (p0 p : text) (t : Z) :
  set_pdf_path (next_id rows) p (rows ++ [mkAnalysis (next_id rows) repo sc p0 t])
  = rows ++ [mkAnalysis (next_id rows) repo sc p t].
Proof.
  unfold set_pdf_path. rewrite map_app. f_equal.
  - rewrite <- (map_id rows) at 2. apply map_ext_in. intros r Hr.
    pose proof (ids_below_next rows r Hr) as Hlt.
    assert (E : (id r =? next_id rows) = false) by (apply Z.eqb_neq; lia).
    rewrite E. reflexivity.
  - simpl. rewrite Z.eqb_refl. reflexivity.
Qed.

(** C9.  A POST with a repository URL, once the analysis and the score
    extraction have succeeded: the row with the path ["Generating..."] is
    committed before the report generator is called; after the call the
    same row is committed again, with the relative path on success and
    with ["Error generating PDF"] on failure; the table has one more row
    in both cases. *)
Theorem two_phase_record_write :
  forall (analyze_repo_with_agents : text -> result value)
         (generate_pdf_report : value -> value -> value -> result text)
         (utcnow : Z) (rows : list Analysis) (form_field : option text)
         (result_text : value) (score_ : float),
    let repo_url := strip (match form_field with Some s => s | None => [] end) in
    let record := fun path => mkAnalysis (next_id rows) repo_url score_ path utcnow in
    let outcome :=
      generate_pdf_report (VStr repo_url) (summary_suggestions result_text) result_text in
    repo_url <> [] ->
    analyze_repo_with_agents repo_url = Ok result_text ->
    Score.extract_score result_text = Ok score_ ->
    exists notice,
      index analyze_repo_with_agents generate_pdf_report utcnow (POST form_field) rows
      = (redirect "dashboard",
         rows ++ [record (stored_path outcome)],
         [commit (rows ++ [record (u "Generating...")]);
          pdf_generation;
          commit (rows ++ [record (stored_path outcome)]);
          notice]).
Proof.
  intros analyze generate utcnow rows form_field result_text score_
         repo_url record outcome Hurl Ha Hs.
  unfold index. fold repo_url.
  assert (T : truthy (VStr repo_url) = true) by (destruct repo_url; [congruence | reflexivity]).
  rewrite T. cbn [negb]. rewrite Ha, Hs.
  fold (summary_suggestions result_text). fold outcome.
  cbn [id].
  assert (E : match outcome with
              | Ok path =>
                set_pdf_path (next_id rows)
                  (if startswith (u "static/") path
                   then replace (u "static/") [] path else path)
                  (rows ++ [mkAnalysis (next_id rows) repo_url score_ (u "Generating...") utcnow])
              | Raise _ =>
                set_pdf_path (next_id rows) (u "Error generating PDF")
                  (rows ++ [mkAnalysis (next_id rows) repo_url score_ (u "Generating...") utcnow])
              end = rows ++ [record (stored_path outcome)]).
  { unfold record, stored_path. destruct outcome; apply set_pdf_path_new. }
  rewrite E. eexists. reflexivity.
Qed.

(** A run whose report generation fails and a run whose report generation
    succeeds, on an empty table. *)
Lemma two_phase_record_write_witness :
  (exists notice,
      index sample_agents generator_fails 1700000000
            (POST (Some (u " https://github.com/psf/requests "))) []
      = (redirect "dashboard",
         [mkAnalysis 1 (u "https://github.com/psf/requests")
                     (float_of_decimal false 85 (-1)) (u "Error generating PDF") 1700000000],
         [commit [mkAnalysis 1 (u "https://github.com/psf/requests")
                             (float_of_decimal false 85 (-1)) (u "Generating...") 1700000000];
          pdf_generation;
          commit [mkAnalysis 1 (u "https://github.com/psf/requests")
                             (float_of_decimal false 85 (-1)) (u "Error generating PDF")
                             1700000000];
          notice]))
  /\ (exists notice,
      index sample_agents generator_succeeds 1700000000
            (POST (Some (u " https://github.com/psf/requests "))) []
      = (redirect "dashboard",
         [mkAnalysis 1 (u "https://github.com/psf/requests")
                     (float_of_decimal false 85 (-1))
                     (u "reports/devmate_report_1700000000.pdf") 1700000000],
         [commit [mkAnalysis 1 (u "https://github.com/psf/requests")
                             (float_of_decimal false 85 (-1)) (u "Generating...") 1700000000];
          pdf_generation;
          commit [mkAnalysis 1 (u "https://github.com/psf/requests")
                             (float_of_decimal false 85 (-1))
                             (u "reports/devmate_report_1700000000.pdf") 1700000000];
          notice])).
Proof.
  split.
  - destruct (two_phase_record_write sample_agents generator_fails 1700000000 []
                (Some (u " https://github.com/psf/requests "))
                (VList [VDict [(u "type", VStr (u "summary"));
                               (u "suggestion", VStr (u "Overall score: 8.5/10 done"))]])
                (float_of_decimal false 85 (-1)))
      as [notice E].
    + vm_compute. discriminate.
    + reflexivity.
    + vm_compute. reflexivity.
    + exists notice. exact E.
  - destruct (two_phase_record_write sample_agents generator_succeeds 1700000000 []
                (Some (u " https://github.com/psf/requests "))
                (VList [VDict [(u "type", VStr (u "summary"));
                               (u "suggestion", VStr (u "Overall score: 8.5/10 done"))]])
                (float_of_decimal false 85 (-1)))
      as [notice E].
    + vm_compute. discriminate.
    + reflexivity.
    + vm_compute. reflexivity.
    + exists notice. exact E.
Defined.

End AppFacts.

(** ** Texts *)

Module TextFacts.
Import Py.

Lemma text_eqb_refl (a : text) : text_eqb a a = true.
Proof. induction a as [|x a IH]; [reflexivity|]. cbn [text_eqb]. rewrite N.eqb_refl. exact IH. Qed.

Lemma text_eqb_eq (a b : text) : text_eqb a b = true -> a = b.
Proof.
  revert b. induction a as [|x a IH]; intros [|y b] H; try discriminate; [reflexivity|].
  cbn [text_eqb] in H. apply andb_true_iff in H. destruct H as [Hx Ha].
  apply N.eqb_eq in Hx. subst y. f_equal. exact (IH b Ha).
Qed.

Lemma startswith_incl (p s : text) :
  startswith p s = true -> forall c, In c p -> In c s.
Proof.
  revert s. induction p as [|x p IH]; intros s H c Hc; [contradiction|].
  destruct s as [|y s]; [discriminate|].
  cbn [startswith] in H. apply andb_true_iff in H. destruct H as [Hxy Hp].
  apply N.eqb_eq in Hxy. subst y.
  destruct Hc as [<-|Hc]; [left; reflexivity | right; exact (IH s Hp c Hc)].
Qed.

Lemma contains_incl (p s : text) :
  contains p s = true -> forall c, In c p -> In c s.
Proof.
  induction s as [|y s IH]; intros H c Hc.
  - cbn [contains] in H. rewrite orb_false_r in H. exact (startswith_incl p [] H c Hc).
  - cbn [contains] in H. apply orb_true_iff in H. destruct H as [H|H].
    + exact (startswith_incl p (y :: s) H c Hc).
    + right. exact (IH H c Hc).
Qed.

Lemma replace_scan_delete_incl (old : text) (s : text) :
  forall skip count c, In c (replace_scan old [] skip count s) -> In c s.
Proof.
  induction s as [|y s IH]; intros skip count c H; [exact H|].
  cbn [replace_scan] in H. destruct skip as [|k].
  - destruct (match count with Some O => false | _ => true end && startswith old (y :: s)).
    + right. exact (IH _ _ c H).
    + destruct H as [<-|H]; [left; reflexivity | right; exact (IH _ _ c H)].
  - right. exact (IH _ _ c H).
Qed.

Lemma split_scan_chars (P : char -> Prop) (s : text) :
  forall cur, Forall P cur -> Forall P s -> Forall (Forall P) (split_scan cur s).
Proof.
  induction s as [|c s IH]; intros cur Hcur Hs; cbn [split_scan].
  - destruct cur; [constructor|]. constructor; [|constructor].
    apply Forall_rev. exact Hcur.
  - inversion Hs as [|c' s' Hc Hs']; subst.
    destruct (isspace c).
    + destruct cur as [|x cur].
      * apply IH; [constructor | exact Hs'].
      * constructor; [apply Forall_rev; exact Hcur | apply IH; [constructor | exact Hs']].
    + apply IH; [constructor; assumption | exact Hs'].
Qed.

Lemma split_chars (P : char -> Prop) (s : text) :
  Forall P s -> Forall (Forall P) (split s).
Proof. intros H. apply split_scan_chars; [constructor | exact H]. Qed.

(** *** [strip] *)

Lemma dropwhile_suffix (p : char -> bool) (s : text) :
  exists a, s = a ++ dropwhile p s.
Proof.
  induction s as [|c s [a IH]]; [exists []; reflexivity|].
  cbn [dropwhile]. destruct (p c); [exists (c :: a); cbn; f_equal; exact IH | exists []; reflexivity].
Qed.

Lemma dropwhile_head (p : char -> bool) (s : text) (c : char) (r : text) :
  dropwhile p s = c :: r -> p c = false.
Proof.
  induction s as [|y s IH]; [discriminate|].
  cbn [dropwhile]. destruct (p y) eqn:E; [exact IH|].
  intros [= -> _]. exact E.
Qed.

Lemma dropwhile_fixed (p : char -> bool) (c : char) (r : text) :
  p c = false -> dropwhile p (c :: r) = c :: r.
Proof. intros H. cbn [dropwhile]. rewrite H. reflexivity. Qed.

Lemma dropwhile_incl (p : char -> bool) (P : char -> Prop) (s : text) :
  Forall P s -> Forall P (dropwhile p s).
Proof.
  induction 1 as [|c s Hc Hs IH]; [constructor|].
  cbn [dropwhile]. destruct (p c); [exact IH | constructor; assumption].
Qed.

Lemma strip_by_incl (p : char -> bool) (P : char -> Prop) (s : text) :
  Forall P s -> Forall P (strip_by p s).
Proof.
  intros H. unfold strip_by. apply Forall_rev. apply dropwhile_incl.
  apply Forall_rev. apply dropwhile_incl. exact H.
Qed.

(** The ends of a stripped text are not strippable. *)
Lemma strip_by_ends (p : char -> bool) (s : text) :
  dropwhile p (strip_by p s) = strip_by p s
  /\ dropwhile p (rev (strip_by p s)) = rev (strip_by p s).
Proof.
  unfold strip_by. rewrite rev_involutive.
  set (a := dropwhile p s).
  destruct (dropwhile p (rev a)) as [|c r] eqn:E; [split; reflexivity|].
  pose proof (dropwhile_head p (rev a) c r E) as Hc.
  split; [|apply dropwhile_fixed; exact Hc].
  (* the head of [rev (c :: r)] is the head of [a] *)
  destruct (dropwhile_suffix p (rev a)) as [pre Hpre]. rewrite E in Hpre.
  assert (Ha : a = rev (c :: r) ++ rev pre).
  { rewrite <- rev_app_distr, <- Hpre, rev_involutive. reflexivity. }
  destruct (rev (c :: r)) as [|x t] eqn:Er.
  - apply (f_equal (@List.length _)) in Er. rewrite length_rev in Er. discriminate.
  - assert (Hx : p x = false).
    { cbn [app] in Ha. unfold a in Ha. exact (dropwhile_head p s x _ Ha). }
    apply dropwhile_fixed. exact Hx.
Qed.

Lemma strip_by_idempotent (p : char -> bool) (s : text) :
  strip_by p (strip_by p s) = strip_by p s.
Proof.
  destruct (strip_by_ends p s) as [H1 H2].
  unfold strip_by at 1. rewrite H1, H2. apply rev_involutive.
Qed.

Lemma strip_idempotent (s : text) : strip (strip s) = strip s.
Proof. apply strip_by_idempotent. Qed.

Lemma lower_char_idempotent (c : char) : lower_char (lower_char c) = lower_char c.
Proof.
  unfold lower_char.
  destruct ((65 <=? c) && (c <=? 90))%N eqn:E1.
  - apply andb_true_iff in E1. destruct E1 as [A B].
    apply N.leb_le in A. apply N.leb_le in B.
    assert (F1 : ((65 <=? c + 32) && (c + 32 <=? 90))%N = false).
    { apply andb_false_iff. right. apply N.leb_gt. lia. }
    assert (F2 : ((192 <=? c + 32) && (c + 32 <=? 222) && negb (c + 32 =? 215))%N = false).
    { apply andb_false_iff. left. apply andb_false_iff. left. apply N.leb_gt. lia. }
    rewrite F1, F2. reflexivity.
  - destruct ((192 <=? c) && (c <=? 222) && negb (c =? 215))%N eqn:E2.
    + apply andb_true_iff in E2. destruct E2 as [E2 _].
      apply andb_true_iff in E2. destruct E2 as [A B].
      apply N.leb_le in A. apply N.leb_le in B.
      assert (F1 : ((65 <=? c + 32) && (c + 32 <=? 90))%N = false).
      { apply andb_false_iff. right. apply N.leb_gt. lia. }
      assert (F2 : ((192 <=? c + 32) && (c + 32 <=? 222) && negb (c + 32 =? 215))%N = false).
      { apply andb_false_iff. left. apply andb_false_iff. right. apply N.leb_gt. lia. }
      rewrite F1, F2. reflexivity.
    + rewrite E1, E2. reflexivity.
Qed.

Lemma lower_idempotent (s : text) : lower (lower s) = lower s.
Proof.
  unfold lower. rewrite map_map. apply map_ext. intros c. apply lower_char_idempotent.
Qed.

End TextFacts.

(** ** More on the score *)

Module ScoreProps.
Import Py Score Views Notions Samples ScoreFacts TextFacts.

Lemma join_values_scan_strings (l : list value) :
  forallb textual l = true ->
  forall i, exists ss, join_values_scan i l = Ok ss.
Proof.
  induction l as [|v l IH]; intros H i; [exists []; reflexivity|].
  cbn [forallb] in H. apply andb_true_iff in H. destruct H as [Hv Hl].
  destruct v; try discriminate.
  destruct (IH Hl (S i)) as [ss E]. exists (s :: ss).
  cbn [join_values_scan]. rewrite E. reflexivity.
Qed.

Lemma py_or_textual (a b : value) :
  textual_or_falsy a = true -> textual b = true -> textual (py_or a b) = true.
Proof.
  unfold textual_or_falsy, py_or. intros Ha Hb.
  destruct (truthy a); [|exact Hb].
  cbn [negb] in Ha. rewrite orb_false_r in Ha. exact Ha.
Qed.

Lemma extract_score_on_scorable (v : value) :
  scorable v = true -> exists f, extract_score v = Ok f.
Proof.
  intros H. unfold extract_score.
  assert (T : exists s, flatten_input v = Ok (VStr s)).
  { destruct v as [| b | z | s | l | d]; try (eexists; reflexivity).
    - cbn [scorable] in H. cbn [flatten_input].
      set (pieces := map _ l).
      assert (HP : forallb textual pieces = true).
      { unfold pieces. rewrite forallb_forall in H. apply forallb_forall.
        intros x Hx. apply in_map_iff in Hx. destruct Hx as [t [<- Ht]].
        specialize (H t Ht). destruct t; try reflexivity. exact H. }
      destruct (join_values_scan_strings pieces HP O) as [ss E].
      unfold join_values. rewrite E. eexists. reflexivity.
    - cbn [scorable] in H. apply andb_true_iff in H. destruct H as [Hs Hr].
      cbn [flatten_input].
      pose proof (py_or_textual _ (py_or (field d "result" (VStr [])) (VStr (str (VDict d))))
                    Hs (py_or_textual _ (VStr (str (VDict d))) Hr eq_refl)) as HT.
      unfold field in HT.
      destruct (py_or _ _); try discriminate. eexists. reflexivity. }
  destruct T as [s E]. rewrite E. cbn [bind split_method]. apply scan_tokens_total.
Qed.

(** X1.  [extract_score] returns a score, and raises nothing, on every
    input that gives it a string to split: any object that is neither a
    list nor a dict, a list whose dict elements hold a string under
    ["suggestion"] (or nothing), and a dict whose ["suggestion"] and
    ["result"] are strings or count as false.  A token that [float]
    rejects is skipped, never propagated. *)
Theorem extract_score_never_raises_on_text :
  forall v : value,
    scorable v = true -> exists f, extract_score v = Ok f.
Proof. exact extract_score_on_scorable. Qed.

(** The route's own input: the three entries of the agents' report. *)
Lemma extract_score_never_raises_on_text_witness :
  exists f,
    extract_score (VList [VDict [(u "type", VStr (u "summary"));
                                 (u "suggestion", VStr (u "Overall score: 8.5/10 done"))];
                          VStr (u "plain"); VInt 3; VDict []]) = Ok f.
Proof.
  apply extract_score_never_raises_on_text. reflexivity.
Defined.

Lemma candidate_needs_digit (token : text) :
  Forall no_digit token -> candidate token = false.
Proof.
  intros H. unfold candidate. apply orb_false_iff. split.
  - destruct (contains (u "/10") token) eqn:E; [|reflexivity].
    pose proof (contains_incl _ _ E 49%N) as Hin.
    rewrite Forall_forall in H. specialize (H 49%N (Hin (or_intror (or_introl eq_refl)))).
    destruct H as [_ H]. discriminate H.
  - set (r := replace_count (u ".") [] 1 token).
    assert (Hr : Forall no_digit r).
    { apply Forall_forall. intros c Hc. rewrite Forall_forall in H. apply H.
      exact (replace_scan_delete_incl _ _ _ _ c Hc). }
    destruct r as [|c r]; [reflexivity|].
    cbn [isdigit forallb]. inversion Hr as [|c' r' Hc Hr']; subst.
    destruct Hc as [_ Hc]. rewrite Hc. reflexivity.
Qed.

Lemma scan_tokens_no_candidate (tokens : list text) :
  Forall (fun t => candidate t = false) tokens -> scan_tokens tokens = Ok default_score.
Proof.
  induction 1 as [|t tokens Ht _ IH]; cbn [scan_tokens]; [reflexivity|].
  rewrite Ht. exact IH.
Qed.

(** X2.  On a string of characters of U+0000..U+00FF none of which is
    a digit, no token is tried and [extract_score] returns the default
    [7.5]. *)
Theorem extract_score_defaults_without_digits :
  forall s : text,
    Forall no_digit s -> extract_score (VStr s) = Ok default_score.
Proof.
  intros s H. unfold extract_score. cbn [flatten_input bind split_method str].
  apply scan_tokens_no_candidate.
  pose proof (split_chars no_digit s H) as HT.
  induction HT as [|t ts Ht _ IH]; constructor; [|exact IH].
  apply candidate_needs_digit. exact Ht.
Qed.

Lemma extract_score_defaults_without_digits_witness :
  extract_score (VStr (u "Great code, nothing to fix /ten")) = Ok default_score.
Proof.
  apply extract_score_defaults_without_digits.
  apply Forall_forall. intros c Hc. unfold no_digit.
  repeat (destruct Hc as [<-|Hc]; [split; [apply N.leb_le|]; reflexivity|]).
  contradiction.
Defined.

End ScoreProps.

(** ** More on the reasoning pass *)

Module AgentProps.
Import Py LlmAgent Views Notions Samples AgentFacts TextFacts ScoreProps.

(** *** The rule-based hint *)

Lemma offline_hint_of_message (d : list (text * value)) (m : text) :
  py_or (field d "message" VNone) (VStr []) = VStr m ->
  offline_hint (VDict d)
  = Ok (if contains (u "line too long") (lower m) then nth 0 hints []
        else if contains (u "missing module docstring") (lower m) then nth 1 hints []
        else if contains (u "missing class docstring") (lower m) then nth 2 hints []
        else if contains (u "wildcard import") (lower m) then nth 3 hints []
        else if contains (u "unable to import") (lower m) then nth 4 hints []
        else generic_hint).
Proof.
  intros H. unfold offline_hint. cbn [get bind]. fold (field d "message" VNone).
  rewrite H. reflexivity.
Qed.

(** X3.  For a dict whose ["message"] is missing, a string or an object
    that counts as false, [offline_hint] raises nothing and returns one of
    its six fixed hints; it is the generic one when the message is missing
    or counts as false. *)
Theorem offline_hint_is_one_of_six :
  forall d : list (text * value),
    textual_or_falsy (field d "message" VNone) = true ->
    exists h,
      offline_hint (VDict d) = Ok h
      /\ In h hints
      /\ (truthy (field d "message" VNone) = false -> h = generic_hint).
Proof.
  intros d H.
  pose proof (py_or_textual _ (VStr []) H eq_refl) as HT.
  destruct (py_or (field d "message" VNone) (VStr [])) as [| | |m| |] eqn:E;
    try discriminate.
  rewrite (offline_hint_of_message d m E).
  eexists. split; [reflexivity|]. split.
  - repeat match goal with |- context [if ?c then _ else _] => destruct c end;
      cbn; tauto.
  - intros F. unfold py_or in E. rewrite F in E. injection E as <-. reflexivity.
Qed.

Lemma offline_hint_is_one_of_six_witness :
  offline_hint (VDict [(u "filename", VStr (u "app.py"));
                       (u "issue_text", VStr (u "Possible hardcoded password"))])
  = Ok generic_hint.
Proof.
  destruct (offline_hint_is_one_of_six
              [(u "filename", VStr (u "app.py"));
               (u "issue_text", VStr (u "Possible hardcoded password"))] eq_refl)
    as [h [E [_ G]]].
  rewrite E. f_equal. apply G. reflexivity.
Defined.

(** X4.  The hint depends on the message only, and not on its case: an
    issue with the string message [m] gets the hint of the issue that has
    nothing but the lower-cased [m]. *)
Theorem offline_hint_ignores_case :
  forall (d : list (text * value)) (m : text),
    field d "message" VNone = VStr m ->
    offline_hint (VDict d) = offline_hint (VDict [(u "message", VStr (lower m))]).
Proof.
  intros d m H.
  assert (E1 : py_or (field d "message" VNone) (VStr []) = VStr m).
  { rewrite H. unfold py_or. destruct m; reflexivity. }
  assert (E2 : py_or (field [(u "message", VStr (lower m))] "message" VNone) (VStr [])
               = VStr (lower m)).
  { change (field [(u "message", VStr (lower m))] "message" VNone) with (VStr (lower m)).
    unfold py_or. destruct m; reflexivity. }
  rewrite (offline_hint_of_message d m E1).
  rewrite (offline_hint_of_message _ (lower m) E2).
  rewrite lower_idempotent. reflexivity.
Qed.

Lemma offline_hint_ignores_case_witness :
  offline_hint (VDict [(u "symbol", VStr (u "C0301"));
                       (u "message", VStr (u "LINE TOO LONG (120/100)"))])
  = offline_hint (VDict [(u "message", VStr (u "line too long (120/100)"))]).
Proof.
  apply (offline_hint_ignores_case
           [(u "symbol", VStr (u "C0301"));
            (u "message", VStr (u "LINE TOO LONG (120/100)"))]
           (u "LINE TOO LONG (120/100)")).
  reflexivity.
Defined.

(** *** The cost of one call *)

Lemma backoff_range (j : nat) :
  forall d, 2 <= d <= 16 -> Forall (fun x => 2 <= x <= 16) (backoff j d).
Proof.
  induction j as [|j IH]; intros d Hd; cbn [backoff]; constructor; [exact Hd|].
  apply IH. lia.
Qed.

Lemma total_app (a b : list Z) : total (a ++ b) = total a + total b.
Proof. unfold total. induction a as [|x a IH]; cbn [app fold_right]; lia. Qed.

Lemma backoff_total_3 (j : nat) : (j <= 3)%nat -> total (backoff j 2) <= 14.
Proof.
  intros H. destruct j as [|[|[|[|j]]]]; try lia; vm_compute; discriminate.
Qed.

Section Cost.
Variable USE_LLM : bool.
Variable endpoint : nat -> text -> result text.

Lemma chat_loop_cost (prompt : text) :
  forall (k : nat) (d : Z) (w : world),
  exists j n,
    (j <= n <= k)%nat
    /\ chats (snd (chat_loop endpoint k d prompt w)) = chats w
    /\ requests (snd (chat_loop endpoint k d prompt w)) = requests w ++ repeat prompt n
    /\ sleeps (snd (chat_loop endpoint k d prompt w)) = sleeps w ++ backoff j d.
Proof.
  induction k as [|k IH]; intros d w; cbn [chat_loop].
  - exists O, O. cbn. rewrite !app_nil_r. repeat split; lia.
  - destruct (endpoint (List.length (requests w)) prompt) as [content|e].
    + exists O, 1%nat. cbn. rewrite app_nil_r. repeat split; lia.
    + destruct (rate_limited e).
      * destruct (IH (Z.min (d * 2) 16) (slept d (request_sent prompt w)))
          as [j [n [Hjn [Hc [Hq Hs]]]]].
        exists (S j), (S n). rewrite Hc, Hq, Hs. cbn.
        rewrite <- !app_assoc. cbn. repeat split; lia.
      * exists O, 1%nat. cbn. rewrite app_nil_r. repeat split; lia.
Qed.

Lemma chat_cost (prompt : text) (retries : Z) (w : world) :
  exists j n,
    (j <= n <= Z.to_nat retries)%nat
    /\ chats (snd (_chat USE_LLM endpoint prompt retries w)) = chats w ++ [prompt]
    /\ requests (snd (_chat USE_LLM endpoint prompt retries w))
       = requests w ++ repeat prompt n
    /\ sleeps (snd (_chat USE_LLM endpoint prompt retries w)) = sleeps w ++ backoff j 2.
Proof.
  unfold _chat. destruct USE_LLM; cbn [negb].
  - destruct (chat_loop_cost prompt (Z.to_nat retries) 2 (chat_entered prompt w))
      as [j [n [Hjn [Hc [Hq Hs]]]]].
    exists j, n. rewrite Hc, Hq, Hs. cbn. repeat split; lia.
  - exists O, O. cbn. rewrite !app_nil_r. repeat split; lia.
Qed.

(** X5.  What one call of [_chat] costs, for every endpoint: the call is
    logged once; it sends [n] requests with the same prompt, [n] at most
    the number of retries; it sleeps [j <= n] times, the delays being
    2, 4, 8, 16, 16, ... seconds, each between 2 and 16; with the default
    of 3 retries the delays add up to at most 14 seconds. *)
Theorem chat_cost_is_bounded :
  forall (prompt : text) (w : world),
    (forall retries,
      exists j n,
        (j <= n <= Z.to_nat retries)%nat
        /\ chats (snd (_chat USE_LLM endpoint prompt retries w)) = chats w ++ [prompt]
        /\ requests (snd (_chat USE_LLM endpoint prompt retries w))
           = requests w ++ repeat prompt n
        /\ sleeps (snd (_chat USE_LLM endpoint prompt retries w)) = sleeps w ++ backoff j 2
        /\ Forall (fun x => 2 <= x <= 16) (backoff j 2))
    /\ total (sleeps (snd (_chat USE_LLM endpoint prompt 3 w))) <= total (sleeps w) + 14.
Proof.
  intros prompt w. split.
  - intros retries.
    destruct (chat_cost prompt retries w) as [j [n [Hjn [Hc [Hq Hs]]]]].
    exists j, n. split; [exact Hjn|]. split; [exact Hc|]. split; [exact Hq|].
    split; [exact Hs|]. apply backoff_range. lia.
  - destruct (chat_cost prompt 3 w) as [j [n [Hjn [_ [_ Hs]]]]].
    rewrite Hs, total_app.
    assert (J : (j <= 3)%nat) by (change (Z.to_nat 3) with 3%nat in Hjn; lia).
    pose proof (backoff_total_3 j J). lia.
Qed.

End Cost.

(** *** Relations kept along the pass *)

Section Keeps.
Variable I : Z -> world -> Z -> world -> Prop.
Hypothesis I_refl : forall b w, I b w b w.
Hypothesis I_trans :
  forall b1 w1 b2 w2 b3 w3, I b1 w1 b2 w2 -> I b2 w2 b3 w3 -> I b1 w1 b3 w3.

Lemma keeps_ret {A} (a : A) : keeps I (ret a).
Proof. intros b w. apply I_refl. Qed.

Lemma keeps_lift {A} (r : result A) : keeps I (lift r).
Proof. intros b w. apply I_refl. Qed.

Lemma keeps_bind {A B} (m : M A) (k : A -> M B) :
  keeps I m -> (forall a, keeps I (k a)) -> keeps I (bindM m k).
Proof.
  intros Hm Hk b w. unfold bindM. specialize (Hm b w).
  destruct (m b w) as [[r b1] w1]. cbn [fst snd] in Hm.
  destruct r as [a|e]; [|exact Hm].
  exact (I_trans _ _ _ _ _ _ Hm (Hk a b1 w1)).
Qed.

Lemma keeps_for_each {A B} (body : A -> M B) (l : list A) :
  (forall x, keeps I (body x)) -> keeps I (for_each body l).
Proof.
  intros H. induction l as [|x l IH]; cbn [for_each]; [apply keeps_ret|].
  apply keeps_bind; [apply H|]. intros y.
  apply keeps_bind; [exact IH|]. intros ys. apply keeps_ret.
Qed.

Variable USE_LLM : bool.
Variable endpoint : nat -> text -> result text.
Hypothesis explain_keeps : forall prompt iss, keeps I (explain USE_LLM endpoint prompt iss).

Lemma keeps_reason_run (analysis : value) (max_llm_calls : Z) :
  keeps I (reason_run USE_LLM endpoint analysis max_llm_calls).
Proof.
  unfold reason_run.
  repeat first
    [ apply keeps_lift | apply keeps_ret | apply explain_keeps
    | apply keeps_for_each; intros ?
    | apply keeps_bind; [|intros ?]
    | progress unfold pylint_entry, pylint_issue, bandit_issue, radon_item
    | match goal with |- keeps _ (radon_file _ _ ?x) => destruct x; cbn [radon_file] end ].
Qed.

End Keeps.

(** X6.  With [USE_LLM] false a reasoning pass sends no request and
    never sleeps, whatever the findings and the budget. *)
Theorem disabled_llm_sends_nothing :
  forall (endpoint : nat -> text -> result text) (analysis : value)
         (max_llm_calls : Z) (w : world),
    requests (snd (reason_over_findings_in false endpoint w analysis max_llm_calls))
    = requests w
    /\ sleeps (snd (reason_over_findings_in false endpoint w analysis max_llm_calls))
       = sleeps w.
Proof.
  intros endpoint analysis N w. unfold reason_over_findings_in.
  apply (keeps_reason_run offline).
  - intros b0 w0. split; reflexivity.
  - intros b1 w1 b2 w2 b3 w3 [A1 A2] [B1 B2]. split; congruence.
  - intros prompt iss b0 w0. unfold explain, _chat. cbn [negb].
    destruct (0 <? b0); cbn.
    + destruct (offline_hint iss); split; reflexivity.
    + destruct (offline_hint iss); split; reflexivity.
Qed.

Lemma explain_bounded_cost (USE_LLM : bool) (endpoint : nat -> text -> result text)
  (prompt : text) (iss : value) :
  keeps bounded_cost (explain USE_LLM endpoint prompt iss).
Proof.
  intros b w. unfold explain.
  destruct (0 <? b).
  - destruct (chat_cost USE_LLM endpoint prompt 3 w) as [j [n [Hjn [Hc [Hq Hs]]]]].
    change (Z.to_nat 3) with 3%nat in Hjn.
    destruct (_chat USE_LLM endpoint prompt 3 w) as [r w1]. cbn [snd] in Hc, Hq, Hs.
    assert (G : forall b', b' <= b -> bounded_cost b w b' w1).
    { intros b' Hb. unfold bounded_cost. rewrite Hc, Hq, Hs.
      rewrite !length_app, repeat_length. cbn [List.length].
      assert (List.length (backoff j 2) = j).
      { clear. generalize 2. induction j as [|j IH]; intros d; cbn; [|rewrite IH]; reflexivity. }
      repeat split; lia. }
    destruct r; cbn [fst snd]; apply G; lia.
  - destruct (offline_hint iss); cbn [fst snd]; unfold bounded_cost; repeat split; lia.
Qed.

Lemma pass_cost_is_bounded_aux :
  forall (USE_LLM : bool) (endpoint : nat -> text -> result text)
         (analysis : value) (max_llm_calls : Z) (w : world),
    bounded_cost max_llm_calls w
      (snd (fst (reason_over_findings_in USE_LLM endpoint w analysis max_llm_calls)))
      (snd (reason_over_findings_in USE_LLM endpoint w analysis max_llm_calls)).
Proof.
  intros USE_LLM endpoint analysis N w. unfold reason_over_findings_in.
  apply (keeps_reason_run bounded_cost).
  - intros b0 w0. unfold bounded_cost. repeat split; lia.
  - intros b1 w1 b2 w2 b3 w3 (A1 & A2 & A3 & A4 & A5) (B1 & B2 & B3 & B4 & B5).
    unfold bounded_cost. repeat split; lia.
  - apply explain_bounded_cost.
Qed.

(** X7.  Over a reasoning pass, whether it returns or raises: the
    budget never grows, a call of [_chat] sends at most three requests,
    and at most one delay is slept per request. *)
Theorem pass_cost_is_bounded :
  forall (USE_LLM : bool) (endpoint : nat -> text -> result text)
         (analysis : value) (max_llm_calls : Z) (w : world),
    bounded_cost max_llm_calls w
      (snd (fst (reason_over_findings_in USE_LLM endpoint w analysis max_llm_calls)))
      (snd (reason_over_findings_in USE_LLM endpoint w analysis max_llm_calls)).
Proof. exact pass_cost_is_bounded_aux. Qed.

(** *** Once the budget is used up *)

Lemma agree_ret {A} (a : A) : agree (ret a) (ret a).
Proof. intros b w Hb. cbn. repeat split; [exact Hb]. Qed.

Lemma agree_lift {A} (r : result A) : agree (lift r) (lift r).
Proof. intros b w Hb. cbn. repeat split; [exact Hb]. Qed.

Lemma agree_bind {A B} (m1 m2 : M A) (k1 k2 : A -> M B) :
  agree m1 m2 -> (forall a, agree (k1 a) (k2 a)) -> agree (bindM m1 k1) (bindM m2 k2).
Proof.
  intros Hm Hk b w Hb. unfold bindM.
  destruct (Hm b w Hb) as [E [Hb1 Hw1]]. rewrite <- E.
  destruct (m1 b w) as [[r b1] w1]. cbn [fst snd] in Hb1, Hw1. subst w1.
  destruct r as [a|e]; [exact (Hk a b1 w Hb1) | cbn; repeat split; exact Hb1].
Qed.

Lemma agree_for_each {A B} (body1 body2 : A -> M B) (l : list A) :
  (forall x, agree (body1 x) (body2 x)) -> agree (for_each body1 l) (for_each body2 l).
Proof.
  intros H. induction l as [|x l IH]; cbn [for_each]; [apply agree_ret|].
  apply agree_bind; [apply H|]. intros y.
  apply agree_bind; [exact IH|]. intros ys. apply agree_ret.
Qed.

Lemma explain_agree (f1 f2 : bool) (e1 e2 : nat -> text -> result text)
  (prompt : text) (iss : value) :
  agree (explain f1 e1 prompt iss) (explain f2 e2 prompt iss).
Proof.
  intros b w Hb. unfold explain.
  assert (E : (0 <? b) = false) by (apply Z.ltb_ge; exact Hb).
  rewrite E. destruct (offline_hint iss); cbn; repeat split; lia.
Qed.

Lemma reason_run_agree (f1 f2 : bool) (e1 e2 : nat -> text -> result text)
  (analysis : value) (max_llm_calls : Z) :
  agree (reason_run f1 e1 analysis max_llm_calls) (reason_run f2 e2 analysis max_llm_calls).
Proof.
  unfold reason_run.
  repeat first
    [ apply agree_lift | apply agree_ret | apply explain_agree
    | apply agree_for_each; intros ?
    | apply agree_bind; [|intros ?]
    | progress unfold pylint_entry, pylint_issue, bandit_issue, radon_item
    | match goal with |- agree (radon_file _ _ ?x) _ => destruct x; cbn [radon_file] end ].
Qed.

(** X8.  With a budget of 0 or less the pass does not depend on
    [USE_LLM] or on the endpoint, and leaves the world as it was. *)
Theorem exhausted_budget_means_offline :
  forall (f1 f2 : bool) (e1 e2 : nat -> text -> result text)
         (analysis : value) (max_llm_calls : Z) (w : world),
    max_llm_calls <= 0 ->
    reason_over_findings_in f1 e1 w analysis max_llm_calls
    = reason_over_findings_in f2 e2 w analysis max_llm_calls
    /\ snd (reason_over_findings_in f1 e1 w analysis max_llm_calls) = w.
Proof.
  intros f1 f2 e1 e2 analysis N w HN. unfold reason_over_findings_in.
  destruct (reason_run_agree f1 f2 e1 e2 analysis N N w HN) as [E [_ Hw]].
  split; [exact E | exact Hw].
Qed.

Lemma exhausted_budget_means_offline_witness :
  reason_over_findings_in true endpoint_up quiet mixed_findings 0
  = reason_over_findings_in false endpoint_down quiet mixed_findings 0
  /\ snd (reason_over_findings_in true endpoint_up quiet mixed_findings 0) = quiet.
Proof.
  apply exhausted_budget_means_offline. discriminate.
Defined.

(** *** Calls and budget against the suggestions returned *)

Lemma bindM_Ok {A B} (m : M A) (k : A -> M B) (b : Z) (w : world)
  (c : B) (b' : Z) (w' : world) :
  bindM m k b w = (Ok c, b', w') ->
  exists a b1 w1, m b w = (Ok a, b1, w1) /\ k a b1 w1 = (Ok c, b', w').
Proof.
  unfold bindM. destruct (m b w) as [[r b1] w1]. destruct r as [a|e]; [|discriminate].
  intros H. exists a, b1, w1. split; [reflexivity | exact H].
Qed.

Lemma lift_Ok {A} (r : result A) (b : Z) (w : world) (a : A) (b' : Z) (w' : world) :
  lift r b w = (Ok a, b', w') -> r = Ok a /\ b' = b /\ w' = w.
Proof. unfold lift. intros [= -> -> ->]. repeat split. Qed.

Lemma ret_Ok {A} (x : A) (b : Z) (w : world) (a : A) (b' : Z) (w' : world) :
  ret x b w = (Ok a, b', w') -> a = x /\ b' = b /\ w' = w.
Proof. unfold ret. intros [= -> -> ->]. repeat split. Qed.

Ltac invert_run :=
  repeat match goal with
         | H : bindM _ _ _ _ = (Ok _, _, _) |- _ =>
           apply bindM_Ok in H; destruct H as (? & ? & ? & ? & H)
         | H : lift _ _ _ = (Ok _, _, _) |- _ =>
           apply lift_Ok in H; destruct H as (? & ? & ?); subst
         | H : ret _ _ _ = (Ok _, _, _) |- _ =>
           apply ret_Ok in H; destruct H as (? & ? & ?); subst
         end.

Lemma within_for_each {A B} (size : B -> nat) (body : A -> M B) (l : list A) :
  (forall x, within size (body x)) -> within (weight size) (for_each body l).
Proof.
  intros H. induction l as [|x l IH]; intros b w ys b' w' E; cbn [for_each] in E.
  - invert_run. cbn. split; lia.
  - invert_run.
    match goal with
    | H1 : body x _ _ = _, H2 : for_each body l _ _ = _ |- _ =>
      destruct (H x _ _ _ _ _ H1); destruct (IH _ _ _ _ _ H2)
    end.
    unfold weight in *. cbn [fold_right]. split; lia.
Qed.

Lemma weight_ones {A} (l : list A) : weight (fun _ => 1%nat) l = List.length l.
Proof. induction l as [|x l IH]; cbn; [|rewrite <- IH]; reflexivity. Qed.

Lemma weight_lengths {A} (l : list (list A)) :
  weight (@List.length A) l = List.length (List.concat l).
Proof.
  induction l as [|x l IH]; cbn; [reflexivity|]. rewrite length_app, <- IH. reflexivity.
Qed.

Section Within.
Variable USE_LLM : bool.
Variable endpoint : nat -> text -> result text.

Lemma explain_within (prompt : text) (iss : value) :
  within (fun _ => 1%nat) (explain USE_LLM endpoint prompt iss).
Proof.
  intros b w a b' w' E. unfold explain in E.
  destruct (0 <? b).
  - pose proof (chat_enters USE_LLM endpoint prompt 3 w) as Hc.
    destruct (_chat USE_LLM endpoint prompt 3 w) as [r w1]. cbn [snd] in Hc.
    destruct r.
    + injection E as <- <- <-. rewrite Hc, length_app. cbn. split; lia.
    + destruct (offline_hint iss); [|discriminate].
      injection E as <- <- <-. rewrite Hc, length_app. cbn. split; lia.
  - destruct (offline_hint iss); [|discriminate].
    injection E as <- <- <-. split; lia.
Qed.

Lemma pylint_issue_within (f iss : value) :
  within (fun _ => 1%nat) (pylint_issue USE_LLM endpoint f iss).
Proof.
  intros b w a b' w' E. unfold pylint_issue in E. invert_run.
  eapply explain_within; eassumption.
Qed.

Lemma bandit_issue_within (iss : value) :
  within (fun _ => 1%nat) (bandit_issue USE_LLM endpoint iss).
Proof.
  intros b w a b' w' E. unfold bandit_issue in E. invert_run.
  eapply explain_within; eassumption.
Qed.

Lemma radon_item_within (f : text) (it : value) :
  within (fun _ => 1%nat) (radon_item USE_LLM endpoint f it).
Proof.
  intros b w a b' w' E. unfold radon_item in E. invert_run.
  eapply explain_within; eassumption.
Qed.

Lemma pylint_entry_within (N : Z) (e : value) :
  within (@List.length value) (pylint_entry USE_LLM endpoint N e).
Proof.
  intros b w a b' w' E. unfold pylint_entry in E. invert_run.
  match goal with
  | H : for_each _ _ _ _ = _ |- _ =>
    apply (within_for_each (fun _ => 1%nat) _ _ (pylint_issue_within _)) in H;
      rewrite weight_ones in H; exact H
  end.
Qed.

Lemma radon_file_within (kv : text * value) :
  within (@List.length value) (radon_file USE_LLM endpoint kv).
Proof.
  intros b w a b' w' E. destruct kv as [f v]. unfold radon_file in E. invert_run.
  match goal with
  | H : for_each _ _ _ _ = _ |- _ =>
    apply (within_for_each (fun _ => 1%nat) _ _ (radon_item_within f)) in H;
      rewrite weight_ones in H; exact H
  end.
Qed.

Lemma reason_run_within (analysis : value) (N : Z) :
  within (@List.length value) (reason_run USE_LLM endpoint analysis N).
Proof.
  intros b w a b' w' E. unfold reason_run in E. invert_run.
  repeat match goal with
         | H : for_each (pylint_entry _ _ _) _ _ _ = _ |- _ =>
           apply (within_for_each _ _ _ (pylint_entry_within N)) in H;
             rewrite weight_lengths in H
         | H : for_each (bandit_issue _ _) _ _ _ = _ |- _ =>
           apply (within_for_each _ _ _ bandit_issue_within) in H;
             rewrite weight_ones in H
         | H : for_each (radon_file _ _) _ _ _ = _ |- _ =>
           apply (within_for_each _ _ _ radon_file_within) in H;
             rewrite weight_lengths in H
         end.
  rewrite !length_app.
  repeat match goal with H : _ /\ _ |- _ => destruct H end.
  split; lia.
Qed.

End Within.

(** X9.  When a pass returns, its calls and its budget use are covered
    by what it returns: at most one call of [_chat] and three requests per
    suggestion, and a budget that went down by at most one per
    suggestion. *)
Theorem calls_and_budget_follow_the_suggestions :
  forall (USE_LLM : bool) (endpoint : nat -> text -> result text)
         (analysis : value) (max_llm_calls : Z) (w : world)
         (suggestions : list value) (llm_budget : Z) (w' : world),
    reason_over_findings_in USE_LLM endpoint w analysis max_llm_calls
    = (Ok suggestions, llm_budget, w') ->
    (List.length (chats w') <= List.length (chats w) + List.length suggestions)%nat
    /\ (List.length (requests w')
        <= List.length (requests w) + 3 * List.length suggestions)%nat
    /\ max_llm_calls - Z.of_nat (List.length suggestions) <= llm_budget <= max_llm_calls.
Proof.
  intros USE_LLM endpoint analysis N w sugs b' w' E.
  pose proof (pass_cost_is_bounded_aux USE_LLM endpoint analysis N w) as C.
  unfold reason_over_findings_in in *. rewrite E in C. cbn [fst snd] in C.
  destruct C as (C1 & C2 & C3 & C4 & C5).
  destruct (reason_run_within USE_LLM endpoint analysis N N w sugs b' w' E) as [W1 W2].
  repeat split; lia.
Qed.

Lemma calls_and_budget_follow_the_suggestions_witness :
  exists suggestions llm_budget w',
    reason_over_findings_in true endpoint_down quiet mixed_findings 2
    = (Ok suggestions, llm_budget, w')
    /\ (List.length (chats w') <= 0 + List.length suggestions)%nat
    /\ llm_budget <= 2.
Proof.
  destruct (reason_over_findings_in true endpoint_down quiet mixed_findings 2)
    as [[r b] w'] eqn:E.
  destruct r as [suggestions|e]; [|vm_compute in E; discriminate E].
  exists suggestions, b, w'. split; [reflexivity|].
  destruct (calls_and_budget_follow_the_suggestions
              true endpoint_down mixed_findings 2 quiet suggestions b w' E)
    as (H1 & _ & _ & H3).
  split; [exact H1 | exact H3].
Defined.

End AgentProps.

(** ** The walk, and the runner with the reasoner *)

Module RunnerProps.
Import Py Analyzer Utils LlmAgent Views Notions Samples Inputs AnalyzerFacts TextFacts.

(** *** The walk *)

Lemma startswith_app_r (p s t : text) :
  startswith p s = true -> startswith p (s ++ t) = true.
Proof.
  revert s. induction p as [|x p IH]; intros s H; [reflexivity|].
  destruct s as [|y s]; [discriminate|].
  cbn [startswith app] in *. apply andb_true_iff in H. destruct H as [Hxy Hp].
  rewrite Hxy, (IH s Hp). reflexivity.
Qed.

Lemma endswith_app (suffix a b : text) :
  endswith suffix b = true -> endswith suffix (a ++ b) = true.
Proof.
  unfold endswith. intros H. rewrite rev_app_distr. apply startswith_app_r. exact H.
Qed.

Lemma endswith_path_join (suffix a b : text) :
  endswith suffix b = true -> endswith suffix (Reporter.path_join a b) = true.
Proof.
  intros H. unfold Reporter.path_join.
  destruct (startswith (u "/") b); [exact H|].
  destruct a as [|c a]; [exact H|].
  destruct (Reporter.ends_with_slash (c :: a)).
  - apply endswith_app. exact H.
  - rewrite app_assoc. apply endswith_app. exact H.
Qed.

Lemma listed_paths_end_in_py (root : text) (t : tree) :
  Forall (fun p => endswith (u ".py") p = true) (list_py_files root t).
Proof.
  apply Forall_forall. intros p Hp. unfold list_py_files in Hp.
  apply in_flat_map in Hp. destruct Hp as [[[dirpath dirnames] files] [_ Hp]].
  apply in_map_iff in Hp. destruct Hp as [f [<- Hf]].
  apply filter_In in Hf. destruct Hf as [_ He].
  apply endswith_path_join. exact He.
Qed.

(** X10.  [list_py_files] yields paths that end in [".py"], and exactly
    the joins [os.path.join(dirpath, f)] of a directory of the walk with
    one of its files whose name ends in [".py"]. *)
Theorem list_py_files_lists_the_python_files :
  forall (root : text) (t : tree),
    Forall (fun p => endswith (u ".py") p = true) (list_py_files root t)
    /\ forall p,
         In p (list_py_files root t)
         <-> exists dirpath dirnames files f,
               In (dirpath, dirnames, files) (walk root t)
               /\ In f files
               /\ endswith (u ".py") f = true
               /\ p = Reporter.path_join dirpath f.
Proof.
  intros root t. split; [apply listed_paths_end_in_py|].
  intros p. unfold list_py_files. rewrite in_flat_map. split.
  - intros [[[dirpath dirnames] files] [Hw Hp]].
    apply in_map_iff in Hp. destruct Hp as [f [<- Hf]].
    apply filter_In in Hf. destruct Hf as [Hf He].
    exists dirpath, dirnames, files, f. repeat split; assumption.
  - intros (dirpath & dirnames & files & f & Hw & Hf & He & ->).
    exists (dirpath, dirnames, files). split; [exact Hw|].
    apply in_map. apply filter_In. split; assumption.
Qed.

Lemma list_py_files_lists_the_python_files_witness :
  In (u "/w/pkg/a.py") (list_py_files (u "/w") sample_tree).
Proof.
  apply (proj2 (list_py_files_lists_the_python_files (u "/w") sample_tree)).
  exists (u "/w/pkg"), [], [u "a.py"; u "a.pyc"], (u "a.py").
  split; [right; left; reflexivity|].
  split; [left; reflexivity|].
  split; reflexivity.
Defined.

(** *** The runner, then the reasoner *)

Lemma slice_to_nil {A} (n : Z) : slice_to n (@nil A) = [].
Proof. unfold slice_to. destruct (0 <=? n); apply firstn_nil. Qed.

Section Compose.
Variable executable : text.
Variable run_cmd : list text -> result (Z * text * text).
Variable json_loads : text -> result value.
Variable list_py_files : text -> list text.
Variable clone_repo : text -> result text.

Hypothesis loads_empty_list : json_loads (u "[]") = Ok (VList []).
Hypothesis loads_empty_dict : json_loads (u "{}") = Ok (VDict []).
Hypothesis all_unusable :
  forall cmd, exists code out err,
    run_cmd cmd = Ok (code, out, err) /\ unusable json_loads out.

Lemma pylint_file_unusable (f : text) :
  pylint_file executable run_cmd json_loads f = Ok (silent_entry f).
Proof.
  destruct (all_unusable (pylint_cmd executable f)) as (code & out & err & E & Hu).
  destruct (pylint_file_recorded executable run_cmd json_loads loads_empty_list f)
    as [entry [Ep [issues [-> Hi]]]].
  { rewrite E. reflexivity. }
  rewrite Ep. destruct (Hi code out err E) as [H _]. rewrite (H Hu). reflexivity.
Qed.

Lemma run_pylint_unusable (root : text) :
  run_pylint executable run_cmd json_loads list_py_files root
  = Ok (map silent_entry (list_py_files root)).
Proof.
  unfold run_pylint. induction (list_py_files root) as [|f l IH]; [reflexivity|].
  cbn [map_result map]. rewrite pylint_file_unusable. cbn [bind]. rewrite IH. reflexivity.
Qed.

Lemma silent_entries_give_nothing (USE_LLM : bool) (endpoint : nat -> text -> result text)
  (N : Z) (files : list text) (b : Z) (w : world) :
  exists yss,
    for_each (pylint_entry USE_LLM endpoint N) (map silent_entry files) b w = (Ok yss, b, w)
    /\ List.concat yss = [].
Proof.
  induction files as [|f files [yss [E C]]].
  - exists []. split; reflexivity.
  - exists ([] :: yss). split; [|exact C].
    cbn [map for_each]. unfold bindM at 1.
    assert (P : pylint_entry USE_LLM endpoint N (silent_entry f) b w = (Ok [], b, w)).
    { unfold pylint_entry, bindM, lift, silent_entry. cbn [getitem get lookup].
      change (text_eqb (u "file") (u "file")) with true. cbv iota.
      change (text_eqb (u "issues") (u "file")) with false.
      change (text_eqb (u "issues") (u "issues")) with true. cbv iota.
      cbn [getslice]. rewrite slice_to_nil. reflexivity. }
    rewrite P. unfold bindM. rewrite E. reflexivity.
Qed.

Lemma unusable_reports_aux (git_url repo_dir : text) :
  clone_repo git_url = Ok repo_dir ->
  exists analysis,
    analyze_repository executable run_cmd json_loads list_py_files clone_repo git_url
    = Ok analysis
    /\ forall USE_LLM endpoint max_llm_calls w,
         reason_over_findings_in USE_LLM endpoint w analysis max_llm_calls
         = (Ok [], max_llm_calls, w).
Proof.
  intros Hc.
  destruct (all_unusable (bandit_cmd executable repo_dir)) as (c1 & o1 & e1 & E1 & U1).
  destruct (all_unusable (radon_cmd executable repo_dir)) as (c2 & o2 & e2 & E2 & U2).
  destruct (run_bandit_empty executable run_cmd json_loads loads_empty_dict
              repo_dir c1 o1 e1 E1 U1) as [security [EB HB]].
  pose proof (run_radon_empty executable run_cmd json_loads loads_empty_dict
                repo_dir c2 o2 e2 E2 U2) as ER.
  eexists. split.
  - unfold analyze_repository. rewrite Hc. cbn [bind].
    rewrite run_pylint_unusable. cbn [bind]. rewrite EB. cbn [bind]. rewrite ER.
    cbn [bind]. reflexivity.
  - intros USE_LLM endpoint N w. unfold reason_over_findings_in, reason_run.
    unfold bindM at 1. unfold lift at 1. cbn [get lookup].
    change (text_eqb (u "pylint") (u "repo_dir")) with false.
    change (text_eqb (u "pylint") (u "pylint")) with true. cbv iota.
    unfold bindM at 1. unfold lift at 1. cbn [iterate].
    destruct (silent_entries_give_nothing USE_LLM endpoint N (list_py_files repo_dir) N w)
      as [yss [E C]].
    unfold bindM at 1. rewrite E.
    unfold bindM at 1. unfold lift at 1. cbn [get lookup].
    change (text_eqb (u "bandit") (u "repo_dir")) with false.
    change (text_eqb (u "bandit") (u "pylint")) with false.
    change (text_eqb (u "bandit") (u "bandit")) with true. cbv iota.
    unfold bindM at 1. unfold lift at 1. rewrite HB.
    unfold bindM at 1. unfold lift at 1. cbn [getslice]. rewrite slice_to_nil.
    unfold bindM at 1. unfold lift at 1. cbn [iterate].
    unfold bindM at 1. cbn [for_each]. unfold ret at 1.
    unfold bindM at 1. unfold lift at 1. cbn [get lookup].
    change (text_eqb (u "radon") (u "repo_dir")) with false.
    change (text_eqb (u "radon") (u "pylint")) with false.
    change (text_eqb (u "radon") (u "bandit")) with false.
    change (text_eqb (u "radon") (u "radon")) with true. cbv iota.
    unfold bindM at 1. unfold lift at 1. cbn [items].
    unfold bindM at 1. rewrite slice_to_nil. cbn [for_each]. unfold ret.
    rewrite C. reflexivity.
Qed.

End Compose.

(** X11.  The runner, then the reasoner.  When the clone succeeds and
    every tool prints nothing or something that is not JSON,
    [analyze_repository] still returns an analysis, and the reasoning pass
    over it returns no suggestion, with the budget and the world
    untouched, for every endpoint. *)
Theorem unusable_reports_give_no_suggestion :
  forall (executable : text) (run_cmd : list text -> result (Z * text * text))
         (json_loads : text -> result value) (list_py_files : text -> list text)
         (clone_repo : text -> result text) (git_url repo_dir : text),
    json_loads (u "[]") = Ok (VList []) ->
    json_loads (u "{}") = Ok (VDict []) ->
    (forall cmd, exists code out err,
        run_cmd cmd = Ok (code, out, err) /\ unusable json_loads out) ->
    clone_repo git_url = Ok repo_dir ->
    exists analysis,
      analyze_repository executable run_cmd json_loads list_py_files clone_repo git_url
      = Ok analysis
      /\ forall USE_LLM endpoint max_llm_calls w,
           reason_over_findings_in USE_LLM endpoint w analysis max_llm_calls
           = (Ok [], max_llm_calls, w).
Proof.
  intros executable run_cmd json_loads list_py_files clone_repo git_url repo_dir
         HL HD HU HC.
  exact (unusable_reports_aux executable run_cmd json_loads list_py_files clone_repo
           HL HD HU git_url repo_dir HC).
Qed.

Lemma unusable_reports_give_no_suggestion_witness :
  exists analysis,
    analyze_repository (u "python") crashing_run_cmd small_loads sample_files sample_clone
                       (u "https://github.com/o/r") = Ok analysis
    /\ forall USE_LLM endpoint max_llm_calls w,
         reason_over_findings_in USE_LLM endpoint w analysis max_llm_calls
         = (Ok [], max_llm_calls, w).
Proof.
  apply (unusable_reports_give_no_suggestion
           (u "python") crashing_run_cmd small_loads sample_files sample_clone
           (u "https://github.com/o/r") (u "/tmp/devmate_1700000000")).
  - reflexivity.
  - reflexivity.
  - intros cmd. exists 1, (u "Traceback (most recent call last):"), [].
    split; [reflexivity | right; reflexivity].
  - reflexivity.
Defined.

End RunnerProps.

(** ** More on the report *)

Module ReporterProps.
Import Py Reporter Views Notions Samples Inputs ReporterFacts TextFacts.

(** *** [clamp] *)

Lemma marker_length : List.length (nl ++ u "...[truncated]...") = 18%nat.
Proof. reflexivity. Qed.

Lemma clamp_length (s : text) (lim : Z) :
  0 <= lim -> Z.of_nat (List.length (clamp s lim)) <= lim + 18.
Proof.
  intros Hl. unfold clamp.
  destruct (Z.of_nat (List.length s) <=? lim) eqn:E.
  - apply Z.leb_le in E. lia.
  - rewrite length_app, marker_length.
    pose proof (AgentFacts.slice_to_length lim s Hl). lia.
Qed.

Lemma clamp_prefix (s : text) (lim : Z) :
  0 <= lim -> slice_to lim (clamp s lim) = slice_to lim s.
Proof.
  intros Hl. unfold clamp. destruct (Z.of_nat (List.length s) <=? lim) eqn:E; [reflexivity|].
  apply Z.leb_gt in E.
  unfold slice_to. assert (P : (0 <=? lim) = true) by (apply Z.leb_le; exact Hl).
  rewrite P. rewrite firstn_app, firstn_firstn, Nat.min_id.
  assert (L : List.length (firstn (Z.to_nat lim) s) = Z.to_nat lim).
  { apply firstn_length_le. lia. }
  rewrite L, Nat.sub_diag. cbn [firstn]. apply app_nil_r.
Qed.

(** X12.  For a limit [lim >= 0], [clamp] returns between
    [min(len(s), lim)] and [lim + 18] characters (the marker has 18), keeps
    the first [lim] characters of [s], and clamping twice is clamping
    once. *)
Theorem clamp_bounds :
  forall (s : text) (lim : Z),
    0 <= lim ->
    Z.min (Z.of_nat (List.length s)) lim <= Z.of_nat (List.length (clamp s lim)) <= lim + 18
    /\ slice_to lim (clamp s lim) = slice_to lim s
    /\ clamp (clamp s lim) lim = clamp s lim.
Proof.
  intros s lim Hl.
  split; [split; [|apply clamp_length; exact Hl]|split; [apply clamp_prefix; exact Hl|]].
  - unfold clamp. destruct (Z.of_nat (List.length s) <=? lim) eqn:E; [lia|].
    apply Z.leb_gt in E. rewrite length_app, marker_length.
    unfold slice_to. assert (P : (0 <=? lim) = true) by (apply Z.leb_le; exact Hl).
    rewrite P, firstn_length_le; lia.
  - pose proof (clamp_prefix s lim Hl) as HP.
    unfold clamp at 1. destruct (Z.of_nat (List.length (clamp s lim)) <=? lim) eqn:E;
      [reflexivity|].
    rewrite HP. unfold clamp in E |- *.
    destruct (Z.of_nat (List.length s) <=? lim) eqn:E'; [congruence | reflexivity].
Qed.

Lemma clamp_bounds_witness :
  Z.min (Z.of_nat (List.length (u "0123456789"))) 4
    <= Z.of_nat (List.length (clamp (u "0123456789") 4)) <= 4 + 18
  /\ slice_to 4 (clamp (u "0123456789") 4) = slice_to 4 (u "0123456789")
  /\ clamp (clamp (u "0123456789") 4) 4 = clamp (u "0123456789") 4.
Proof. apply clamp_bounds. lia. Defined.

(** *** The two regular expressions *)

Lemma skipn_length_le {A} (n : nat) (l : list A) :
  (List.length (skipn n l) <= List.length l)%nat.
Proof. rewrite length_skipn. lia. Qed.

Lemma strip_ansi_scan_length (fuel : nat) :
  forall s, (List.length (strip_ansi_scan fuel s) <= List.length s)%nat.
Proof.
  induction fuel as [|fuel IH]; intros s; [apply Nat.le_refl|].
  destruct s as [|c s']; [apply Nat.le_refl|].
  cbn [strip_ansi_scan].
  assert (K : (List.length (c :: strip_ansi_scan fuel s') <= List.length (c :: s'))%nat).
  { cbn [List.length]. specialize (IH s'). lia. }
  destruct (startswith [27%N; 91%N] (c :: s')); [|exact K].
  destruct (dropwhile is_sgr_param (skipn 2 (c :: s'))) as [|m rest] eqn:E; [exact K|].
  destruct (m =? 109)%N; [|exact K].
  destruct (dropwhile_suffix is_sgr_param (skipn 2 (c :: s'))) as [a Ha].
  rewrite E in Ha. apply (f_equal (@List.length _)) in Ha.
  rewrite length_app in Ha. cbn [List.length] in Ha.
  pose proof (skipn_length_le 2 (c :: s')) as Hs. cbn [List.length] in Hs.
  specialize (IH rest). cbn [List.length]. lia.
Qed.

Lemma strip_ansi_length (s : text) :
  (List.length (strip_ansi s) <= List.length s)%nat.
Proof. apply strip_ansi_scan_length. Qed.

Lemma strip_ansi_scan_plain (fuel : nat) :
  forall s, Forall (fun c => c <> 27%N) s -> strip_ansi_scan fuel s = s.
Proof.
  induction fuel as [|fuel IH]; intros s H; [reflexivity|].
  destruct s as [|c s']; [reflexivity|].
  inversion H as [|c' s'' Hc Hs]; subst.
  cbn [strip_ansi_scan startswith].
  assert (E : (27 =? c)%N = false) by (apply N.eqb_neq; congruence).
  rewrite E. cbn [andb]. f_equal. apply IH. exact Hs.
Qed.

(** X13.  The substitution of line 143 leaves a text without the escape
    character as it is. *)
Theorem strip_ansi_without_escape :
  forall s : text, Forall (fun c => c <> 27%N) s -> strip_ansi s = s.
Proof. intros s. apply strip_ansi_scan_plain. Qed.

Lemma strip_ansi_without_escape_witness : strip_ansi (u "ok [0m") = u "ok [0m".
Proof.
  apply strip_ansi_without_escape.
  apply Forall_forall. intros c Hc.
  repeat (destruct Hc as [<-|Hc]; [discriminate|]). contradiction.
Defined.

Lemma fence_scan_plain (fuel : nat) :
  forall s, Forall (fun c => c <> 96%N) s -> fence_scan fuel s = ([], s).
Proof.
  induction fuel as [|fuel IH]; intros s H; [reflexivity|].
  destruct s as [|c s']; [reflexivity|].
  inversion H as [|c' s'' Hc Hs]; subst.
  cbn [fence_scan].
  assert (E : startswith fence (c :: s') = false).
  { unfold fence. cbn [u map list_ascii_of_string startswith].
    assert (E : (N_of_ascii "`" =? c)%N = false) by (apply N.eqb_neq; cbn; congruence).
    rewrite E. reflexivity. }
  rewrite E. rewrite (IH s' Hs). reflexivity.
Qed.

Lemma flatten_text_str (s : text) : flatten_text (VStr s) = s.
Proof. destruct s; reflexivity. Qed.

(** X14.  On a text without a backtick [extract_code_blocks] finds no
    block, and the substitution of line 102 leaves the text as it is. *)
Theorem text_without_backtick_has_no_code :
  forall s : text,
    Forall (fun c => c <> 96%N) s ->
    extract_code_blocks s = [] /\ sub_code s = s.
Proof.
  intros s H. unfold extract_code_blocks, findall_code, sub_code.
  rewrite flatten_text_str, (fence_scan_plain _ s H). split; reflexivity.
Qed.

Lemma text_without_backtick_has_no_code_witness :
  extract_code_blocks (u "Use a context manager.") = []
  /\ sub_code (u "Use a context manager.") = u "Use a context manager.".
Proof.
  apply text_without_backtick_has_no_code.
  apply Forall_forall. intros c Hc.
  repeat (destruct Hc as [<-|Hc]; [discriminate|]). contradiction.
Defined.

(** X15.  A block returned by [extract_code_blocks] is not empty and has
    no surrounding whitespace. *)
Theorem code_blocks_are_never_blank :
  forall s : text,
    Forall (fun b => b <> [] /\ strip b = b) (extract_code_blocks s).
Proof.
  intros s. unfold extract_code_blocks. apply Forall_forall. intros b Hb.
  apply in_map_iff in Hb. destruct Hb as [b0 [<- Hb0]].
  apply filter_In in Hb0. destruct Hb0 as [_ Ht]. split.
  - intros E. rewrite E in Ht. discriminate.
  - apply strip_idempotent.
Qed.

(** *** [sanitize] *)

(** X16.  [sanitize] applied to its own output changes nothing. *)
Theorem sanitize_is_idempotent :
  forall v : value, sanitize (VStr (sanitize v)) = sanitize v.
Proof.
  intros v. apply sanitize_keeps_single_byte. apply sanitize_single_byte.
Qed.

Lemma sanitize_length (s : text) :
  (List.length (sanitize (VStr s)) <= List.length s)%nat.
Proof. unfold sanitize. apply filter_length_le. Qed.

(** *** The page of the log *)

(** X17.  No text drawn on the page of the execution log has more than
    20018 characters, whatever the output of the crew. *)
Theorem log_page_text_is_bounded :
  forall (unicode_mode : bool) (full_output : value),
    Forall (fun t => Z.of_nat (List.length t) <= 20018)
           (drawn_texts (log_ops unicode_mode full_output)).
Proof.
  intros mode fo. unfold log_ops. destruct (truthy fo); [|constructor].
  cbn [drawn_texts flat_map op_text app].
  constructor; [vm_compute; intros E; discriminate E|]. constructor; [|constructor].
  pose proof (sanitize_length (strip_ansi (clamp (flatten_text fo) 20000))) as H1.
  pose proof (strip_ansi_length (clamp (flatten_text fo) 20000)) as H2.
  pose proof (clamp_length (flatten_text fo) 20000 ltac:(lia)) as H3.
  lia.
Qed.

(** *** The sections *)

Lemma section_ops_ok (unicode_mode : bool) (s : value) :
  is_ok (section_ops unicode_mode s) = sectionable s.
Proof.
  destruct s as [| | | |l|d]; try reflexivity.
  unfold section_ops, sectionable, field, textual_or_falsy. cbn [get bind].
  destruct (lookup (u "type") d) as [x|]; [|reflexivity].
  destruct x as [|b|z|t|l|d']; unfold py_or; cbn [truthy textual negb orb].
  - reflexivity.
  - destruct b; reflexivity.
  - destruct (z =? 0); reflexivity.
  - destruct t; reflexivity.
  - destruct l; reflexivity.
  - destruct d'; reflexivity.
Qed.

Lemma dividers_app (a b : list pdf_op) : dividers (a ++ b) = (dividers a + dividers b)%nat.
Proof. unfold dividers. rewrite filter_app, length_app. reflexivity. Qed.

Lemma code_ops_dividers (unicode_mode : bool) (codes : list text) :
  forall start,
    dividers (flat_map (fun ic => code_ops unicode_mode (fst ic) (snd ic))
                       (enumerate_from start codes)) = O.
Proof.
  induction codes as [|c codes IH]; intros start; [reflexivity|].
  cbn [enumerate_from flat_map]. rewrite dividers_app, IH. reflexivity.
Qed.

Lemma section_ops_dividers (unicode_mode : bool) (s : value) (ops : list pdf_op) :
  section_ops unicode_mode s = Ok ops -> dividers ops = 1%nat.
Proof.
  destruct s as [| | | |l|d]; try discriminate.
  unfold section_ops. cbn [get bind].
  destruct (title_method _) as [fallback_header|e]; [|discriminate].
  cbn [bind]. intros [= <-].
  unfold dividers. cbn [filter is_rule]. rewrite !filter_app, !length_app.
  match goal with
  | |- context [filter is_rule (if ?c then _ else _)] => destruct c
  end;
  match goal with
  | |- context [filter is_rule (match ?c with [] => _ | _ :: _ => _ end)] =>
    destruct c as [|code codes] eqn:E
  end;
  try (pose proof (code_ops_dividers unicode_mode (code :: codes) 1) as C;
       unfold dividers in C; rewrite C);
  reflexivity.
Qed.

Lemma sections_ops_dividers (unicode_mode : bool) (l : list value) :
  forallb sectionable l = true ->
  exists ops,
    sections_ops unicode_mode l = (ops, Ok tt) /\ dividers ops = List.length l.
Proof.
  induction l as [|s l IH]; intros H.
  - exists []. split; reflexivity.
  - cbn [forallb] in H. apply andb_true_iff in H. destruct H as [Hs Hl].
    destruct (IH Hl) as [more [E D]].
    pose proof (section_ops_ok unicode_mode s) as K. rewrite Hs in K.
    destruct (section_ops unicode_mode s) as [ops|e] eqn:Es; [|discriminate].
    exists (ops ++ more). cbn [sections_ops]. rewrite Es, E. split; [reflexivity|].
    rewrite dividers_app, D, (section_ops_dividers unicode_mode s ops Es). reflexivity.
Qed.

Lemma sections_ops_raise (unicode_mode : bool) (l : list value) :
  forallb sectionable l = false -> is_ok (snd (sections_ops unicode_mode l)) = false.
Proof.
  induction l as [|s l IH]; intros H; [discriminate|].
  cbn [forallb] in H. cbn [sections_ops].
  pose proof (section_ops_ok unicode_mode s) as K.
  destruct (section_ops unicode_mode s) as [ops|e] eqn:Es; [|reflexivity].
  cbn [is_ok] in K. rewrite <- K in H. cbn [andb] in H.
  specialize (IH H). destruct (sections_ops unicode_mode l) as [more r]. exact IH.
Qed.

Lemma iterate_list (l : list value) : iterate (py_or (VList l) (VList [])) = Ok l.
Proof. destruct l; reflexivity. Qed.

Lemma log_ops_dividers (unicode_mode : bool) (full_output : value) :
  dividers (log_ops unicode_mode full_output) = O.
Proof. unfold log_ops. destruct (truthy full_output); reflexivity. Qed.

Lemma render_pdf_own (clock : text) (repo_url : value) (l : list value)
  (full_output : value) (unicode_mode : bool) :
  forallb sectionable l = true ->
  exists ops,
    _render_pdf clock repo_url (VList l) full_output unicode_mode = (ops, Ok tt)
    /\ dividers ops = List.length l.
Proof.
  intros H. unfold _render_pdf. rewrite iterate_list.
  destruct (sections_ops_dividers unicode_mode l H) as [ops [E D]]. rewrite E.
  eexists. split; [reflexivity|].
  rewrite !dividers_app, D, log_ops_dividers. cbn. lia.
Qed.

Lemma render_pdf_own_raise (clock : text) (repo_url : value) (l : list value)
  (full_output : value) (unicode_mode : bool) :
  forallb sectionable l = false ->
  is_ok (snd (_render_pdf clock repo_url (VList l) full_output unicode_mode)) = false.
Proof.
  intros H. unfold _render_pdf. rewrite iterate_list.
  pose proof (sections_ops_raise unicode_mode l H) as K.
  destruct (sections_ops unicode_mode l) as [ops r]. cbn [snd] in K.
  destruct r; [discriminate | reflexivity].
Qed.

Section Library.
Variable Doc : Type.
Variable perform : Doc -> pdf_op -> result Doc.
Variable clock : text.


Lemma render_needs_sectionable (pdf : Doc) (repo_url : value) (l : list value)
  (full_output : text) (unicode_mode : bool) :
  is_ok (render perform clock pdf repo_url (VList l) full_output unicode_mode) = true ->
  forallb sectionable l = true.
Proof.
  intros H. destruct (forallb sectionable l) eqn:S; [reflexivity|].
  pose proof (render_pdf_own_raise clock repo_url l (VStr full_output) unicode_mode S) as K.
  unfold render in H.
  destruct (_render_pdf clock repo_url (VList l) (VStr full_output) unicode_mode) as [ops r].
  cbn [snd] in K. destruct (perform_all perform pdf ops); cbn [bind] in H; [|discriminate H].
  destruct r; [discriminate K | discriminate H].
Qed.

Lemma perform_all_succeeds (ops : list pdf_op) :
  (forall d op, is_ok (perform d op) = true) ->
  forall pdf, is_ok (perform_all perform pdf ops) = true.
Proof.
  intros Hp. induction ops as [|op ops IH]; intros pdf; [reflexivity|].
  cbn [perform_all]. pose proof (Hp pdf op) as H.
  destruct (perform pdf op) as [pdf'|e]; [|discriminate]. cbn [bind]. apply IH.
Qed.

End Library.



(** X19.  A call of [_render_pdf] that returns normally had only
    suggestions that are dicts whose ["type"] is missing, a string or an
    object that counts as false, whatever the library does: any other
    suggestion makes lines 79-80 raise.  With a library whose drawing
    calls all succeed the call returns normally exactly for such
    suggestions. *)
Theorem render_raises_on_a_bad_suggestion :
  forall (Doc : Type) (perform : Doc -> pdf_op -> result Doc) (pdf : Doc)
         (clock : text) (repo_url : value) (l : list value) (full_output : text)
         (unicode_mode : bool),
    (is_ok (render perform clock pdf repo_url (VList l) full_output unicode_mode) = true ->
     forallb sectionable l = true)
    /\ ((forall d op, is_ok (perform d op) = true) ->
        is_ok (render perform clock pdf repo_url (VList l) full_output unicode_mode)
        = forallb sectionable l).
Proof.
  intros Doc perform pdf clock repo_url l full_output unicode_mode.
  split; [apply render_needs_sectionable|].
  intros Hp. destruct (forallb sectionable l) eqn:S.
  - destruct (render_pdf_own clock repo_url l (VStr full_output) unicode_mode S)
      as [ops [E _]].
    unfold render. rewrite E.
    pose proof (perform_all_succeeds Doc perform ops Hp pdf) as P.
    destruct (perform_all perform pdf ops); [reflexivity | discriminate P].
  - destruct (render perform clock pdf repo_url (VList l) full_output unicode_mode) eqn:R;
      [|reflexivity].
    assert (K : is_ok (render perform clock pdf repo_url (VList l) full_output unicode_mode)
                = true) by (rewrite R; reflexivity).
    apply render_needs_sectionable in K. congruence.
Qed.

(** A suggestion that is not a dict, drawn with a library that accepts
    every call. *)
Lemma render_raises_on_a_bad_suggestion_witness :
  is_ok (render recorded_perform (u "2024-01-01 00:00:00") []
                (VStr (u "https://github.com/o/r"))
                (VList [VDict []; VInt 3]) (u "log") false)
  = false.
Proof.
  apply (proj2 (render_raises_on_a_bad_suggestion (list pdf_op) recorded_perform []
                  (u "2024-01-01 00:00:00") (VStr (u "https://github.com/o/r"))
                  [VDict []; VInt 3] (u "log") false)).
  intros d op. reflexivity.
Defined.

(** *** The two paths *)

(** X20.  The file [generate_pdf_report] writes is the path it returns,
    under ["static/"]: what the dashboard links to is what was written. *)
Theorem report_is_written_under_static :
  forall now : Z, 0 <= now -> out_path now = u "static/" ++ relative_path now.
Proof.
  intros now Hn. rewrite (relative_path_eq now Hn). reflexivity.
Qed.

Lemma report_is_written_under_static_witness :
  out_path 1700000000 = u "static/" ++ relative_path 1700000000.
Proof. apply report_is_written_under_static. lia. Defined.

(** *** The generator over a library that draws *)

Section Drawing.
Variable Doc : Type.
Variable FPDF : Doc.
Variable add_font : Doc -> text -> text -> text -> result Doc.
Variable perform : Doc -> pdf_op -> result Doc.
Variable output : Doc -> text -> result unit.
Variable path_exists : text -> bool.
Variable makedirs : text -> result unit.
Variable clock : text.
Variable now : Z.

Hypothesis perform_draws : forall pdf op, is_ok (perform pdf op) = true.
Hypothesis output_writes : forall pdf p, output pdf p = Ok tt.
Hypothesis makedirs_makes : makedirs reports_dir = Ok tt.

Lemma perform_all_draws (ops : list pdf_op) :
  forall pdf, is_ok (perform_all perform pdf ops) = true.
Proof. apply perform_all_succeeds. exact perform_draws. Qed.

Lemma render_draws (pdf : Doc) (repo_url : value) (l : list value) (full_output : text)
  (unicode_mode : bool) :
  forallb sectionable l = true ->
  is_ok (render perform clock pdf repo_url (VList l) full_output unicode_mode) = true.
Proof.
  intros H. unfold render, _render_pdf. rewrite iterate_list.
  destruct (sections_ops_dividers unicode_mode l H) as [ops [E _]]. rewrite E.
  match goal with
  | |- context [perform_all perform pdf ?o] =>
    pose proof (perform_all_draws o pdf) as P; destruct (perform_all perform pdf o)
  end; [reflexivity | discriminate].
Qed.

Lemma generate_draws (repo_url : value) (l : list value) (full_output : value) :
  forallb sectionable l = true ->
  generate_pdf_report FPDF add_font perform output path_exists makedirs clock now
    repo_url (VList l) full_output
  = Ok (relative_path now).
Proof.
  intros H. unfold generate_pdf_report. rewrite makedirs_makes. cbn [bind].
  unfold try_except.
  destruct (unicode_attempt _ _ _ _ _ _ _ _ _ _) as [[]|e]; cbn [bind]; [reflexivity|].
  unfold fallback_attempt.
  pose proof (render_draws FPDF repo_url l (normalize_output full_output) false H) as R.
  destruct (render perform clock FPDF repo_url (VList l) (normalize_output full_output) false)
    as [drawn|e']; [|discriminate].
  cbn [bind]. rewrite output_writes. reflexivity.
Qed.

End Drawing.

(** X21.  When the directory can be made, every drawing call and the
    final write succeed, and each suggestion is a dict whose ["type"] is
    missing, a string or an object that counts as false,
    [generate_pdf_report] returns the relative path of the report,
    whether a font is found and registered or not. *)
Theorem report_is_generated_when_the_library_draws :
  forall (Doc : Type) (FPDF : Doc)
         (add_font : Doc -> text -> text -> text -> result Doc)
         (perform : Doc -> pdf_op -> result Doc)
         (output : Doc -> text -> result unit)
         (path_exists : text -> bool) (makedirs : text -> result unit)
         (clock : text) (now : Z)
         (repo_url : value) (l : list value) (full_output : value),
    (forall pdf op, is_ok (perform pdf op) = true) ->
    (forall pdf p, output pdf p = Ok tt) ->
    makedirs reports_dir = Ok tt ->
    forallb sectionable l = true ->
    @generate_pdf_report Doc FPDF add_font perform output path_exists makedirs clock now
      repo_url (VList l) full_output
    = Ok (relative_path now).
Proof.
  intros Doc FPDF add_font perform output path_exists makedirs clock now
         repo_url l full_output Hp Ho Hm Hl.
  exact (generate_draws Doc FPDF add_font perform output path_exists makedirs clock now
           Hp Ho Hm repo_url l full_output Hl).
Qed.

Lemma report_is_generated_when_the_library_draws_witness :
  @generate_pdf_report (list pdf_op) [] recorded_add_font recorded_perform recorded_output
    arial_installed makedirs_ok (u "2024-01-01 00:00:00") 1700000000
    (VStr (u "https://github.com/o/r"))
    (VList [VDict [(u "type", VStr (u "review")); (u "suggestion", VNone)]])
    (VStr (u "log"))
  = Ok (relative_path 1700000000).
Proof.
  apply report_is_generated_when_the_library_draws; reflexivity.
Defined.

(** *** The italic style in the Unicode tier *)

Lemma section_selects_italic (d : list (text * value)) (ops : list pdf_op) :
  Forall (fun c => c <> 96%N)
         (flatten_text (field d "suggestion" (VStr (u "No detailed output.")))) ->
  section_ops true (VDict d) = Ok ops ->
  In (set_font (u "Auto") (u "I") 10) ops.
Proof.
  intros Hplain. unfold field in Hplain.
  unfold section_ops. cbn [get bind].
  destruct (title_method _) as [fallback_header|e]; [|discriminate].
  cbn [bind].
  assert (C : extract_code_blocks
                (flatten_text match lookup (u "suggestion") d with
                              | Some x => x
                              | None => VStr (u "No detailed output.")
                              end) = []).
  { unfold extract_code_blocks, findall_code.
    rewrite flatten_text_str, (fence_scan_plain _ _ Hplain). reflexivity. }
  rewrite C. intros H. injection H as <-.
  do 10 right. apply in_or_app. right. left. reflexivity.
Qed.

Lemma sections_select_italic (d : list (text * value)) (l : list value) :
  Forall (fun c => c <> 96%N)
         (flatten_text (field d "suggestion" (VStr (u "No detailed output.")))) ->
  In (VDict d) l ->
  is_ok (snd (sections_ops true l)) = false
  \/ In (set_font (u "Auto") (u "I") 10) (fst (sections_ops true l)).
Proof.
  intros Hplain. induction l as [|s l IH]; intros Hin; [contradiction|].
  cbn [sections_ops].
  destruct (section_ops true s) as [ops|e] eqn:Es; [|left; reflexivity].
  destruct (sections_ops true l) as [more r] eqn:El. cbn [fst snd] in *.
  destruct Hin as [->|Hin].
  - right. apply in_or_app. left. exact (section_selects_italic d ops Hplain Es).
  - destruct (IH Hin) as [K|K]; [left; exact K | right; apply in_or_app; right; exact K].
Qed.

Section Italic.
Variable Doc : Type.
Variable FPDF : Doc.
Variable add_font : Doc -> text -> text -> text -> result Doc.
Variable perform : Doc -> pdf_op -> result Doc.
Variable output : Doc -> text -> result unit.
Variable path_exists : text -> bool.
Variable makedirs : text -> result unit.
Variable clock : text.
Variable now : Z.

Hypothesis italic_undefined :
  forall pdf, is_ok (perform pdf (set_font (u "Auto") (u "I") 10)) = false.

Lemma perform_all_stops (ops : list pdf_op) :
  In (set_font (u "Auto") (u "I") 10) ops ->
  forall pdf, is_ok (perform_all perform pdf ops) = false.
Proof.
  induction ops as [|op ops IH]; intros Hin pdf; [contradiction|].
  cbn [perform_all]. destruct Hin as [->|Hin].
  - pose proof (italic_undefined pdf) as H.
    destruct (perform pdf _); [discriminate H | reflexivity].
  - destruct (perform pdf op) as [pdf'|e]; [|reflexivity]. cbn [bind]. apply IH. exact Hin.
Qed.

Lemma unicode_pass_stops (pdf : Doc) (repo_url : value) (d : list (text * value))
  (l : list value) (full_output : text) :
  Forall (fun c => c <> 96%N)
         (flatten_text (field d "suggestion" (VStr (u "No detailed output.")))) ->
  In (VDict d) l ->
  is_ok (render perform clock pdf repo_url (VList l) full_output true) = false.
Proof.
  intros Hplain Hin.
  assert (S : is_ok (snd (_render_pdf clock repo_url (VList l) (VStr full_output) true))
              = false
              \/ In (set_font (u "Auto") (u "I") 10)
                    (fst (_render_pdf clock repo_url (VList l) (VStr full_output) true))).
  { unfold _render_pdf. rewrite iterate_list.
    destruct (sections_select_italic d l Hplain Hin) as [K|K];
      destruct (sections_ops true l) as [ops r]; cbn [fst snd] in K.
    - left. destruct r; [discriminate K | reflexivity].
    - right. destruct r; cbn [fst]; apply in_or_app; right;
        [apply in_or_app; left|]; exact K. }
  unfold render.
  destruct (_render_pdf clock repo_url (VList l) (VStr full_output) true) as [ops r].
  cbn [fst snd] in S. destruct S as [K|K].
  - destruct (perform_all perform pdf ops); cbn [bind]; [|reflexivity].
    destruct r; [discriminate K | reflexivity].
  - pose proof (perform_all_stops ops K pdf) as P.
    destruct (perform_all perform pdf ops); [discriminate P | reflexivity].
Qed.

Lemma unicode_attempt_stops (repo_url : value) (d : list (text * value))
  (l : list value) (full_output : value) :
  Forall (fun c => c <> 96%N)
         (flatten_text (field d "suggestion" (VStr (u "No detailed output.")))) ->
  In (VDict d) l ->
  exists e,
    unicode_attempt FPDF add_font perform output path_exists clock now
                    repo_url (VList l) full_output = Raise e.
Proof.
  intros Hplain Hin. unfold unicode_attempt.
  destruct (find_font path_exists) as [font_path|]; [|eexists; reflexivity].
  destruct (add_font FPDF (u "Auto") [] font_path) as [pdf1|e]; cbn [bind];
    [|eexists; reflexivity].
  destruct (add_font pdf1 (u "Auto") (u "B") font_path) as [pdf2|e]; cbn [bind];
    [|eexists; reflexivity].
  pose proof (unicode_pass_stops pdf2 repo_url d l (normalize_output full_output)
                Hplain Hin) as K.
  destruct (render perform clock pdf2 repo_url (VList l) (normalize_output full_output) true);
    [discriminate K|].
  eexists. reflexivity.
Qed.

End Italic.

(** X28.  The Unicode tier selects a style that is never registered.
    [generate_pdf_report] registers the font ["Auto"] in the regular and
    the bold style only, and the Unicode pass selects ["Auto"] in italic
    for a suggestion without a code excerpt.  So, with a library in which
    that [set_font] call raises, and a suggestion whose text has no
    backtick among the suggestions, the Unicode tier never succeeds: the
    result of [generate_pdf_report] is the one of the fallback tier. *)
Theorem unicode_tier_needs_the_italic_style :
  forall (Doc : Type) (FPDF : Doc)
         (add_font : Doc -> text -> text -> text -> result Doc)
         (perform : Doc -> pdf_op -> result Doc)
         (output : Doc -> text -> result unit)
         (path_exists : text -> bool) (makedirs : text -> result unit)
         (clock : text) (now : Z)
         (repo_url : value) (d : list (text * value)) (l : list value)
         (full_output : value) (fallback_outcome : result unit),
    makedirs reports_dir = Ok tt ->
    (forall pdf, is_ok (perform pdf (set_font (u "Auto") (u "I") 10)) = false) ->
    In (VDict d) l ->
    Forall (fun c => c <> 96%N)
           (flatten_text (field d "suggestion" (VStr (u "No detailed output.")))) ->
    tier perform output clock now repo_url (VList l) full_output FPDF false
         fallback_outcome ->
    @generate_pdf_report Doc FPDF add_font perform output path_exists makedirs clock now
      repo_url (VList l) full_output
    = match fallback_outcome with
      | Ok _ => Ok (relative_path now)
      | Raise fallback_error => Raise fallback_error
      end.
Proof.
  intros Doc FPDF add_font perform output path_exists makedirs clock now
         repo_url d l full_output fallback_outcome Hm Hi Hin Hplain Ht.
  destruct (unicode_attempt_stops Doc FPDF add_font perform output path_exists clock now
              Hi repo_url d l full_output Hplain Hin) as [e He].
  exact (generate_after_unicode_failure Doc FPDF add_font perform output path_exists
           makedirs clock now repo_url (VList l) full_output e fallback_outcome Hm He Ht).
Qed.

(** The italic style is undefined and the one suggestion has no code
    excerpt: the report is the one of the fallback tier. *)
Lemma unicode_tier_needs_the_italic_style_witness :
  @generate_pdf_report (list pdf_op) [] registering_add_font strict_perform recorded_output
    arial_installed makedirs_ok (u "2024-01-01 00:00:00") 1700000000
    (VStr (u "https://github.com/o/r"))
    (VList [VDict [(u "type", VStr (u "summary")); (u "suggestion", VStr (u "Score: 8/10"))]])
    VNone
  = Ok (relative_path 1700000000).
Proof.
  apply (unicode_tier_needs_the_italic_style (list pdf_op) [] registering_add_font
           strict_perform recorded_output arial_installed makedirs_ok
           (u "2024-01-01 00:00:00") 1700000000 (VStr (u "https://github.com/o/r"))
           [(u "type", VStr (u "summary")); (u "suggestion", VStr (u "Score: 8/10"))]
           [VDict [(u "type", VStr (u "summary")); (u "suggestion", VStr (u "Score: 8/10"))]]
           VNone (Ok tt)).
  - reflexivity.
  - intros pdf. reflexivity.
  - left. reflexivity.
  - apply Forall_forall. intros c Hc.
    repeat (destruct Hc as [<-|Hc]; [discriminate|]). contradiction.
  - assert (E : (do drawn <- render strict_perform (u "2024-01-01 00:00:00")
                                   ([] : list pdf_op) (VStr (u "https://github.com/o/r"))
                                   (VList [VDict [(u "type", VStr (u "summary"));
                                                  (u "suggestion", VStr (u "Score: 8/10"))]])
                                   (normalize_output VNone) false;
                 recorded_output drawn (out_path 1700000000)) = Ok tt)
      by (vm_compute; reflexivity).
    rewrite <- E.
    apply (tier_computed (list pdf_op) strict_perform recorded_output
             (u "2024-01-01 00:00:00") 1700000000).
Defined.

End ReporterProps.

(** ** More on the route *)

Module AppProps.
Import Py Reporter App Views Notions Samples Inputs ReporterFacts AppFacts TextFacts.

(** *** The table *)

(** X22.  The route [index] only appends: the rows of the table come out
    unchanged and in order, followed by at most one row with a new key.
    Exactly one row is added when the route redirects to the dashboard;
    on every other path (GET, blank URL, failed analysis or score) no row
    is added and the only effects are flashed messages. *)
Theorem index_never_touches_existing_rows :
  forall (analyze_repo_with_agents : text -> result value)
         (generate_pdf_report : value -> value -> value -> result text)
         (utcnow : Z) (req : request) (rows : list Analysis),
    let out := index analyze_repo_with_agents generate_pdf_report utcnow req rows in
    exists added,
      snd (fst out) = rows ++ added
      /\ Forall (fun r => id r = next_id rows) added
      /\ ((fst (fst out) = redirect "dashboard" /\ List.length added = 1%nat)
          \/ (fst (fst out) <> redirect "dashboard"
              /\ added = []
              /\ forallb is_flash (snd out) = true)).
Proof.
  intros analyze generate utcnow req rows out. subst out. unfold index.
  assert (Quiet : forall (resp : response) (evs : list event),
             resp <> redirect "dashboard" -> forallb is_flash evs = true ->
             exists added,
               snd (fst (resp, rows, evs)) = rows ++ added
               /\ Forall (fun r => id r = next_id rows) added
               /\ ((fst (fst (resp, rows, evs)) = redirect "dashboard"
                    /\ List.length added = 1%nat)
                   \/ (fst (fst (resp, rows, evs)) <> redirect "dashboard"
                       /\ added = []
                       /\ forallb is_flash (snd (resp, rows, evs)) = true))).
  { intros resp evs Hr He. exists []. cbn [fst snd]. rewrite app_nil_r.
    split; [reflexivity|]. split; [constructor|]. right. repeat split; assumption. }
  destruct req as [|field].
  - apply Quiet; [discriminate | reflexivity].
  - destruct (negb (truthy (VStr (strip match field with Some s => s | None => [] end)))).
    + apply Quiet; [discriminate | reflexivity].
    + destruct (analyze _) as [result_text|e].
      * destruct (Score.extract_score result_text) as [score_|e].
        -- cbn [id fst snd].
           destruct (generate _ _ _); rewrite set_pdf_path_new;
             (eexists [_]; split; [reflexivity|];
              split; [constructor; [reflexivity | constructor]|];
              left; split; reflexivity).
        -- unfold analysis_failed. apply Quiet; [discriminate | reflexivity].
      * unfold analysis_failed. apply Quiet; [discriminate | reflexivity].
Qed.

(** *** The route over the report generator *)

Section Served.
Variable Doc : Type.
Variable FPDF : Doc.
Variable add_font : Doc -> text -> text -> text -> result Doc.
Variable perform : Doc -> pdf_op -> result Doc.
Variable output : Doc -> text -> result unit.
Variable path_exists : text -> bool.
Variable makedirs : text -> result unit.
Variable clock : text.
Variable now : Z.

Let generate := @Reporter.generate_pdf_report Doc FPDF add_font perform output
                  path_exists makedirs clock now.

Lemma generate_path (repo_url suggestions full_output : value) (p : text) :
  generate repo_url suggestions full_output = Ok p -> p = relative_path now.
Proof.
  unfold generate, Reporter.generate_pdf_report.
  destruct (makedirs reports_dir) as [[]|e]; cbn [bind]; [|discriminate].
  unfold try_except.
  destruct (unicode_attempt _ _ _ _ _ _ _ _ _ _) as [[]|e]; cbn [bind].
  - intros [= <-]. reflexivity.
  - destruct (fallback_attempt _ _ _ _ _ _ _ _) as [[]|e']; cbn [bind].
    + intros [= <-]. reflexivity.
    + discriminate.
Qed.

Lemma stored_path_of_generate (repo_url suggestions full_output : value) :
  0 <= now ->
  stored_path (generate repo_url suggestions full_output) = relative_path now
  \/ stored_path (generate repo_url suggestions full_output) = u "Error generating PDF".
Proof.
  intros Hn. destruct (generate repo_url suggestions full_output) as [p|e] eqn:G.
  - left. apply generate_path in G. subst p. unfold stored_path.
    rewrite (relative_path_eq now Hn). reflexivity.
  - right. reflexivity.
Qed.

Lemma index_paths_aux (analyze_repo_with_agents : text -> result value) (utcnow : Z)
  (req : request) (rows : list Analysis) :
  0 <= now ->
  forall r,
    In r (snd (fst (index analyze_repo_with_agents generate utcnow req rows))) ->
    In r rows
    \/ pdf_path r = relative_path now
    \/ pdf_path r = u "Error generating PDF".
Proof.
  intros Hn r. unfold index.
  destruct req as [|field]; [left; assumption|].
  destruct (negb (truthy (VStr (strip match field with Some s => s | None => [] end))));
    [left; assumption|].
  destruct (analyze_repo_with_agents _) as [result_text|e]; [|left; assumption].
  destruct (Score.extract_score result_text) as [score_|e]; [|left; assumption].
  cbn [id fst snd].
  match goal with
  | |- context [generate ?a ?b ?c] =>
    pose proof (stored_path_of_generate a b c Hn) as S;
    destruct (generate a b c) as [p|e] eqn:G
  end; rewrite set_pdf_path_new; intros Hr; apply in_app_or in Hr;
    (destruct Hr as [Hr|[<-|[]]]; [left; exact Hr | right; exact S]).
Qed.

End Served.

(** X23.  The route over the report generator of [reporter.py]: a row
    that was not in the table before has the path
    ["reports/devmate_report_<now>.pdf"] or the text
    ["Error generating PDF"]; the placeholder ["Generating..."] never
    stays. *)
Theorem stored_path_is_the_report_or_the_error :
  forall (Doc : Type) (FPDF : Doc)
         (add_font : Doc -> text -> text -> text -> result Doc)
         (perform : Doc -> pdf_op -> result Doc)
         (output : Doc -> text -> result unit)
         (path_exists : text -> bool) (makedirs : text -> result unit)
         (clock : text) (now : Z)
         (analyze_repo_with_agents : text -> result value) (utcnow : Z)
         (req : request) (rows : list Analysis),
    0 <= now ->
    forall r,
      In r (snd (fst (index analyze_repo_with_agents
                            (@Reporter.generate_pdf_report Doc FPDF add_font perform output
                               path_exists makedirs clock now)
                            utcnow req rows))) ->
      In r rows
      \/ pdf_path r = u "reports/devmate_report_" ++ text_of_Z now ++ u ".pdf"
      \/ pdf_path r = u "Error generating PDF".
Proof.
  intros Doc FPDF add_font perform output path_exists makedirs clock now
         analyze utcnow req rows Hn r Hr.
  rewrite <- (relative_path_eq now Hn).
  exact (index_paths_aux Doc FPDF add_font perform output path_exists makedirs clock now
           analyze utcnow req rows Hn r Hr).
Qed.

Lemma stored_path_is_the_report_or_the_error_witness :
  Forall (fun r =>
            In r []
            \/ pdf_path r = u "reports/devmate_report_" ++ text_of_Z 1700000000 ++ u ".pdf"
            \/ pdf_path r = u "Error generating PDF")
         (snd (fst (index sample_agents
                          (@Reporter.generate_pdf_report (list pdf_op) [] recorded_add_font
                             recorded_perform recorded_output arial_installed makedirs_ok
                             (u "2024-01-01 00:00:00") 1700000000)
                          0 (POST (Some (u "https://github.com/o/r"))) []))).
Proof.
  apply Forall_forall. intros r Hr.
  apply (stored_path_is_the_report_or_the_error
           (list pdf_op) [] recorded_add_font recorded_perform recorded_output
           arial_installed makedirs_ok (u "2024-01-01 00:00:00") 1700000000
           sample_agents 0 (POST (Some (u "https://github.com/o/r"))) []);
    [lia | exact Hr].
Defined.

End AppProps.

(** ** The cleaning of the agents' outputs *)

Module AgentsProps.
Import Py Agents Score Views Notions Samples Inputs TextFacts ScoreProps.

(** *** Induction on objects *)

Lemma value_induction (P : value -> Prop) :
  P VNone -> (forall b, P (VBool b)) -> (forall z, P (VInt z)) -> (forall s, P (VStr s)) ->
  (forall l, Forall P l -> P (VList l)) ->
  (forall d, Forall (fun kv => P (snd kv)) d -> P (VDict d)) ->
  forall v, P v.
Proof.
  intros HN HB HZ HS HL HD.
  refine (fix IH (v : value) : P v :=
            match v with
            | VNone => HN
            | VBool b => HB b
            | VInt z => HZ z
            | VStr s => HS s
            | VList l =>
              HL l ((fix go (l : list value) : Forall P l :=
                       match l with
                       | [] => Forall_nil _
                       | x :: l' => Forall_cons x (IH x) (go l')
                       end) l)
            | VDict d =>
              HD d ((fix go (d : list (text * value)) : Forall (fun kv => P (snd kv)) d :=
                       match d with
                       | [] => Forall_nil _
                       | kv :: d' => Forall_cons kv (IH (snd kv)) (go d')
                       end) d)
            end).
Qed.

(** *** The filters of [clean_text] *)

Lemma filter_fixed {A} (p : A -> bool) (l : list A) :
  forallb p l = true -> filter p l = l.
Proof.
  induction l as [|x l IH]; intros H; [reflexivity|].
  cbn [forallb] in H. apply andb_true_iff in H. destruct H as [Hx Hl].
  cbn [filter]. rewrite Hx. f_equal. exact (IH Hl).
Qed.

Lemma forallb_over_map {A B} (f : A -> B) (p : B -> bool) (l : list A) :
  forallb p (map f l) = forallb (fun x => p (f x)) l.
Proof. induction l as [|x l IH]; [reflexivity|]. cbn [map forallb]. rewrite IH. reflexivity. Qed.

Lemma forallb_filter {A} (p : A -> bool) (l : list A) : forallb p (filter p l) = true.
Proof.
  apply forallb_forall. intros x Hx. apply filter_In in Hx. exact (proj2 Hx).
Qed.

Lemma filters_are_plain (s : text) :
  remove_backticks (remove_non_ascii s) = filter plain_char s.
Proof.
  unfold remove_backticks, remove_non_ascii, plain_char.
  induction s as [|c s IH]; [reflexivity|].
  cbn [filter]. destruct (c <=? 127)%N; cbn [filter andb]; [|exact IH].
  destruct (negb (c =? 96)%N); [f_equal|]; exact IH.
Qed.

Lemma replace_absent (c : N) (new s : text) :
  Forall (fun y => y <> c) s -> replace [c] new s = s.
Proof.
  unfold replace. induction 1 as [|y s Hy _ IH]; [reflexivity|].
  cbn [replace_scan startswith andb].
  assert (E : (c =? y)%N = false) by (apply N.eqb_neq; congruence).
  rewrite E. cbn [andb]. f_equal. exact IH.
Qed.

Lemma plain_is_no_mark (s : text) (m : char) :
  (127 < m)%N -> forallb plain_char s = true -> Forall (fun y => y <> m) s.
Proof.
  intros Hm H. apply Forall_forall. intros y Hy.
  rewrite forallb_forall in H. specialize (H y Hy). unfold plain_char in H.
  apply andb_true_iff in H. destruct H as [H _]. apply N.leb_le in H. lia.
Qed.

Lemma replace_marks_plain (s : text) :
  forallb plain_char s = true -> replace_marks s = s.
Proof.
  intros H. unfold replace_marks.
  rewrite (replace_absent 8226%N (u "-") s) by (apply plain_is_no_mark; [lia | exact H]).
  rewrite (replace_absent 8211%N (u "-") s) by (apply plain_is_no_mark; [lia | exact H]).
  apply replace_absent. apply plain_is_no_mark; [lia | exact H].
Qed.

Lemma clean_text_str (s : text) :
  clean_text (VStr s) = VStr (strip (filter plain_char s)).
Proof.
  cbn [clean_text str]. rewrite filters_are_plain, replace_marks_plain; [reflexivity|].
  apply forallb_filter.
Qed.

Lemma clean_text_leaf (v : value) :
  container v = false -> v <> VNone ->
  clean_text v = VStr (strip (filter plain_char (str v))).
Proof.
  intros Hc Hn.
  assert (E : clean_text v = clean_text (VStr (str v))).
  { destruct v; try discriminate; try reflexivity. congruence. }
  rewrite E. apply clean_text_str.
Qed.

(** X24.  On a string [clean_text] keeps the ASCII characters other than
    the backtick and strips the result: the three [replace] calls of line
    52 never fire, since the bullet and the dashes are not ASCII and are
    removed at line 48. *)
Theorem marks_are_deleted_not_replaced :
  forall s : text, clean_text (VStr s) = VStr (strip (filter plain_char s)).
Proof. exact clean_text_str. Qed.

(** *** What [clean_text] returns *)

Lemma forallb_Forall {A} (p : A -> bool) (l : list A) :
  forallb p l = true -> Forall (fun x => p x = true) l.
Proof. intros H. apply Forall_forall. apply forallb_forall. exact H. Qed.

Lemma Forall_to_forallb {A} (p : A -> bool) (l : list A) :
  Forall (fun x => p x = true) l -> forallb p l = true.
Proof. intros H. apply forallb_forall. apply Forall_forall. exact H. Qed.

Lemma cleaned_text (s : text) : cleaned (VStr (strip (filter plain_char s))) = true.
Proof.
  cbn [cleaned]. apply andb_true_iff. split.
  - apply Forall_to_forallb. apply strip_by_incl. apply forallb_Forall. apply forallb_filter.
  - rewrite strip_idempotent. apply text_eqb_refl.
Qed.

Lemma clean_text_cleaned (v : value) : cleaned (clean_text v) = true.
Proof.
  induction v as [|b|z|s|l IH|d IH] using value_induction;
    try (rewrite clean_text_leaf by (reflexivity || discriminate); apply cleaned_text).
  - reflexivity.
  - cbn [clean_text cleaned]. rewrite forallb_over_map.
    apply forallb_forall. rewrite Forall_forall in IH. exact IH.
  - cbn [clean_text cleaned]. rewrite forallb_over_map.
    apply forallb_forall. rewrite Forall_forall in IH. intros kv Hkv. exact (IH kv Hkv).
Qed.

Lemma clean_text_fixed (v : value) : cleaned v = true -> clean_text v = v.
Proof.
  induction v as [|b|z|s|l IH|d IH] using value_induction; intros H; try discriminate.
  - cbn [cleaned] in H. apply andb_true_iff in H. destruct H as [Hp Hs].
    rewrite clean_text_str, (filter_fixed plain_char s Hp).
    f_equal. apply text_eqb_eq. exact Hs.
  - cbn [cleaned] in H. cbn [clean_text]. f_equal.
    rewrite <- (map_id l) at 2. apply map_ext_in. intros x Hx.
    rewrite Forall_forall in IH. apply (IH x Hx).
    rewrite forallb_forall in H. exact (H x Hx).
  - cbn [cleaned] in H. cbn [clean_text]. f_equal.
    rewrite <- (map_id d) at 2. apply map_ext_in. intros [k x] Hx.
    rewrite Forall_forall in IH. cbn [fst snd]. f_equal.
    apply (IH (k, x) Hx). rewrite forallb_forall in H. exact (H (k, x) Hx).
Qed.

(** X25.  Whatever the object, [clean_text] returns strings of ASCII
    characters without backtick and without surrounding whitespace, in the
    lists and dicts of the input; and cleaning twice is cleaning once. *)
Theorem clean_text_cleans_once_and_for_all :
  forall v : value,
    cleaned (clean_text v) = true /\ clean_text (clean_text v) = clean_text v.
Proof.
  intros v. split; [apply clean_text_cleaned|].
  apply clean_text_fixed. apply clean_text_cleaned.
Qed.

(** *** The report of the crew, scored *)

Lemma clean_text_textual (v : value) : container v = false -> textual (clean_text v) = true.
Proof. destruct v; (discriminate || reflexivity). Qed.

(** X26.  The workflow, then the score.  When the static analysis and
    the crew return and no task output is a list or a dict,
    [analyze_repo_with_agents] returns a report on which [extract_score]
    returns a score. *)
Theorem crew_report_is_always_scored :
  forall (analyze_repository : text -> result value)
         (kickoff : text -> result (value * value * value))
         (repo_url : text) (analysis static_task reasoning_task summary_task : value),
    analyze_repository repo_url = Ok analysis ->
    kickoff repo_url = Ok (static_task, reasoning_task, summary_task) ->
    container static_task = false ->
    container reasoning_task = false ->
    container summary_task = false ->
    exists report f,
      analyze_repo_with_agents analyze_repository kickoff repo_url = Ok report
      /\ extract_score report = Ok f.
Proof.
  intros analyze kickoff url analysis a b c Ha Hk Ca Cb Cc.
  unfold analyze_repo_with_agents. rewrite Ha. cbn [bind]. rewrite Hk. cbn [bind].
  eexists. 
  assert (S : scorable
                (VList [report_entry "static" url "Static Analysis" (clean_text a);
                        report_entry "review" url "Code Review" (clean_text b);
                        report_entry "summary" url "Final Summary" (clean_text c)]) = true).
  { unfold scorable, report_entry, field. cbn [forallb lookup].
    change (text_eqb (u "suggestion") (u "type")) with false.
    change (text_eqb (u "suggestion") (u "file")) with false.
    change (text_eqb (u "suggestion") (u "line")) with false.
    change (text_eqb (u "suggestion") (u "message")) with false.
    change (text_eqb (u "suggestion") (u "suggestion")) with true. cbv iota.
    rewrite !clean_text_textual by assumption. reflexivity. }
  destruct (extract_score_on_scorable _ S) as [f E].
  exists f. split; [reflexivity | exact E].
Qed.

Lemma crew_report_is_always_scored_witness :
  exists report f,
    analyze_repo_with_agents sample_analysis sample_kickoff (u "https://github.com/o/r")
    = Ok report
    /\ extract_score report = Ok f.
Proof.
  apply (crew_report_is_always_scored sample_analysis sample_kickoff
           (u "https://github.com/o/r") mixed_findings
           (VStr (u " Pylint: 3 issues " ++ [128269%N]))
           (VStr (u "Use `with` " ++ [8212%N] ++ u " it closes the file"))
           (VStr (u "Score: 7/10 ")));
    reflexivity.
Defined.

End AgentsProps.

(** ** The reasoner with the renderer *)

Module PipelineProps.
Import Py LlmAgent Reporter Views Notions Samples Inputs AgentFacts TextFacts AgentProps ReporterProps.

(** *** The suggestions of the reasoning pass, drawn *)



Section Shapes.
Variable USE_LLM : bool.
Variable endpoint : nat -> text -> result text.








End Shapes.




End PipelineProps.
